(** * Training orchestration and Mahalanobis statistics: a shallow embedding

    The development follows [train/main.py] (class-weight estimation, the
    epoch loop with its checkpoint policy, the fine-tuning weight loader)
    and [eval/mahalanobis.py] (the two-phase mean / covariance estimator).

    Conventions:
    - Python exceptions are the [Raise] branch of [Result]; nothing in the
      two programs catches an exception, so a raise ends the run.
    - float tensors and float scalars are rationals ([Q]): comparisons and
      sums are the exact ones, rounding is not modelled.  The class-weight
      formula uses the real logarithm ([R]).
    - integer tensors keep their width ([int32] wraps around).
    - [print] lines that report a decision are kept as structured events. *)

From Stdlib Require Import ZArith QArith Qabs List Bool Lia Lra Reals.
From Stdlib Require Import String Ascii.
From stdpp Require Import gmap strings pretty.

Import ListNotations.
Local Open Scope string_scope.
Local Open Scope list_scope.

(** ** Exceptions and the result monad *)

Inductive exn : Type :=
  | AssertionError (msg : string)
  | RuntimeError (msg : string)
  | KeyError (key : string)
  | IndexError (msg : string)
  | ValueError (msg : string)
  | AttributeError (msg : string)
  | UnboundLocalError (var : string)
  | ZeroDivisionError
  | FileNotFoundError (path : string).

Inductive Result (A : Type) : Type :=
  | Ok (a : A)
  | Raise (e : exn).
Arguments Ok {A} a.
Arguments Raise {A} e.

Definition rbind {A B} (r : Result A) (k : A -> Result B) : Result B :=
  match r with
  | Ok a => k a
  | Raise e => Raise e
  end.

Notation "'let*' x ':=' r 'in' k" := (rbind r (fun x => k))
  (at level 10, x pattern, r at level 100, k at level 200).

Definition raises {A} (r : Result A) : Prop := exists e, r = Raise e.
Definition returns {A} (r : Result A) : Prop := exists a, r = Ok a.

Definition is_ok {A} (r : Result A) : bool :=
  match r with
  | Ok _ => true
  | Raise _ => false
  end.

Definition assert (b : bool) (msg : string) : Result unit :=
  if b then Ok tt else Raise (AssertionError msg).

(** [for x in xs: body] with a threaded state; a raise leaves the loop. *)
Fixpoint for_each {S X} (body : S -> X -> Result S) (xs : list X) (s : S)
  : Result S :=
  match xs with
  | [] => Ok s
  | x :: xs' => let* s' := body s x in for_each body xs' s'
  end.

(** ** Python string operations used on parameter names *)

Module PyStr.

Definition startswith (s p : string) : bool := String.prefix p s.

(** [sub in s] *)
Fixpoint contains (sub s : string) : bool :=
  match s with
  | EmptyString => String.prefix sub EmptyString
  | String _ s' => String.prefix sub s || contains sub s'
  end.

Fixpoint drop (n : nat) (s : string) : string :=
  match n, s with
  | O, _ => s
  | S _, EmptyString => EmptyString
  | S k, String _ s' => drop k s'
  end.

(** The text after the last occurrence of [sep], if [sep] occurs. *)
Fixpoint after_last (sep s : string) : option string :=
  match s with
  | EmptyString => None
  | String _ s' =>
      match after_last sep s' with
      | Some t => Some t
      | None =>
          if String.prefix sep s then Some (drop (String.length sep) s)
          else None
      end
  end.

(** [s.split(sep)[-1]]; used with [sep = "module."], which cannot overlap
    itself, so the last piece starts after the last occurrence. *)
Definition split_last (sep s : string) : string :=
  match after_last sep s with
  | Some t => t
  | None => s
  end.

Fixpoint remove_go (sep : string) (skip : nat) (s : string) : string :=
  match s with
  | EmptyString => EmptyString
  | String c s' =>
      match skip with
      | S k => remove_go sep k s'
      | O =>
          if String.prefix sep s
          then remove_go sep (String.length sep - 1) s'
          else String c (remove_go sep 0 s')
      end
  end.

(** [s.replace(sep, "")] for a non-empty [sep]. *)
Definition remove_all (sep s : string) : string := remove_go sep 0 s.

End PyStr.

(** ** Tensors: a shape and the elements in row-major order *)

Record Tensor : Type := mkTensor { shape : list nat; data : list Q }.

Definition numel (sh : list nat) : nat := fold_right Nat.mul 1%nat sh.

Definition wf_tensor (t : Tensor) : Prop :=
  List.length (data t) = numel (shape t).

Definition shape_eqb (a b : list nat) : bool :=
  bool_decide (a = b).

Module Torch.

Fixpoint bc_aligned (s t : list nat) : bool :=
  match s, t with
  | [], _ => true
  | _ :: _, [] => false
  | a :: s', b :: t' => ((a =? b) || (a =? 1))%nat && bc_aligned s' t'
  end.

(** [src] can be expanded to [tgt]: dimensions are aligned from the
    right; each source dimension equals the target's or is 1. *)
Definition broadcastable (src tgt : list nat) : bool :=
  bc_aligned (rev src) (rev tgt).

Fixpoint chunks {A} (k cnt : nat) (d : list A) : list (list A) :=
  match cnt with
  | O => []
  | S c => firstn k d :: chunks k c (skipn k d)
  end.

Fixpoint expand (tgt src : list nat) (d : list Q) : list Q :=
  match tgt with
  | [] => d
  | n :: tgt' =>
      if (List.length src <=? List.length tgt')%nat
      then concat (repeat (expand tgt' src d) n)
      else
        match src with
        | [] => d
        | s :: src' =>
            if (s =? n)%nat
            then concat (map (expand tgt' src') (chunks (numel src') s d))
            else concat (repeat (expand tgt' src' d) n)
        end
  end.

(** The elements of [src] as seen through a view of shape [tgt]. *)
Definition broadcast_to (tgt : list nat) (src : Tensor) : Result (list Q) :=
  if shape_eqb (shape src) tgt then Ok (data src)
  else if broadcastable (shape src) tgt then Ok (expand tgt (shape src) (data src))
  else Raise (RuntimeError "The size of tensor a must match the size of tensor b").

(** [self.copy_(src)] *)
Definition copy_ (self src : Tensor) : Result Tensor :=
  let* d := broadcast_to (shape self) src in
  Ok (mkTensor (shape self) d).

Definition zeros_like (t : Tensor) : Tensor :=
  mkTensor (shape t) (repeat 0%Q (numel (shape t))).

(** [t.size(0)] *)
Definition size0 (t : Tensor) : Result nat :=
  match shape t with
  | [] => Raise (IndexError "Dimension specified as 0 but tensor has no dimensions")
  | n :: _ => Ok n
  end.

(** Indexed assignment first drops the leading dimensions of size 1 of
    the value. *)
Fixpoint slicePrefix1sSize (sizes : list nat) : list nat :=
  match sizes with
  | 1%nat :: sizes' => slicePrefix1sSize sizes'
  | _ => sizes
  end.

(** [dst[...] = src] for a view [dst] of shape [view]: equal shapes are
    copied as they are; otherwise the value, without its leading
    dimensions of size 1, is expanded to the view. *)
Definition copy_to (view : list nat) (src : Tensor) : Result (list Q) :=
  if shape_eqb (shape src) view then Ok (data src)
  else broadcast_to view (mkTensor (slicePrefix1sSize (shape src)) (data src)).

(** [t[:n] = src]: the view [t[:n]] has [min n d0] rows. *)
Definition assign_rows (t : Tensor) (n : nat) (src : Tensor) : Result Tensor :=
  match shape t with
  | [] => Raise (IndexError "slice() cannot be applied to a 0-dim tensor")
  | d0 :: rest =>
      let rows := Nat.min n d0 in
      let* d := copy_to (rows :: rest) src in
      Ok (mkTensor (shape t) (d ++ skipn (rows * numel rest) (data t)))
  end.

End Torch.

(** ** Scalars *)

(** [sum(xs)]: Python adds from the left, starting at 0. *)
Definition pysum (xs : list Q) : Q := fold_left Qplus xs 0%Q.

(** [sum(xs) / len(xs)] *)
Definition average (xs : list Q) : Result Q :=
  match xs with
  | [] => Raise ZeroDivisionError
  | _ => Ok (pysum xs / inject_Z (Z.of_nat (List.length xs)))%Q
  end.

(** [a > b] on floats *)
Definition Qgtb (a b : Q) : bool := negb (Qle_bool a b).

(** [max(a, b)]: the first argument unless the second is strictly greater. *)
Definition pymax (a b : Q) : Q := if Qgtb b a then b else a.

(** [range(a, b)] *)
Definition range (a b : Z) : list Z :=
  map (fun i => (a + Z.of_nat i)%Z) (seq 0 (Z.to_nat (b - a))).

(** [f"{n:03}"] *)
Definition fmt03 (n : Z) : string :=
  let digits := pretty (Z.abs n) in
  let width := if (n <? 0)%Z then 2%nat else 3%nat in
  let zeros := String.concat "" (repeat "0" (width - String.length digits)) in
  (if (n <? 0)%Z then "-" else "") +:+ zeros +:+ digits.

(** ** Weight reconciliation ([load_my_state_dict])

    [own_state] is the target model's [state_dict()]: its tensors share
    storage with the model, so the updated map is the updated model.  The
    source [state_dict] is traversed in insertion order. *)

Inductive Event : Type :=
  | SkippedStrippedAbsent (name stripped : string)
  | SkippedSizeMismatch (stripped : string) (own_shape param_shape : list nat)
  | SkippedAbsent (name : string)
  | NotedSizeMismatch (name : string) (own_shape param_shape : list nat).

Record LoadState : Type := mkLoad {
  own_state : gmap string Tensor;
  printed : list Event
}.

Definition say (st : LoadState) (e : Event) : LoadState :=
  mkLoad (own_state st) (printed st ++ [e]).

Definition store (st : LoadState) (name : string) (t : Tensor) : LoadState :=
  mkLoad (<[name := t]> (own_state st)) (printed st).

(** Shapes of the same rank, pointwise no larger, and different. *)
Fixpoint shape_leb (s t : list nat) : bool :=
  match s, t with
  | [], [] => true
  | a :: s', b :: t' => (a <=? b)%nat && shape_leb s' t'
  | _, _ => false
  end.

Definition shape_smaller (s t : list nat) : bool :=
  shape_leb s t && negb (shape_eqb s t).

Definition vec (l : list Q) : Tensor := mkTensor [List.length l] l.
Definition mat2 (rows cols : nat) (l : list Q) : Tensor := mkTensor [rows; cols] l.

(** ** [train/main.py] *)

Module TrainMain.


(** The name patterns of BiSeNet's output heads. *)
Definition is_output_layer (name : string) : bool :=
  PyStr.contains "conv_out.conv_out" name
  || PyStr.contains "conv_out16.conv_out" name
  || PyStr.contains "conv_out32.conv_out" name.

(** One iteration of the loop of [load_my_state_dict] in the fine-tuning
    branch of [main]. *)
Definition load_entry (st : LoadState) (entry : string * Tensor)
  : Result LoadState :=
  let '(name, param) := entry in
  match own_state st !! name with
  | None =>
      if PyStr.startswith name "module." then
        let stripped_name := PyStr.split_last "module." name in
        match own_state st !! stripped_name with
        | None => Ok (say st (SkippedStrippedAbsent name stripped_name))
        | Some own =>
            if negb (shape_eqb (shape own) (shape param)) then
              Ok (say st (SkippedSizeMismatch stripped_name (shape own) (shape param)))
            else
              let* own' := Torch.copy_ own param in
              Ok (store st stripped_name own')
        end
      else Ok (say st (SkippedAbsent name))
  | Some own =>
      let st1 :=
        if negb (shape_eqb (shape own) (shape param))
        then say st (NotedSizeMismatch name (shape own) (shape param))
        else st in
      if is_output_layer name then
        let new_param := Torch.zeros_like own in
        let* n := Torch.size0 param in
        let* new_param := Torch.assign_rows new_param n param in
        let* own' := Torch.copy_ own new_param in
        Ok (store st1 name own')
      else
        let* own' := Torch.copy_ own param in
        Ok (store st1 name own')
  end.

Definition load_my_state_dict (model : gmap string Tensor)
    (state_dict : list (string * Tensor)) : Result LoadState :=
  for_each load_entry state_dict (mkLoad model []).

(** The loader used for [--state]: exact names only. *)
Definition load_entry_state (st : LoadState) (entry : string * Tensor)
  : Result LoadState :=
  let '(name, param) := entry in
  match own_state st !! name with
  | None => Ok st
  | Some own =>
      let* own' := Torch.copy_ own param in
      Ok (store st name own')
  end.

(** *** Class weights ([calculate_class_weights]) *)

(** [np.bincount(flat, minlength)]: one counter per value from 0 up to
    the largest label (at least [minlength] counters); negative labels
    are refused. *)
Definition bincount (flat : list Z) (minlength : nat) : Result (list Z) :=
  if existsb (fun v => (v <? 0)%Z) flat then
    Raise (ValueError "'list' argument must have no negative elements")
  else
    let top := Z.to_nat (fold_right Z.max (-1)%Z flat + 1) in
    Ok (map (fun k => Z.of_nat (count_occ Z.eq_dec flat (Z.of_nat k)))
            (seq 0 (Nat.max minlength top))).

(** [class_count += counts]: [class_count] starts as the integer 0 and is
    an array from the first batch on. *)
Definition add_counts (class_count : option (list Z)) (counts : list Z)
  : Result (list Z) :=
  match class_count with
  | None => Ok counts
  | Some acc =>
      if (List.length acc =? List.length counts)%nat
      then Ok (map (fun p => (fst p + snd p)%Z) (combine acc counts))
      else match counts with
           | [x] => Ok (map (fun a => (a + x)%Z) acc)
           | _ => Raise (ValueError "operands could not be broadcast together")
           end
  end.

Definition count_batch (acc : option (list Z) * Z) (num_classes : nat)
    (label : list Z) : Result (option (list Z) * Z) :=
  let '(class_count, total) := acc in
  let* counts := bincount label num_classes in
  let* class_count' := add_counts class_count counts in
  Ok (Some class_count', (total + Z.of_nat (List.length label))%Z).

(** The loader yields the label array of each batch, flattened. *)
Definition calculate_class_weights (dataloader : list (list Z))
    (num_classes : nat) (c : R) : Result (list R) :=
  let* (class_count, total) :=
    for_each (fun acc label => count_batch acc num_classes label)
             dataloader (None, 0%Z) in
  match class_count with
  | None => Raise ZeroDivisionError
  | Some counts =>
      Ok (map (fun n => (1 / ln (c + IZR n / IZR total))%R) counts)
  end.

(** In the words of the specification: a label is a class index; the
    histogram of a label array; the number of pixels labelled [k] and
    the number of pixels over one full traversal. *)
Definition in_range (num_classes : nat) (l : Z) : Prop :=
  (0 <= l < Z.of_nat num_classes)%Z.

Definition counts_of (flat : list Z) (n : nat) : list Z :=
  map (fun k => Z.of_nat (count_occ Z.eq_dec flat (Z.of_nat k))) (seq 0 n).

Definition pixels_labelled (loader : list (list Z)) (k : nat) : Z :=
  Z.of_nat (count_occ Z.eq_dec (concat loader) (Z.of_nat k)).

Definition total_pixels (loader : list (list Z)) : Z :=
  Z.of_nat (List.length (concat loader)).

(** *** The training run ([train]) *)

Inductive ModelName : Type := erfnet | erfnet_isomaxplus | bisenet | enet.

Definition ModelName_eqb (a b : ModelName) : bool :=
  match a, b with
  | erfnet, erfnet | erfnet_isomaxplus, erfnet_isomaxplus
  | bisenet, bisenet | enet, enet => true
  | _, _ => false
  end.

Module Args.
Record t : Type := mk {
  cuda : bool;
  model : ModelName;
  num_epochs : Z;
  epochs_save : Z;
  savedir : string;
  loss : string;
  iouTrain : bool;
  iouVal : bool;
  resume : bool;
  FineTune : bool
}.
End Args.

(** The network: [wrapped] says that it is a [DataParallel] wrapper, so
    that [model.module] exists; [weights] is [model.state_dict()]. *)
Record Model : Type := mkModel {
  wrapped : bool;
  has_loss_first_part : bool;
  arch : string;
  weights : gmap string Tensor
}.

Definition Blob : Type := list Z.

Record Optimizer : Type := mkOptimizer { lr : Q; opt_state : Blob }.

Record Checkpoint : Type := mkCheckpoint {
  ck_epoch : Z;
  ck_arch : string;
  ck_state_dict : gmap string Tensor;
  ck_loss_first_part_state_dict : option (gmap string Tensor);
  ck_best_acc : Q;
  ck_optimizer : Optimizer
}.

Record EpochRecord : Type := mkRow {
  row_epoch : Z;
  row_train_loss : Q;
  row_val_loss : Q;
  row_train_iou : Q;
  row_val_iou : Q;
  row_lr : Q
}.

Inductive LogLine : Type :=
  | HeaderLine
  | RowLine (r : EpochRecord).

Inductive File : Type :=
  | CheckpointFile (c : Checkpoint)
  | ModelFile (state_dict : gmap string Tensor)
              (loss_first_part_state_dict : option (gmap string Tensor))
  | LogFile (lines : list LogLine)
  | BestFile (epoch : Z) (iou : Q)
  | ModelTxt (repr : string).

(** [open(path, "a").write(line)] *)
Definition append_line (disk : gmap string File) (path : string) (l : LogLine)
  : gmap string File :=
  match disk !! path with
  | Some (LogFile ls) => <[path := LogFile (ls ++ [l])]> disk
  | _ => <[path := LogFile [l]]> disk
  end.

(** The sub-module state dict [model.module.<path>.state_dict()]. *)
Definition sub_state_dict (prefix : string) (m : Model)
  : Result (gmap string Tensor) :=
  if wrapped m then
    Ok (list_to_map
          (omap (fun kv : string * Tensor =>
                   if PyStr.startswith (fst kv) prefix
                   then Some (PyStr.drop (String.length prefix) (fst kv), snd kv)
                   else None)
                (map_to_list (weights m))))
  else Raise (AttributeError "object has no attribute 'module'").

(** [model.load_state_dict(state_dict)] with the default [strict=True]:
    the key sets must coincide and every shape must agree; the values
    are then copied into the parameters. *)
Definition shapes_agree (own sd : gmap string Tensor) : bool :=
  forallb (fun kv : string * Tensor =>
             match own !! fst kv with
             | Some t => shape_eqb (shape t) (shape (snd kv))
             | None => false
             end)
          (map_to_list sd).

Definition load_state_dict (m : Model) (sd : gmap string Tensor) : Result Model :=
  if bool_decide (dom sd = dom (weights m)) && shapes_agree (weights m) sd
  then Ok (mkModel (wrapped m) (has_loss_first_part m) (arch m) sd)
  else Raise (RuntimeError "Error(s) in loading state_dict").

(** [{key.replace("module.", ""): value for key, value in sd.items()}];
    should two keys collapse into one, a later entry replaces an earlier
    one. *)
Definition strip_module_keys (sd : gmap string Tensor) : gmap string Tensor :=
  fold_left (fun acc kv => <[PyStr.remove_all "module." (fst kv) := snd kv]> acc)
            (map_to_list sd) ∅.

Definition filenameCheckpoint (savedir : string) (enc : bool) : string :=
  savedir +:+ (if enc then "/checkpoint_enc.pth.tar" else "/checkpoint.pth.tar").

Definition filenameBest (savedir : string) (enc : bool) : string :=
  savedir +:+ (if enc then "/model_best_enc.pth.tar" else "/model_best.pth.tar").

Definition automated_log_path (savedir : string) (enc : bool) : string :=
  savedir +:+ (if enc then "/automated_log_encoder.txt" else "/automated_log.txt").

Definition read_local {A} (name : string) (v : option A) : Result A :=
  match v with
  | Some a => Ok a
  | None => Raise (UnboundLocalError name)
  end.

Definition save_checkpoint (state : Checkpoint) (is_best : bool)
    (filenameCheckpoint filenameBest : string) (disk : gmap string File)
  : gmap string File :=
  let disk := <[filenameCheckpoint := CheckpointFile state]> disk in
  if is_best then <[filenameBest := CheckpointFile state]> disk else disk.

Definition save_model (m : Model) (filename : string) (save_isomax : bool)
    (disk : gmap string File) : Result (gmap string File) :=
  if save_isomax then
    let* _ := (if wrapped m then Ok tt
               else Raise (AttributeError "object has no attribute 'module'")) in
    if has_loss_first_part m then
      let* lfp := sub_state_dict "module.decoder.loss_first_part." m in
      Ok (<[filename := ModelFile (weights m) (Some lfp)]> disk)
    else Ok (<[filename := ModelFile (weights m) None]> disk)
  else Ok (<[filename := ModelFile (weights m) None]> disk).

Definition new_optimizer (args : Args.t) : Optimizer :=
  let fine := Args.FineTune args in
  match Args.model args with
  | erfnet | erfnet_isomaxplus | enet =>
      mkOptimizer (if fine then 5 # 100000 else 5 # 10000) []
  | bisenet => mkOptimizer (if fine then 25 # 10000 else 25 # 1000) []
  end.

(** What the loop keeps between epochs. *)
Record Loop : Type := mkLoop {
  lp_model : Model;
  lp_optimizer : Optimizer;
  lp_best_acc : Q;
  lp_disk : gmap string File
}.

Section Train.

(** The data-dependent work of one epoch: the training pass over
    [loader] (forward, loss, backward, optimizer step) returns the
    updated network and optimizer with the loss of each batch; the
    validation pass returns the loss of each batch of [loader_val];
    [getIoU] gives the mean IoU of a pass; the scheduler gives the
    learning rate of the epoch. *)
Variable train_pass : Args.t -> bool -> Z -> Model -> Optimizer ->
                      Model * Optimizer * list Q.
Variable val_pass : Args.t -> bool -> Z -> Model -> list Q.
Variable getIoU_train : Z -> Model -> Q.
Variable getIoU_val : Z -> Model -> Q.
Variable scheduler_lr : Args.t -> Z -> Optimizer -> Q.

(** Lines 380-383: the value compared with the best so far. *)
Definition current_acc (iouVal average_epoch_loss_val : Q) : Q :=
  if Qeq_bool iouVal 0 then (- average_epoch_loss_val)%Q else iouVal.

(** Lines 372-374: [iouVal] stays 0 unless [--iouVal] is set. *)
Definition iouVal_of (args : Args.t) (epoch : Z) (model : Model) : Q :=
  if Args.iouVal args then getIoU_val epoch model else 0%Q.

(** Lines 379-453: the bookkeeping at the end of an epoch.  [step] is
    the loop variable left behind by the validation loop. *)
Definition epoch_end (args : Args.t) (enc : bool) (savedir : string)
    (epoch step : Z) (model : Model) (optimizer : Optimizer)
    (best_acc : Q) (disk : gmap string File)
    (average_epoch_loss_train average_epoch_loss_val iouTrain iouVal usedLr : Q)
  : Result Loop :=
  let current_acc := current_acc iouVal average_epoch_loss_val in
  let is_best := Qgtb current_acc best_acc in
  let best_acc := pymax current_acc best_acc in
  let filenameCheckpoint := filenameCheckpoint savedir enc in
  let filenameBest := filenameBest savedir enc in
  let isomax := ModelName_eqb (Args.model args) erfnet_isomaxplus in
  let* lfp :=
    (if isomax
     then let* d := sub_state_dict "module.decoder." model in Ok (Some d)
     else Ok None) in
  let state := mkCheckpoint (epoch + 1) (arch model) (weights model) lfp
                            best_acc optimizer in
  let disk := save_checkpoint state is_best filenameCheckpoint filenameBest disk in
  let filename :=
    savedir +:+ (if enc then "/model_encoder-" else "/model-")
            +:+ fmt03 epoch +:+ ".pth" in
  let filenamebest :=
    savedir +:+ (if enc then "/model_encoder_best.pth" else "/model_best.pth") in
  let* disk :=
    (if (0 <? Args.epochs_save args)%Z && (0 <? step)%Z
        && (step mod Args.epochs_save args =? 0)%Z
     then save_model model filename isomax disk
     else Ok disk) in
  let* disk :=
    (if is_best then
       let* disk := save_model model filenamebest isomax disk in
       Ok (<[savedir +:+ (if enc then "/best_encoder.txt" else "/best.txt")
             := BestFile epoch iouVal]> disk)
     else Ok disk) in
  let disk := append_line disk (automated_log_path savedir enc)
    (RowLine (mkRow epoch average_epoch_loss_train average_epoch_loss_val
                    iouTrain iouVal usedLr)) in
  Ok (mkLoop model optimizer best_acc disk).

(** The body of [for epoch in range(start_epoch, args.num_epochs+1)]. *)
Definition train_epoch (args : Args.t) (enc : bool) (savedir : string)
    (st : Loop) (epoch : Z) : Result Loop :=
  let usedLr := scheduler_lr args epoch (lp_optimizer st) in
  let '(model, optimizer, epoch_loss) :=
    train_pass args enc epoch (lp_model st) (lp_optimizer st) in
  let* average_epoch_loss_train := average epoch_loss in
  let iouTrain := if Args.iouTrain args then getIoU_train epoch model else 0%Q in
  let epoch_loss_val := val_pass args enc epoch model in
  let* average_epoch_loss_val := average epoch_loss_val in
  let iouVal := iouVal_of args epoch model in
  let step := (Z.of_nat (List.length epoch_loss_val) - 1)%Z in
  epoch_end args enc savedir epoch step model optimizer (lp_best_acc st)
            (lp_disk st) average_epoch_loss_train average_epoch_loss_val
            iouTrain iouVal usedLr.

(** Lines 212-217: building the scheduler.  [LambdaLR] evaluates
    [lambda1] once, at epoch 0, when it is constructed, and the quotient
    [(epoch - 1) / args.num_epochs] divides by zero for zero epochs;
    [StepLR] (enet) evaluates nothing.  For the epochs of the loop the
    quotient is defined, and the rate is [scheduler_lr]. *)
Definition new_scheduler (args : Args.t) : Result unit :=
  match Args.model args with
  | erfnet | erfnet_isomaxplus | bisenet =>
      if (Args.num_epochs args =? 0)%Z then Raise ZeroDivisionError else Ok tt
  | enet => Ok tt
  end.

(** [train(args, model, enc)].  The transforms, the datasets, the class
    weights and the criterion only feed the passes over the loaders and
    are part of [train_pass] and [val_pass]; the dashboard and the
    progress prints are left out.  What is kept: the checks that can stop
    the run, every file that is written, the resume block, the
    construction of the scheduler and the epoch loop. *)
Definition train (args : Args.t) (model : Model) (enc : bool)
    (datadir_exists : bool) (disk : gmap string File)
  : Result (Model * gmap string File) :=
  let best_acc := 0%Q in
  let* _ := assert datadir_exists
    "Error: datadir (dataset directory) could not be loaded" in
  let* _ :=
    (if ModelName_eqb (Args.model args) erfnet
        && bool_decide (Args.loss args = "IsoMaxPlus")
     then Raise (ValueError
       "To use IsoMaxPlus loss, please use the erfnet_isomaxplus model")
     else Ok tt) in
  let savedir := "../save/" +:+ Args.savedir args in
  let automated_log_path := automated_log_path savedir enc in
  let modeltxtpath :=
    savedir +:+ (if enc then "/model_encoder.txt" else "/model.txt") in
  let disk :=
    match disk !! automated_log_path with
    | None => append_line disk automated_log_path HeaderLine
    | Some _ => disk
    end in
  let disk := <[modeltxtpath := ModelTxt (arch model)]> disk in
  (* [optimizer] is a local of [train] that is assigned further down *)
  let optimizer : option Optimizer := None in
  let start_epoch := 1%Z in
  let* (start_epoch, model, best_acc) :=
    (if Args.resume args then
       let filenameCheckpoint := filenameCheckpoint savedir enc in
       let* _ := assert (bool_decide (is_Some (disk !! filenameCheckpoint)))
         "Error: resume option was used but checkpoint was not found in folder" in
       let* checkpoint :=
         match disk !! filenameCheckpoint with
         | Some (CheckpointFile c) => Ok c
         | _ => Raise (KeyError "epoch")
         end in
       let start_epoch := ck_epoch checkpoint in
       let state_dict := strip_module_keys (ck_state_dict checkpoint) in
       let* model := load_state_dict model state_dict in
       let* opt := read_local "optimizer" optimizer in
       let _loaded := mkOptimizer (lr opt) (opt_state (ck_optimizer checkpoint)) in
       let best_acc := ck_best_acc checkpoint in
       Ok (start_epoch, model, best_acc)
     else Ok (start_epoch, model, best_acc)) in
  let* _ :=
    (if Args.FineTune args && negb (wrapped model)
     then Raise (AttributeError "object has no attribute 'module'")
     else Ok tt) in
  let optimizer := new_optimizer args in
  let* _ := new_scheduler args in
  let* final :=
    for_each (train_epoch args enc savedir)
             (range start_epoch (Args.num_epochs args + 1))
             (mkLoop model optimizer best_acc disk) in
  Ok (lp_model final, lp_disk final).

End Train.

End TrainMain.

(** ** [eval/mahalanobis.py] *)

Module Mahalanobis.


(** One iteration of the loop of [load_my_state_dict] in
    [eval/mahalanobis.py]. *)
Definition load_entry (st : LoadState) (entry : string * Tensor)
  : Result LoadState :=
  let '(name, param) := entry in
  match own_state st !! name with
  | None =>
      if PyStr.startswith name "module." then
        let stripped := PyStr.split_last "module." name in
        match own_state st !! stripped with
        | None => Raise (KeyError stripped)
        | Some own =>
            let* own' := Torch.copy_ own param in
            Ok (store st stripped own')
        end
      else Ok (say st (SkippedAbsent name))
  | Some own =>
      let* own' := Torch.copy_ own param in
      Ok (store st name own')
  end.

Definition load_my_state_dict (model : gmap string Tensor)
    (state_dict : list (string * Tensor)) : Result LoadState :=
  for_each load_entry state_dict (mkLoad model []).

(** *** The statistics program ([main]) *)

Definition NUM_CLASSES : nat := 19.

Inductive Device : Type := cpu_device | cuda_device.

Definition Device_eqb (a b : Device) : bool :=
  match a, b with
  | cpu_device, cpu_device | cuda_device, cuda_device => true
  | _, _ => false
  end.

Module Args.
Record t : Type := mk {
  loadDir : string;
  loadWeights : string;
  model : string;
  cpu : bool;
  mean : string
}.
End Args.

(** The machine the program runs on. *)
Record Host : Type := mkHost {
  cuda_available : bool;
  datadir_exists : bool
}.

Inductive File : Type :=
  | WeightsFile (state_dict : list (string * Tensor))
  | NpyFile (array : list (list Q)).

(** [.cuda()] and [device='cuda'] need a CUDA device. *)
Definition to_cuda (h : Host) : Result Device :=
  if cuda_available h then Ok cuda_device
  else Raise (RuntimeError "Found no NVIDIA driver on your system").

(** Binary tensor operations need both operands on one device. *)
Definition same_device (a b : Device) : Result Device :=
  if Device_eqb a b then Ok a
  else Raise (RuntimeError "Expected all tensors to be on the same device").

Definition torch_load (disk : gmap string File) (path : string)
  : Result (list (string * Tensor)) :=
  match disk !! path with
  | Some (WeightsFile sd) => Ok sd
  | Some (NpyFile _) => Raise (RuntimeError "Invalid magic number; corrupt file?")
  | None => Raise (FileNotFoundError path)
  end.

Definition np_load (disk : gmap string File) (path : string)
  : Result (list (list Q)) :=
  match disk !! path with
  | Some (NpyFile a) => Ok a
  | Some (WeightsFile _) => Raise (ValueError "Cannot load file containing pickled data")
  | None => Raise (FileNotFoundError path)
  end.

(** [int32] arithmetic: the result is reduced to [-2^31, 2^31). *)
Definition wrap32 (z : Z) : Z := ((z + 2 ^ 31) mod 2 ^ 32 - 2 ^ 31)%Z.

(** [(labels == c).squeeze()] *)
Definition mask_of (labels : list Z) (c : nat) : list bool :=
  map (fun l => (l =? Z.of_nat c)%Z) labels.

(** [torch.sum(mask)] *)
Definition count_true (mask : list bool) : Z :=
  Z.of_nat (List.length (List.filter (fun b : bool => b) mask)).

(** [row[mask]]: boolean indexing keeps the entries whose mask is set;
    the mask must have the length of the row. *)
Definition select (mask : list bool) (row : list Q) : Result (list Q) :=
  if (List.length mask =? List.length row)%nat
  then Ok (map snd (List.filter (fun p : bool * Q => fst p) (combine mask row)))
  else Raise (IndexError "The shape of the mask does not match the indexed tensor").

Fixpoint mapM {A B} (f : A -> Result B) (xs : list A) : Result (list B) :=
  match xs with
  | [] => Ok []
  | x :: xs' => let* y := f x in let* ys := mapM f xs' in Ok (y :: ys)
  end.

(** [result[:, mask]] for a channel-major [result] *)
Definition select_columns (mask : list bool) (result : list (list Q))
  : Result (list (list Q)) :=
  mapM (select mask) result.

(** [acc += v] for a vector accumulator: [v] has the length of [acc] or
    is a single value *)
Definition vec_iadd (acc v : list Q) : Result (list Q) :=
  if (List.length v =? List.length acc)%nat
  then Ok (zip_with Qplus acc v)
  else match v with
       | [x] => Ok (map (fun a => (a + x)%Q) acc)
       | _ => Raise (RuntimeError "output with shape doesn't match the broadcast shape")
       end.

(** [rows - col.unsqueeze(1)]: row [i] minus the [i]-th entry of [col] *)
Definition sub_column (rows : list (list Q)) (col : list Q)
  : Result (list (list Q)) :=
  if (List.length rows =? List.length col)%nat
  then Ok (zip_with (fun row m => map (fun x => (x - m)%Q) row) rows col)
  else match rows, col with
       | _, [m] => Ok (map (map (fun x => (x - m)%Q)) rows)
       | [r], _ => Ok (map (fun m => map (fun x => (x - m)%Q) r) col)
       | _, _ => Raise (RuntimeError "The size of tensor a must match the size of tensor b")
       end.

Definition dot (a b : list Q) : Q :=
  pysum (zip_with Qmult a b).

(** [m @ m.T] *)
Definition gram (m : list (list Q)) : list (list Q) :=
  map (fun ri => map (fun rj => dot ri rj) m) m.

(** [acc += g] for a matrix accumulator: [g] has the shape of [acc] (the
    Gram matrix is square) or is one by one *)
Definition mat_iadd (acc g : list (list Q)) : Result (list (list Q)) :=
  if (List.length g =? List.length acc)%nat
     && forallb (fun r => (List.length r =? List.length g)%nat) acc
  then Ok (zip_with (zip_with Qplus) acc g)
  else match g with
       | [[x]] => Ok (map (map (fun a => (a + x)%Q)) acc)
       | _ => Raise (RuntimeError "output with shape doesn't match the broadcast shape")
       end.

Definition zeros (rows cols : nat) : list (list Q) :=
  repeat (repeat 0%Q cols) rows.

(** [t[c]] *)
Definition row_at {A} (t : list A) (c : nat) : Result A :=
  match t !! c with
  | Some r => Ok r
  | None => Raise (IndexError "index out of bounds")
  end.

Record Batch (Image : Type) : Type := mkBatch {
  images : Image;
  labels : list Z
}.
Arguments mkBatch {Image} images labels.
Arguments images {Image} b.
Arguments labels {Image} b.

(** The state of the pass over the loader. *)
Record Acc : Type := mkAcc {
  cov_matrix : list (list Q);
  num_images : Z;
  sum_per_class : list (list Q);
  pixel_count_per_class : list Z
}.

Definition read_mean (v : option (Device * list (list Q)))
  : Result (Device * list (list Q)) :=
  match v with
  | Some m => Ok m
  | None => Raise (UnboundLocalError "pre_computed_mean")
  end.

Section Main.

Variable Image : Type.
(** The frozen network: from the architecture tag, the loaded weights
    and one image to the class scores, one row per output channel and
    one column per pixel. *)
Variable forward : string -> gmap string Tensor -> Image -> list (list Q).

(** Lines 107-114: the class scores of one image, without the last
    channel. *)
Definition result_of (args : Args.t) (weights : gmap string Tensor)
    (b : Batch Image) : list (list Q) :=
  firstn NUM_CLASSES (forward (Args.model args) weights (images b)).

(** Lines 119-127: one class of the mean pass. *)
Definition mean_class (dev_acc dev_result : Device) (labels : list Z)
    (result : list (list Q)) (a : Acc) (c : nat) : Result Acc :=
  let mask := mask_of labels c in
  let* cols := select_columns mask result in
  let* _ := same_device dev_acc dev_result in
  let* row := row_at (sum_per_class a) c in
  let* row' := vec_iadd row (map pysum cols) in
  let* cnt := row_at (pixel_count_per_class a) c in
  Ok (mkAcc (cov_matrix a) (num_images a)
            (<[c := row']> (sum_per_class a))
            (<[c := wrap32 (cnt + count_true mask)]> (pixel_count_per_class a))).

(** Lines 130-138: one class of the covariance pass. *)
Definition cov_class (dev_cov dev_result dev_mean : Device)
    (pre_computed_mean : list (list Q)) (labels : list Z)
    (result : list (list Q)) (a : Acc) (c : nat) : Result Acc :=
  let mask := mask_of labels c in
  let* cols := select_columns mask result in
  let* mu := row_at pre_computed_mean c in
  let* dev_centered := same_device dev_result dev_mean in
  let* centered := sub_column cols mu in
  let* _ := same_device dev_cov dev_centered in
  let* cov := mat_iadd (cov_matrix a) (gram centered) in
  Ok (mkAcc cov (num_images a) (sum_per_class a) (pixel_count_per_class a)).

(** The body of [for images, labels in tqdm(loader)]. *)
Definition image_step (args : Args.t) (weights : gmap string Tensor)
    (dev_model dev_cov dev_acc : Device)
    (pre_computed_mean : option (Device * list (list Q)))
    (a : Acc) (b : Batch Image) : Result Acc :=
  let mean_is_computed := (0 <? String.length (Args.mean args))%nat in
  let result := result_of args weights b in
  let* a :=
    (if negb mean_is_computed then
       for_each (mean_class dev_acc dev_model (labels b) result)
                (seq 0 NUM_CLASSES) a
     else
       let* (dev_mean, mu) := read_mean pre_computed_mean in
       for_each (cov_class dev_cov dev_model dev_mean mu (labels b) result)
                (seq 0 NUM_CLASSES) a) in
  Ok (mkAcc (cov_matrix a) (num_images a + 1) (sum_per_class a)
            (pixel_count_per_class a)).

(** Lines 144-146: the division, for the classes that were seen. *)
Definition finalize_means (a : Acc) : Result (list (list Q)) :=
  let* rows :=
    for_each (fun rows c =>
                let* cnt := row_at (pixel_count_per_class a) c in
                if (0 <? cnt)%Z then
                  let* row := row_at rows c in
                  Ok (<[c := map (fun x => (x / inject_Z cnt)%Q) row]> rows)
                else Ok rows)
             (seq 0 NUM_CLASSES) (sum_per_class a) in
  Ok rows.

(** Line 153: [cov_matrix /= (num_images*512*1024)] *)
Definition finalize_cov (a : Acc) : list (list Q) :=
  map (map (fun x => (x / inject_Z (num_images a * 512 * 1024))%Q))
      (cov_matrix a).

(** The two artifacts: [f"{args.loadDir}/save/..._{args.model}.npy"] *)
Definition mean_artifact_path (args : Args.t) : string :=
  Args.loadDir args +:+ "/save/mean_cityscapes_" +:+ Args.model args +:+ ".npy".

Definition cov_artifact_path (args : Args.t) : string :=
  Args.loadDir args +:+ "/save/cov_cityscapes_" +:+ Args.model args +:+ ".npy".

(** The accumulators before the first image (lines 96-100). *)
Definition initial_acc : Acc :=
  mkAcc (zeros NUM_CLASSES NUM_CLASSES) 0
        (zeros NUM_CLASSES NUM_CLASSES) (repeat 0%Z NUM_CLASSES).

Definition main (args : Args.t) (host : Host) (net : gmap string Tensor)
    (loader : list (Batch Image)) (disk : gmap string File)
  : Result (gmap string File) :=
  let weightspath := Args.loadDir args +:+ Args.loadWeights args in
  let mean_is_computed := (0 <? String.length (Args.mean args))%nat in
  let mean_path := Args.loadDir args +:+ Args.mean args in
  let* _ := assert (datadir_exists host)
    "Error: datadir (dataset directory) could not be loaded" in
  let* pre_computed_mean :=
    (if mean_is_computed then
       let* arr := np_load disk mean_path in
       let* d := to_cuda host in
       Ok (Some (d, arr))
     else Ok None) in
  (* model = ERFNet(NUM_CLASSES+1), wrapped and moved unless --cpu *)
  let* dev_model :=
    (if negb (Args.cpu args) then to_cuda host else Ok cpu_device) in
  let own : gmap string Tensor :=
    if negb (Args.cpu args) then kmap (String.append "module.") net else net in
  let* state_dict := torch_load disk weightspath in
  let* loaded := load_my_state_dict own state_dict in
  let weights := own_state loaded in
  let* dev_cov := to_cuda host in
  let* dev_acc :=
    (if Args.cpu args then Ok cpu_device else to_cuda host) in
  let* a :=
    for_each (image_step args weights dev_model dev_cov dev_acc pre_computed_mean)
             loader initial_acc in
  if negb mean_is_computed then
    let* means := finalize_means a in
    Ok (<[mean_artifact_path args := NpyFile means]> disk)
  else
    Ok (<[cov_artifact_path args := NpyFile (finalize_cov a)]> disk).

(** *** The statistics in the words of the specification *)

(** The model output has the [NUM_CLASSES] channels that are kept and
    one value per labelled pixel in each. *)
Definition wf_batch (args : Args.t) (weights : gmap string Tensor)
    (b : Batch Image) : Prop :=
  List.length (result_of args weights b) = NUM_CLASSES
  /\ Forall (fun row => List.length row = List.length (labels b))
            (result_of args weights b).

(** The values of one channel at exactly the pixels labelled [c]. *)
Definition labelled_values (c : nat) (labels : list Z) (row : list Q) : list Q :=
  map snd (List.filter (fun p : Z * Q => (fst p =? Z.of_nat c)%Z)
                       (combine labels row)).

(** Channel [i] of the feature vectors of all pixels labelled [c], over
    the whole traversal. *)
Definition values_at_class (args : Args.t) (weights : gmap string Tensor)
    (loader : list (Batch Image)) (c i : nat) : list Q :=
  flat_map (fun b => labelled_values c (labels b)
                       (nth i (result_of args weights b) []))
           loader.

Definition pixels_with_label (loader : list (Batch Image)) (c : nat) : Z :=
  Z.of_nat (List.length
    (List.filter (fun l => (l =? Z.of_nat c)%Z) (flat_map labels loader))).

Definition arithmetic_mean (xs : list Q) : Q :=
  (pysum xs / inject_Z (Z.of_nat (List.length xs)))%Q.

(** Entry [(i, j)] of the outer product of each centered feature
    vector of one image and one class [c]: the vector of a pixel
    labelled [c] minus the mean of class [c]. *)
Definition class_products (args : Args.t) (weights : gmap string Tensor)
    (mean : list (list Q)) (b : Batch Image) (c i j : nat) : list Q :=
  map (fun p : Q * Q =>
         ((fst p - nth i (nth c mean []) 0) *
          (snd p - nth j (nth c mean []) 0))%Q)
      (combine
         (labelled_values c (labels b) (nth i (result_of args weights b) []))
         (labelled_values c (labels b) (nth j (result_of args weights b) []))).

(** The same entries for all images and all classes, pooled. *)
Definition centered_products (args : Args.t) (weights : gmap string Tensor)
    (mean : list (list Q)) (loader : list (Batch Image)) (i j : nat)
  : list Q :=
  flat_map (fun b =>
              flat_map (fun c => class_products args weights mean b c i j)
                       (seq 0 NUM_CLASSES))
           loader.

(** A square table of per-class means, as written by the mean pass. *)
Definition wf_mean (mean : list (list Q)) : Prop :=
  List.length mean = NUM_CLASSES
  /\ Forall (fun row => List.length row = NUM_CLASSES) mean.

End Main.

End Mahalanobis.

(** ** A small fixture: two validation/training batches, one parameter *)

Module Fixture.
Import TrainMain.

Definition net : Model :=
  mkModel false false "ERFNet" {[ "encoder.weight" := vec [1; 2]%Q ]}.

Definition train_pass (_ : Args.t) (_ : bool) (_ : Z) (m : Model) (o : Optimizer)
  : Model * Optimizer * list Q := (m, o, [1; 2]%Q).

(** Three validation batches: the validation loop ends with [step = 2]. *)
Definition val_pass3 (_ : Args.t) (_ : bool) (_ : Z) (_ : Model) : list Q :=
  [3; 1; 2]%Q.

(** Two validation batches: the validation loop ends with [step = 1]. *)
Definition val_pass2 (_ : Args.t) (_ : bool) (_ : Z) (_ : Model) : list Q :=
  [3; 1]%Q.

Definition getIoU (epoch : Z) (_ : Model) : Q := (inject_Z epoch / 10)%Q.

(** A network that gets no pixel right. *)
Definition getIoU_zero (_ : Z) (_ : Model) : Q := 0%Q.

Definition scheduler_lr (_ : Args.t) (_ : Z) (o : Optimizer) : Q := lr o.

Definition args (num_epochs epochs_save : Z) (resume : bool) : Args.t :=
  Args.mk false erfnet num_epochs epochs_save "run" "CrossEntropy"
          false true resume false.

Definition run (val_pass : Args.t -> bool -> Z -> Model -> list Q)
    (num_epochs epochs_save : Z) (resume : bool) (disk : gmap string File)
  : Result (Model * gmap string File) :=
  train train_pass val_pass getIoU getIoU scheduler_lr
        (args num_epochs epochs_save resume) net false true disk.

(** One batch of ten pixels: nine of class 0, one of class 1. *)
Definition labels_90_10 : list (list Z) := [[0; 0; 0; 1; 0; 0; 0; 0; 0; 0]%Z].

Definition disk_of (r : Result (Model * gmap string File)) : gmap string File :=
  match r with
  | Ok (_, d) => d
  | Raise _ => ∅
  end.

Definition has_file (d : gmap string File) (path : string) : bool :=
  bool_decide (is_Some (d !! path)).

(** The epoch indices of the rows of the log file. *)
Definition logged_epochs (d : gmap string File) (path : string) : list Z :=
  match d !! path with
  | Some (LogFile ls) =>
      omap (fun l => match l with RowLine r => Some (row_epoch r) | HeaderLine => None end) ls
  | _ => []
  end.

Definition rolling_epoch (d : gmap string File) (path : string) : option Z :=
  match d !! path with
  | Some (CheckpointFile c) => Some (ck_epoch c)
  | _ => None
  end.

End Fixture.

(** ** A fixture for the statistics program: the network is the identity
    on images that are already class scores *)

Module StatsFixture.
Import Mahalanobis.

Definition Image : Type := list (list Q).

Definition forward (_ : string) (_ : gmap string Tensor) (img : Image)
  : list (list Q) := img.

Definition args (cpu : bool) (mean : string) : Args.t :=
  Args.mk "/data/" "erfnet_pretrained.pth" "erfnet" cpu mean.

(** Twenty channels, three pixels: channel [k] holds [k], [k+1], [k+2]. *)
Definition ramp : Image :=
  map (fun k => [inject_Z (Z.of_nat k); inject_Z (Z.of_nat k) + 1;
                 inject_Z (Z.of_nat k) + 2]%Q) (seq 0 20).

Definition loader : list (Batch Image) :=
  [mkBatch ramp [0; 1; 0]%Z; mkBatch ramp [1; 19; 1]%Z].

(** [n] images of [m] pixels, all labelled 0, every class score 1. *)
Definition road_image (m : nat) : Image := repeat (repeat 1%Q m) 20.

Definition road_loader (n m : nat) : list (Batch Image) :=
  repeat (mkBatch (road_image m) (repeat 0%Z m)) n.

(** 4096 images of 512 x 1024 pixels: 2^31 pixels of class 0. *)
Definition road_4096 : list (Batch Image) := road_loader 4096 (512 * 1024).

Definition net : gmap string Tensor := {[ "encoder.weight" := vec [1; 2]%Q ]}.

Definition disk : gmap string File :=
  {[ "/data/erfnet_pretrained.pth" :=
       WeightsFile [("module.encoder.weight", vec [3; 4]%Q)] ]}.

Definition disk_with_mean : gmap string File :=
  <["/data/mean.npy" := NpyFile (zeros NUM_CLASSES NUM_CLASSES)]> disk.

(** The files a run leaves behind (none when it raises). *)
Definition disk_of (r : Result (gmap string File)) : gmap string File :=
  match r with
  | Ok d => d
  | Raise _ => ∅
  end.

End StatsFixture.

(** ** Invariants of the two passes *)

Section PassInvariants.
Import Mahalanobis.

Variable Image : Type.
Variable forward : string -> gmap string Tensor -> Image -> list (list Q).
Variable args : Args.t.
Variable weights : gmap string Tensor.

(** The mean accumulators hold, for each class [c], the sums and the
    (wrapped) pixel count over the batches [seen_for c]. *)
Definition mean_state (seen_for : nat -> list (Batch Image)) (a : Acc) : Prop :=
  List.length (sum_per_class a) = NUM_CLASSES
  /\ List.length (pixel_count_per_class a) = NUM_CLASSES
  /\ forall c, (c < NUM_CLASSES)%nat ->
       pixel_count_per_class a !! c
         = Some (wrap32 (pixels_with_label Image (seen_for c) c))
       /\ exists row,
            sum_per_class a !! c = Some row
            /\ List.length row = NUM_CLASSES
            /\ forall i, (i < NUM_CLASSES)%nat ->
                 exists x, row !! i = Some x
                   /\ (x == pysum (values_at_class Image forward args weights
                                                   (seen_for c) c i))%Q.

(** The value the division loop leaves in class [c], channel [i]. *)
Definition finalized_value (loader : list (Batch Image)) (c i : nat) : Q :=
  let cnt := wrap32 (pixels_with_label Image loader c) in
  let total := pysum (values_at_class Image forward args weights loader c i) in
  if (0 <? cnt)%Z then (total / inject_Z cnt)%Q else total.

(** The division loop has passed the classes below [k]. *)
Definition divided_below (loader : list (Batch Image)) (k : nat)
    (rows : list (list Q)) : Prop :=
  List.length rows = NUM_CLASSES
  /\ forall c, (c < NUM_CLASSES)%nat ->
       exists row,
         rows !! c = Some row
         /\ List.length row = NUM_CLASSES
         /\ forall i, (i < NUM_CLASSES)%nat ->
              exists x, row !! i = Some x
                /\ (x == if (c <? k)%nat then finalized_value loader c i
                         else pysum (values_at_class Image forward args weights
                                                     loader c i))%Q.

(** Every entry of the covariance accumulator equals [total] up to the
    equality of rationals. *)
Definition cov_state (total : nat -> nat -> Q) (a : Acc) : Prop :=
  List.length (cov_matrix a) = NUM_CLASSES
  /\ forall i, (i < NUM_CLASSES)%nat ->
       exists row,
         cov_matrix a !! i = Some row
         /\ List.length row = NUM_CLASSES
         /\ forall j, (j < NUM_CLASSES)%nat ->
              exists x, row !! j = Some x /\ (x == total i j)%Q.

End PassInvariants.

(** ** Observations used by the further facts *)



(** The loader for [--state] (lines 535-541 of [train/main.py]). *)
Definition load_my_state_dict_state (model : gmap string Tensor)
    (state_dict : list (string * Tensor)) : Result LoadState :=
  for_each TrainMain.load_entry_state state_dict (mkLoad model []).

(** Two targets with the same names and the same shapes. *)
Definition same_shapes (m1 m2 : gmap string Tensor) : Prop :=
  forall k, option_map shape (m1 !! k) = option_map shape (m2 !! k).

(** The writes of one load, replayed on a target. *)
Definition replay (writes : list (string * Tensor)) (m : gmap string Tensor)
  : gmap string Tensor :=
  fold_left (fun acc kv => <[fst kv := snd kv]> acc) writes m.

(** The second run of the procedure: the same arguments with [--mean]
    naming the artifact of the first run. *)
Definition with_saved_mean (args : Mahalanobis.Args.t) : Mahalanobis.Args.t :=
  Mahalanobis.Args.mk
    (Mahalanobis.Args.loadDir args) (Mahalanobis.Args.loadWeights args)
    (Mahalanobis.Args.model args) (Mahalanobis.Args.cpu args)
    ("/save/mean_cityscapes_" +:+ Mahalanobis.Args.model args +:+ ".npy").

(** * Facts about the training run *)

Lemma is_ok_returns {A} (r : Result A) : is_ok r = true -> returns r.
Proof. destruct r; [eexists; reflexivity|discriminate]. Qed.

Lemma Qgtb_true (a b : Q) : Qgtb a b = true <-> (b < a)%Q.
Proof.
  unfold Qgtb. rewrite negb_true_iff. split.
  - intros H. apply Qnot_le_lt. intros Hle.
    apply Qle_bool_iff in Hle. congruence.
  - intros H. destruct (Qle_bool a b) eqn:E; [|reflexivity].
    apply Qle_bool_iff in E. exfalso. exact (Qlt_not_le _ _ H E).
Qed.

Lemma Qgtb_false (a b : Q) : Qgtb a b = false <-> (a <= b)%Q.
Proof.
  unfold Qgtb. rewrite negb_false_iff. apply Qle_bool_iff.
Qed.

Lemma pymax_gt (a b : Q) : (b < a)%Q -> pymax a b = a.
Proof.
  intros H. unfold pymax.
  destruct (Qgtb b a) eqn:E; [|reflexivity].
  apply Qgtb_true in E. exfalso. exact (Qlt_irrefl _ (Qlt_trans _ _ _ H E)).
Qed.

Lemma pymax_le (a b : Q) : (a <= b)%Q -> (pymax a b == b)%Q.
Proof.
  intros H. unfold pymax.
  destruct (Qgtb b a) eqn:E; [reflexivity|].
  apply Qgtb_false in E. apply Qle_antisym; assumption.
Qed.

Section DiskFacts.
Import TrainMain.
Implicit Types (disk : gmap string File) (path : string).

Lemma append_line_other disk path l p :
  p <> path -> append_line disk path l !! p = disk !! p.
Proof.
  intros Hne. unfold append_line.
  destruct (disk !! path) as [[]|]; rewrite lookup_insert_ne; congruence.
Qed.

Lemma save_model_returns m filename iso disk :
  (iso = true -> wrapped m = true) ->
  exists disk', save_model m filename iso disk = Ok disk'
                /\ forall p, p <> filename -> disk' !! p = disk !! p.
Proof.
  intros Hw. unfold save_model, sub_state_dict.
  destruct iso.
  - rewrite (Hw eq_refl). simpl.
    destruct (has_loss_first_part m); simpl;
      eexists; (split; [reflexivity|]);
      intros p Hp; rewrite lookup_insert_ne; congruence.
  - eexists; split; [reflexivity|].
    intros p Hp; rewrite lookup_insert_ne; congruence.
Qed.

Lemma save_checkpoint_rolling state is_best f g disk :
  f <> g -> save_checkpoint state is_best f g disk !! f = Some (CheckpointFile state).
Proof.
  intros Hne. unfold save_checkpoint. destruct is_best.
  - rewrite lookup_insert_ne by congruence. apply lookup_insert_eq.
  - apply lookup_insert_eq.
Qed.

Lemma save_checkpoint_best state is_best f g disk :
  f <> g ->
  save_checkpoint state is_best f g disk !! g =
    if is_best then Some (CheckpointFile state) else disk !! g.
Proof.
  intros Hne. unfold save_checkpoint. destruct is_best.
  - apply lookup_insert_eq.
  - rewrite lookup_insert_ne by congruence. reflexivity.
Qed.

Lemma ModelName_eqb_eq a b : ModelName_eqb a b = true <-> a = b.
Proof. destruct a, b; simpl; split; congruence. Qed.

End DiskFacts.

(** Two paths under one directory differ when their last parts do. *)
Ltac path_ne :=
  let H := fresh in
  intros H; apply (inj (String.app _)) in H;
  repeat match goal with b : bool |- _ => destruct b end;
  cbv [String.append] in H; congruence.

Section EpochEnd.
Import TrainMain.

(** Claim C4.  At the end of an epoch the rolling checkpoint is always
    overwritten with the new state; the best checkpoint and the stored
    best metric change exactly when the epoch's metric is strictly
    greater than the stored best (on a tie the earlier best checkpoint
    stays). *)
Theorem best_checkpoint_iff_strictly_better
    (args : Args.t) (enc : bool) (savedir : string) (epoch step : Z)
    (model : Model) (optimizer : Optimizer) (best_acc : Q)
    (disk : gmap string File)
    (ltrain lval iouTrain iouVal usedLr : Q) :
  (Args.model args = erfnet_isomaxplus -> wrapped model = true) ->
  exists st' ck,
    epoch_end args enc savedir epoch step model optimizer best_acc disk
              ltrain lval iouTrain iouVal usedLr = Ok st'
    /\ ck_epoch ck = (epoch + 1)%Z
    /\ ck_state_dict ck = weights model
    /\ ck_best_acc ck = lp_best_acc st'
    /\ lp_disk st' !! filenameCheckpoint savedir enc = Some (CheckpointFile ck)
    /\ ((best_acc < current_acc iouVal lval)%Q ->
          lp_disk st' !! filenameBest savedir enc = Some (CheckpointFile ck)
          /\ lp_best_acc st' = current_acc iouVal lval)
    /\ (~ (best_acc < current_acc iouVal lval)%Q ->
          lp_disk st' !! filenameBest savedir enc = disk !! filenameBest savedir enc
          /\ (lp_best_acc st' == best_acc)%Q)
    /\ ((best_acc < current_acc iouVal lval)%Q <->
          ~ (lp_best_acc st' == best_acc)%Q).
Proof.
  intros Hiso. unfold epoch_end.
  set (metric := current_acc iouVal lval).
  set (isomax := ModelName_eqb (Args.model args) erfnet_isomaxplus).
  assert (Hw : isomax = true -> wrapped model = true).
  { intros E. apply Hiso. apply ModelName_eqb_eq. exact E. }
  assert (Hlfp : exists lfp,
    (if isomax
     then let* d := sub_state_dict "module.decoder." model in Ok (Some d)
     else Ok None) = Ok lfp).
  { destruct isomax.
    - unfold sub_state_dict. rewrite (Hw eq_refl). simpl. eauto.
    - eauto. }
  destruct Hlfp as [lfp ->]. cbn [rbind].
  set (ck := mkCheckpoint (epoch + 1) (arch model) (weights model) lfp
                          (pymax metric best_acc) optimizer).
  set (d1 := save_checkpoint ck (Qgtb metric best_acc) _ _ disk).
  set (cond := (_ && _ && _)%bool).
  assert (Hd2 : exists d2,
    (if cond then save_model model
        (savedir +:+ (if enc then "/model_encoder-" else "/model-")
                 +:+ fmt03 epoch +:+ ".pth") isomax d1
     else Ok d1) = Ok d2
    /\ d2 !! filenameCheckpoint savedir enc = d1 !! filenameCheckpoint savedir enc
    /\ d2 !! filenameBest savedir enc = d1 !! filenameBest savedir enc).
  { destruct cond.
    - destruct (save_model_returns model
        (savedir +:+ (if enc then "/model_encoder-" else "/model-")
                 +:+ fmt03 epoch +:+ ".pth") isomax d1 Hw) as (d2 & -> & Hother).
      exists d2. split; [reflexivity|].
      split; apply Hother; unfold filenameCheckpoint, filenameBest; path_ne.
    - exists d1. auto. }
  destruct Hd2 as (d2 & -> & Hr2 & Hb2). cbn [rbind].
  assert (Hd3 : exists d3,
    (if Qgtb metric best_acc
     then let* disk0 := save_model model
             (savedir +:+ (if enc then "/model_encoder_best.pth" else "/model_best.pth"))
             isomax d2 in
          Ok (<[savedir +:+ (if enc then "/best_encoder.txt" else "/best.txt")
                := BestFile epoch iouVal]> disk0)
     else Ok d2) = Ok d3
    /\ d3 !! filenameCheckpoint savedir enc = d2 !! filenameCheckpoint savedir enc
    /\ d3 !! filenameBest savedir enc = d2 !! filenameBest savedir enc).
  { destruct (Qgtb metric best_acc).
    - destruct (save_model_returns model
        (savedir +:+ (if enc then "/model_encoder_best.pth" else "/model_best.pth"))
        isomax d2 Hw) as (d3 & -> & Hother).
      cbn [rbind]. eexists. split; [reflexivity|].
      split; (rewrite lookup_insert_ne;
              [apply Hother|]); unfold filenameCheckpoint, filenameBest; path_ne.
    - exists d2. auto. }
  destruct Hd3 as (d3 & -> & Hr3 & Hb3). cbn [rbind].
  eexists. exists ck. split; [reflexivity|]. cbn [lp_disk lp_best_acc].
  assert (Hne : filenameCheckpoint savedir enc <> filenameBest savedir enc)
    by (unfold filenameCheckpoint, filenameBest; path_ne).
  assert (Hroll : append_line d3
      (automated_log_path savedir enc)
      (RowLine (mkRow epoch ltrain lval iouTrain iouVal usedLr))
      !! filenameCheckpoint savedir enc = Some (CheckpointFile ck)).
  { rewrite append_line_other by (unfold filenameCheckpoint, automated_log_path; path_ne).
    rewrite Hr3, Hr2. apply save_checkpoint_rolling. exact Hne. }
  assert (Hbest : append_line d3
      (automated_log_path savedir enc)
      (RowLine (mkRow epoch ltrain lval iouTrain iouVal usedLr))
      !! filenameBest savedir enc =
      if Qgtb metric best_acc then Some (CheckpointFile ck)
      else disk !! filenameBest savedir enc).
  { rewrite append_line_other by (unfold filenameBest, automated_log_path; path_ne).
    rewrite Hb3, Hb2. apply save_checkpoint_best. exact Hne. }
  repeat split; try reflexivity; try exact Hroll.
  - rewrite Hbest. apply Qgtb_true in H. rewrite H. reflexivity.
  - apply pymax_gt. exact H.
  - rewrite Hbest. destruct (Qgtb metric best_acc) eqn:E; [|reflexivity].
    apply Qgtb_true in E. contradiction.
  - apply pymax_le. apply Qnot_lt_le. exact H.
  - intros Hlt Heq. rewrite (pymax_gt _ _ Hlt) in Heq.
    rewrite Heq in Hlt. exact (Qlt_irrefl _ Hlt).
  - intros Hneq. destruct (Qlt_le_dec best_acc metric) as [Hlt|Hle]; [exact Hlt|].
    exfalso. apply Hneq. apply pymax_le. exact Hle.
Qed.

Lemma best_checkpoint_iff_strictly_better_witness :
  (Args.model (Fixture.args 3 0 false) = erfnet_isomaxplus ->
     wrapped Fixture.net = true)
  /\ exists st' ck,
       epoch_end (Fixture.args 3 0 false) false "../save/run" 1 2 Fixture.net
                 (new_optimizer (Fixture.args 3 0 false)) 0 ∅
                 (3 # 2) 2 0 (1 # 10) (5 # 10000) = Ok st'
       /\ lp_disk st' !! filenameCheckpoint "../save/run" false
          = Some (CheckpointFile ck)
       /\ ck_epoch ck = 2%Z.
Proof.
  split; [discriminate|].
  destruct (best_checkpoint_iff_strictly_better
              (Fixture.args 3 0 false) false "../save/run" 1 2 Fixture.net
              (new_optimizer (Fixture.args 3 0 false)) 0 ∅
              (3 # 2) 2 0 (1 # 10) (5 # 10000))
    as (st' & ck & Hrun & Hep & _ & _ & Hroll & _).
  - discriminate.
  - exists st', ck. split; [exact Hrun|]. split; [exact Hroll|exact Hep].
Defined.

End EpochEnd.

Section Metric.
Import TrainMain.

(** With IoU evaluation enabled and a validation IoU of exactly 0, the
    compared metric is the negated loss (-2), not the IoU. *)
Lemma metric_not_iou_when_iou_is_zero :
  Args.iouVal (Fixture.args 3 0 false) = true
  /\ current_acc (iouVal_of Fixture.getIoU_zero (Fixture.args 3 0 false) 1
                            Fixture.net) 2 = (- (2))%Q
  /\ ~ (current_acc (iouVal_of Fixture.getIoU_zero (Fixture.args 3 0 false) 1
                               Fixture.net) 2
        == Fixture.getIoU_zero 1 Fixture.net)%Q.
Proof.
  split; [reflexivity|]. split; [reflexivity|].
  vm_compute. discriminate.
Qed.

End Metric.

Section Resume.
Import TrainMain.

Variable train_pass : Args.t -> bool -> Z -> Model -> Optimizer ->
                      Model * Optimizer * list Q.
Variable val_pass : Args.t -> bool -> Z -> Model -> list Q.
Variable getIoU_train getIoU_val : Z -> Model -> Q.
Variable scheduler_lr : Args.t -> Z -> Optimizer -> Q.

(** The resume block reads the local [optimizer] before the statement
    that assigns it: whatever the checkpoint holds, no epoch is run. *)
Lemma train_resume_raises (args : Args.t) (model : Model) (enc : bool)
    (datadir_exists : bool) (disk : gmap string File) :
  Args.resume args = true ->
  raises (train train_pass val_pass getIoU_train getIoU_val scheduler_lr
                args model enc datadir_exists disk).
Proof.
  intros Hres. unfold train, raises. rewrite Hres.
  destruct datadir_exists; [|eexists; reflexivity]. cbn [assert rbind].
  destruct (_ && _)%bool; [eexists; reflexivity|]. cbn [rbind].
  match goal with |- context [bool_decide ?P] => destruct (bool_decide P) end;
    [|eexists; reflexivity].
  cbn [assert rbind].
  match goal with
  | |- context [match ?d !! ?p with _ => _ end] => destruct (d !! p) as [[]|]
  end; try (eexists; reflexivity).
  cbn [rbind].
  match goal with
  | |- context [load_state_dict ?m ?sd] => destruct (load_state_dict m sd)
  end; eexists; reflexivity.
Qed.

End Resume.

(** Claim C1 (the code departs from it).  A three-epoch run leaves a
    rolling checkpoint that records epoch 4 as the next one and a log with
    rows 1, 2, 3; resuming from it with five epochs requested stops with
    [UnboundLocalError] on [optimizer], so no row for epoch 4 is ever
    appended. *)
Theorem resume_run_stops_before_first_epoch :
  let first := Fixture.run Fixture.val_pass3 3 0 false ∅ in
  let disk := Fixture.disk_of first in
  Fixture.logged_epochs disk "../save/run/automated_log.txt" = [1; 2; 3]%Z
  /\ Fixture.rolling_epoch disk "../save/run/checkpoint.pth.tar" = Some 4%Z
  /\ Fixture.run Fixture.val_pass3 5 0 true disk
     = Raise (UnboundLocalError "optimizer").
Proof. vm_compute. repeat split; reflexivity. Qed.

(** Claim C9 (the code departs from it).  With [--epochs-save 2] and four
    epochs: when the validation loader has three batches ([step] ends at 2)
    a snapshot is written after every epoch, the odd ones included; when
    it has two batches ([step] ends at 1) no snapshot is written at all,
    not even after epochs 2 and 4. *)
Theorem periodic_snapshot_follows_step_not_epoch :
  let snapshots := ["../save/run/model-001.pth"; "../save/run/model-002.pth";
                    "../save/run/model-003.pth"; "../save/run/model-004.pth"] in
  map (Fixture.has_file (Fixture.disk_of (Fixture.run Fixture.val_pass3 4 2 false ∅)))
      snapshots = [true; true; true; true]
  /\ map (Fixture.has_file (Fixture.disk_of (Fixture.run Fixture.val_pass2 4 2 false ∅)))
         snapshots = [false; false; false; false]
  /\ returns (Fixture.run Fixture.val_pass2 4 2 false ∅).
Proof.
  cbv zeta. split; [|split].
  - vm_compute. reflexivity.
  - vm_compute. reflexivity.
  - apply is_ok_returns. vm_compute. reflexivity.
Qed.

(** * Facts about weight reconciliation *)

Section Reconcile.
Import TrainMain.

Lemma skipn_repeat {A} (x : A) (n m : nat) :
  skipn n (repeat x m) = repeat x (m - n).
Proof.
  revert m. induction n as [|n IH]; intros m.
  - rewrite Nat.sub_0_r. reflexivity.
  - destruct m as [|m]; [reflexivity|]. simpl. apply IH.
Qed.

Lemma shape_eqb_refl (s : list nat) : shape_eqb s s = true.
Proof. unfold shape_eqb. apply bool_decide_eq_true. reflexivity. Qed.

Lemma broadcast_to_same (t : Tensor) : Torch.broadcast_to (shape t) t = Ok (data t).
Proof. unfold Torch.broadcast_to. rewrite shape_eqb_refl. reflexivity. Qed.

(** A source with no counterpart in the target, under its own name or
    with the ["module."] prefix removed, is skipped and reported. *)
Lemma load_entry_unmatched (st : LoadState) (name : string) (param : Tensor) :
  own_state st !! name = None ->
  own_state st !! PyStr.split_last "module." name = None ->
  exists e, load_entry st (name, param) = Ok (say st e).
Proof.
  intros H1 H2. unfold load_entry. rewrite H1.
  destruct (PyStr.startswith name "module.").
  - rewrite H2. eauto.
  - eauto.
Qed.

(** Claim C5, as amended.  For an exactly matching output-layer name
    whose source has fewer (or as many) leading rows and the same
    trailing dimensions as the target, the target becomes the source
    values followed by zeros. *)
Theorem output_layer_rows_padded_with_zeros
    (st : LoadState) (name : string) (param own : Tensor)
    (n m : nat) (rest : list nat) :
  own_state st !! name = Some own ->
  is_output_layer name = true ->
  shape param = n :: rest ->
  shape own = m :: rest ->
  (n <= m)%nat ->
  exists st',
    load_entry st (name, param) = Ok st'
    /\ own_state st' !! name
       = Some (mkTensor (m :: rest)
                        (data param ++ repeat 0%Q ((m - n) * numel rest)))
    /\ (forall other, other <> name ->
          own_state st' !! other = own_state st !! other).
Proof.
  intros Hown Hout Hp Ho Hle.
  unfold load_entry. rewrite Hown, Hout.
  unfold Torch.size0. rewrite Hp. cbn [rbind].
  unfold Torch.assign_rows, Torch.zeros_like. cbn [shape data]. rewrite Ho.
  rewrite Nat.min_l by exact Hle.
  unfold Torch.copy_to. rewrite Hp, shape_eqb_refl. cbn [rbind].
  unfold Torch.copy_, Torch.broadcast_to. cbn [shape data]. rewrite Ho.
  rewrite shape_eqb_refl. cbn [rbind].
  eexists. split; [reflexivity|]. split.
  - destruct (negb _); cbn [store say own_state];
      rewrite lookup_insert_eq; do 2 f_equal;
      rewrite skipn_repeat; cbn [numel fold_right];
      rewrite Nat.mul_sub_distr_r; reflexivity.
  - intros other Hne.
    destruct (negb _); cbn [store say own_state];
      rewrite lookup_insert_ne by congruence; reflexivity.
Qed.

Lemma output_layer_rows_padded_with_zeros_witness :
  exists st',
    load_entry (mkLoad {[ "conv_out.conv_out.weight" := mat2 3 2 [1; 2; 3; 4; 5; 6]%Q ]} [])
               ("conv_out.conv_out.weight", mat2 2 2 [5; 6; 7; 8]%Q) = Ok st'
    /\ own_state st' !! "conv_out.conv_out.weight"
       = Some (mkTensor [3; 2]%nat [5; 6; 7; 8; 0; 0]%Q).
Proof.
  destruct (output_layer_rows_padded_with_zeros
              (mkLoad {[ "conv_out.conv_out.weight" := mat2 3 2 [1; 2; 3; 4; 5; 6]%Q ]} [])
              "conv_out.conv_out.weight" (mat2 2 2 [5; 6; 7; 8]%Q)
              (mat2 3 2 [1; 2; 3; 4; 5; 6]%Q) 2 3 [2%nat])
    as (st' & Hrun & Hlook & _).
  - reflexivity.
  - reflexivity.
  - reflexivity.
  - reflexivity.
  - lia.
  - exists st'. split; [exact Hrun|exact Hlook].
Defined.

(** A source of shape [2; 2] is smaller than the output-layer target of
    shape [3; 3], yet nothing is produced: the row assignment raises. *)
Lemma output_layer_smaller_columns_raises :
  shape_smaller [2; 2]%nat [3; 3]%nat = true
  /\ is_output_layer "conv_out.conv_out.weight" = true
  /\ load_my_state_dict
       {[ "conv_out.conv_out.weight" := mat2 3 3 [1; 2; 3; 4; 5; 6; 7; 8; 9]%Q ]}
       [("conv_out.conv_out.weight", mat2 2 2 [5; 6; 7; 8]%Q)]
     = Raise (RuntimeError "The size of tensor a must match the size of tensor b").
Proof. vm_compute. repeat split; reflexivity. Qed.

(** Claim C2 (the code departs from it).  A shape mismatch under an
    exactly matching name that is not an output layer: the fine-tuning
    loader reports it and then copies all the same, which raises; the
    same mismatch behind the ["module."] prefix is skipped and reported.
    The loader of the statistics program raises on the mismatch and on a
    prefixed name whose stripped form is unknown. *)
Theorem shape_mismatch_under_exact_name_raises :
  let target : gmap string Tensor := {[ "encoder.weight" := vec [1; 2]%Q ]} in
  TrainMain.load_my_state_dict target [("encoder.weight", vec [5; 6; 7]%Q)]
    = Raise (RuntimeError "The size of tensor a must match the size of tensor b")
  /\ TrainMain.load_my_state_dict target [("module.encoder.weight", vec [5; 6; 7]%Q)]
     = Ok (mkLoad target [SkippedSizeMismatch "encoder.weight" [2%nat] [3%nat]])
  /\ Mahalanobis.load_my_state_dict target [("encoder.weight", vec [5; 6; 7]%Q)]
     = Raise (RuntimeError "The size of tensor a must match the size of tensor b")
  /\ Mahalanobis.load_my_state_dict target [("module.decoder.weight", vec [5; 6]%Q)]
     = Raise (KeyError "decoder.weight").
Proof. vm_compute. repeat split; reflexivity. Qed.

End Reconcile.

(** * Facts about the class weights *)

Section ClassWeights.
Import TrainMain.

Lemma existsb_negative_false n flat :
  Forall (in_range n) flat -> existsb (fun v => (v <? 0)%Z) flat = false.
Proof.
  induction 1 as [|x l Hx _ IH]; [reflexivity|].
  simpl. rewrite IH. destruct Hx as [Hx _].
  apply Z.ltb_ge in Hx. rewrite Hx. reflexivity.
Qed.

Lemma max_label_bound n flat :
  Forall (in_range n) flat ->
  (fold_right Z.max (-1) flat + 1 <= Z.of_nat n)%Z.
Proof.
  induction 1 as [|x l Hx _ IH]; simpl; [lia|].
  destruct Hx. lia.
Qed.

Lemma bincount_in_range n flat :
  Forall (in_range n) flat -> bincount flat n = Ok (counts_of flat n).
Proof.
  intros H. unfold bincount. rewrite (existsb_negative_false n) by exact H.
  pose proof (max_label_bound n flat H).
  rewrite Nat.max_l by lia. reflexivity.
Qed.

Lemma counts_of_length flat n : List.length (counts_of flat n) = n.
Proof. unfold counts_of. rewrite length_map, length_seq. reflexivity. Qed.

Lemma counts_of_app a b n :
  map (fun p : Z * Z => (fst p + snd p)%Z) (combine (counts_of a n) (counts_of b n))
  = counts_of (a ++ b) n.
Proof.
  unfold counts_of. induction (seq 0 n) as [|k ks IH]; [reflexivity|].
  simpl. rewrite IH. f_equal. rewrite count_occ_app. lia.
Qed.

Lemma count_loop n loader pre :
  Forall (Forall (in_range n)) loader ->
  for_each (fun acc label => count_batch acc n label) loader
           (Some (counts_of pre n), Z.of_nat (List.length pre))
  = Ok (Some (counts_of (pre ++ concat loader) n),
        Z.of_nat (List.length (pre ++ concat loader))).
Proof.
  intros H. revert pre. induction H as [|b bs Hb _ IH]; intros pre.
  - simpl. rewrite app_nil_r. reflexivity.
  - simpl. rewrite (bincount_in_range n b Hb). cbn [rbind add_counts].
    rewrite !counts_of_length, Nat.eqb_refl. cbn [rbind].
    rewrite counts_of_app.
    replace (Z.of_nat (List.length pre) + Z.of_nat (List.length b))%Z
      with (Z.of_nat (List.length (pre ++ b))) by (rewrite length_app; lia).
    rewrite IH. rewrite <- app_assoc. reflexivity.
Qed.

Lemma count_loop_start n loader :
  loader <> [] ->
  Forall (Forall (in_range n)) loader ->
  for_each (fun acc label => count_batch acc n label) loader (None, 0%Z)
  = Ok (Some (counts_of (concat loader) n),
        Z.of_nat (List.length (concat loader))).
Proof.
  intros Hne H. destruct H as [|b bs Hb Hbs]; [congruence|].
  simpl. rewrite (bincount_in_range n b Hb). cbn [rbind add_counts].
  rewrite Z.add_0_l. rewrite (count_loop n bs b Hbs). reflexivity.
Qed.

Lemma nth_weights (f : Z -> R) flat n k :
  (k < n)%nat ->
  nth k (map f (counts_of flat n)) 0%R
  = f (Z.of_nat (count_occ Z.eq_dec flat (Z.of_nat k))).
Proof.
  intros Hk. unfold counts_of. rewrite map_map.
  rewrite (nth_indep _ 0%R (f (Z.of_nat (count_occ Z.eq_dec flat (Z.of_nat 0)))))
    by (rewrite length_map, length_seq; exact Hk).
  rewrite (map_nth (fun x => f (Z.of_nat (count_occ Z.eq_dec flat (Z.of_nat x))))).
  rewrite seq_nth by exact Hk. reflexivity.
Qed.

Lemma weight_decreasing (c p q : R) :
  (1 < c)%R -> (0 <= p)%R -> (p < q)%R ->
  (1 / ln (c + q) < 1 / ln (c + p))%R.
Proof.
  intros Hc Hp Hpq.
  assert (H1 : (0 < ln (c + p))%R).
  { rewrite <- ln_1. apply ln_increasing; lra. }
  assert (H2 : (ln (c + p) < ln (c + q))%R).
  { apply ln_increasing; lra. }
  unfold Rdiv. rewrite !Rmult_1_l.
  apply Rinv_lt_contravar; [|exact H2].
  apply Rmult_lt_0_compat; lra.
Qed.

(** The closed form of the result, for any hyper-parameter [c]. *)
Lemma class_weights_formula (loader : list (list Z)) (num_classes : nat) (c : R) :
  loader <> [] ->
  Forall (Forall (in_range num_classes)) loader ->
  exists ws,
    calculate_class_weights loader num_classes c = Ok ws
    /\ List.length ws = num_classes
    /\ (forall k, (k < num_classes)%nat ->
          nth k ws 0%R
          = (1 / ln (c + IZR (pixels_labelled loader k)
                         / IZR (total_pixels loader)))%R).
Proof.
  intros Hne Hrange.
  unfold calculate_class_weights.
  rewrite (count_loop_start num_classes loader Hne Hrange). cbn [rbind].
  eexists. split; [reflexivity|].
  split; [rewrite length_map; apply counts_of_length|].
  intros k Hk.
  rewrite (nth_weights (fun n : Z =>
    (1 / ln (c + IZR n / IZR (Z.of_nat (List.length (concat loader)))))%R))
    by exact Hk.
  reflexivity.
Qed.

(** Claim C8, as amended.  For a non-empty traversal whose labels are
    class indices and for a hyper-parameter [c > 1], the estimator
    returns [1 / ln (c + count_k / total)] for each class [k], and a
    class with strictly fewer labelled pixels than another receives a
    strictly larger weight. *)
Theorem class_weights_formula_and_order
    (loader : list (list Z)) (num_classes : nat) (c : R) :
  loader <> [] ->
  (0 < total_pixels loader)%Z ->
  Forall (Forall (in_range num_classes)) loader ->
  (1 < c)%R ->
  exists ws,
    calculate_class_weights loader num_classes c = Ok ws
    /\ List.length ws = num_classes
    /\ (forall k, (k < num_classes)%nat ->
          nth k ws 0%R
          = (1 / ln (c + IZR (pixels_labelled loader k)
                         / IZR (total_pixels loader)))%R)
    /\ (forall j k, (j < num_classes)%nat -> (k < num_classes)%nat ->
          (pixels_labelled loader j < pixels_labelled loader k)%Z ->
          (nth k ws 0 < nth j ws 0)%R).
Proof.
  intros Hne Htot Hrange Hc.
  destruct (class_weights_formula loader num_classes c Hne Hrange)
    as (ws & Hrun & Hlen & Hform).
  exists ws. split; [exact Hrun|]. split; [exact Hlen|]. split; [exact Hform|].
  intros j k Hj Hk Hlt. rewrite (Hform j Hj), (Hform k Hk).
  assert (Ht : (0 < IZR (total_pixels loader))%R) by (apply IZR_lt; exact Htot).
  apply weight_decreasing; [exact Hc| |].
  - apply Rmult_le_pos; [|left; apply Rinv_0_lt_compat; exact Ht].
    apply IZR_le. unfold pixels_labelled. lia.
  - unfold Rdiv. apply Rmult_lt_compat_r; [apply Rinv_0_lt_compat; exact Ht|].
    apply IZR_lt. exact Hlt.
Qed.

Lemma class_weights_formula_and_order_witness :
  exists ws,
    calculate_class_weights Fixture.labels_90_10 2 (102 / 100)%R = Ok ws
    /\ (nth 0 ws 0 < nth 1 ws 0)%R.
Proof.
  destruct (class_weights_formula_and_order Fixture.labels_90_10 2 (102 / 100)%R)
    as (ws & Hrun & _ & _ & Hord).
  - discriminate.
  - reflexivity.
  - repeat constructor; unfold in_range; simpl; lia.
  - lra.
  - exists ws. split; [exact Hrun|].
    apply Hord; [lia | lia | reflexivity].
Defined.

(** With [c = 1/2] the class with fewer pixels (class 1, one pixel in
    ten) gets a negative weight and the larger class a positive one. *)
Lemma class_weights_order_fails_below_one :
  exists ws,
    calculate_class_weights Fixture.labels_90_10 2 (1 / 2)%R = Ok ws
    /\ (pixels_labelled Fixture.labels_90_10 1
        < pixels_labelled Fixture.labels_90_10 0)%Z
    /\ ~ (nth 0 ws 0 < nth 1 ws 0)%R.
Proof.
  destruct (class_weights_formula Fixture.labels_90_10 2 (1 / 2)%R)
    as (ws & Hrun & _ & Hform).
  - discriminate.
  - repeat constructor; unfold in_range; simpl; lia.
  - exists ws. split; [exact Hrun|]. split; [reflexivity|].
    rewrite (Hform 0%nat) by lia. rewrite (Hform 1%nat) by lia.
    change (pixels_labelled Fixture.labels_90_10 0) with 9%Z.
    change (pixels_labelled Fixture.labels_90_10 1) with 1%Z.
    change (total_pixels Fixture.labels_90_10) with 10%Z.
    assert (Hneg : (ln (1 / 2 + 1 / 10) < 0)%R).
    { rewrite <- ln_1. apply ln_increasing; lra. }
    assert (Hpos : (0 < ln (1 / 2 + 9 / 10))%R).
    { rewrite <- ln_1. apply ln_increasing; lra. }
    assert (H1 : (1 / ln (1 / 2 + 1 / 10) < 0)%R).
    { unfold Rdiv at 1. rewrite Rmult_1_l. apply Rinv_lt_0_compat. exact Hneg. }
    assert (H9 : (0 < 1 / ln (1 / 2 + 9 / 10))%R).
    { unfold Rdiv at 1. rewrite Rmult_1_l. apply Rinv_0_lt_compat. exact Hpos. }
    lra.
Qed.

End ClassWeights.

(** * Facts about the statistics passes *)

Section Sums.
Import Mahalanobis.

Lemma fold_left_Qplus_acc (l : list Q) (a : Q) :
  (fold_left Qplus l a == a + fold_left Qplus l 0)%Q.
Proof.
  revert a. induction l as [|x l IH]; intros a; simpl.
  - ring.
  - rewrite (IH (a + x)%Q), (IH (0 + x)%Q). ring.
Qed.

Lemma pysum_cons (x : Q) (l : list Q) : (pysum (x :: l) == x + pysum l)%Q.
Proof.
  unfold pysum. simpl. rewrite fold_left_Qplus_acc. ring.
Qed.

Lemma pysum_app (l1 l2 : list Q) : (pysum (l1 ++ l2) == pysum l1 + pysum l2)%Q.
Proof.
  induction l1 as [|x l1 IH]; simpl.
  - unfold pysum at 2. simpl. ring.
  - rewrite !pysum_cons, IH. ring.
Qed.

Lemma lookup_map {A B} (f : A -> B) (l : list A) (i : nat) :
  map f l !! i = option_map f (l !! i).
Proof.
  revert i. induction l as [|x l IH]; intros [|i]; simpl; auto.
Qed.

Lemma lookup_repeat {A} (x : A) (n i : nat) :
  (i < n)%nat -> repeat x n !! i = Some x.
Proof.
  revert i. induction n as [|n IH]; intros [|i] H; simpl; try lia; auto.
  apply IH. lia.
Qed.

Lemma wrap32_add (a b : Z) : wrap32 (wrap32 a + b) = wrap32 (a + b).
Proof.
  unfold wrap32. f_equal.
  replace ((a + 2 ^ 31) mod 2 ^ 32 - 2 ^ 31 + b + 2 ^ 31)%Z
    with ((a + 2 ^ 31) mod 2 ^ 32 + b)%Z by ring.
  rewrite Zplus_mod_idemp_l. f_equal. ring.
Qed.

Lemma wrap32_small (z : Z) : (- 2 ^ 31 <= z < 2 ^ 31)%Z -> wrap32 z = z.
Proof.
  intros H. unfold wrap32. rewrite Z.mod_small; lia.
Qed.

End Sums.

Section MeanPass.
Import Mahalanobis.

Variable Image : Type.
Variable forward : string -> gmap string Tensor -> Image -> list (list Q).
Variable args : Args.t.
Variable weights : gmap string Tensor.

Abbreviation result_of := (result_of Image forward args weights).
Abbreviation wf_batch := (wf_batch Image forward args weights).
Abbreviation values_at_class := (values_at_class Image forward args weights).
Abbreviation pixels_with_label := (pixels_with_label Image).
Abbreviation mean_state := (mean_state Image forward args weights).

Lemma filter_mask (c : nat) (labels : list Z) (row : list Q) :
  map snd (List.filter (fun p : bool * Q => fst p) (combine (mask_of labels c) row))
  = labelled_values c labels row.
Proof.
  unfold labelled_values, mask_of.
  revert row. induction labels as [|l labels IH]; intros [|x row]; simpl; auto.
  destruct (l =? Z.of_nat c)%Z; simpl; rewrite IH; reflexivity.
Qed.

Lemma select_labelled (c : nat) (labels : list Z) (row : list Q) :
  List.length row = List.length labels ->
  select (mask_of labels c) row = Ok (labelled_values c labels row).
Proof.
  intros H. unfold select, mask_of at 1. rewrite length_map, H, Nat.eqb_refl.
  rewrite filter_mask. reflexivity.
Qed.

Lemma select_columns_labelled (c : nat) (labels : list Z) (result : list (list Q)) :
  Forall (fun row => List.length row = List.length labels) result ->
  select_columns (mask_of labels c) result
  = Ok (map (labelled_values c labels) result).
Proof.
  unfold select_columns. induction 1 as [|row rows Hrow _ IH]; simpl.
  - reflexivity.
  - rewrite (select_labelled c labels row Hrow). cbn [rbind].
    rewrite IH. reflexivity.
Qed.

Lemma count_true_mask (c : nat) (labels : list Z) :
  count_true (mask_of labels c)
  = Z.of_nat (List.length (List.filter (fun l => (l =? Z.of_nat c)%Z) labels)).
Proof.
  unfold count_true, mask_of. f_equal.
  induction labels as [|l labels IH]; simpl; auto.
  destruct (l =? Z.of_nat c)%Z; simpl; rewrite IH; reflexivity.
Qed.

Lemma labelled_values_length (c : nat) (labels : list Z) (row : list Q) :
  List.length row = List.length labels ->
  List.length (labelled_values c labels row)
  = List.length (List.filter (fun l => (l =? Z.of_nat c)%Z) labels).
Proof.
  unfold labelled_values. revert row.
  induction labels as [|l labels IH]; intros [|x row] H; simpl in *; try lia; auto.
  destruct (l =? Z.of_nat c)%Z; simpl; rewrite IH by lia; reflexivity.
Qed.

Lemma values_at_class_snoc seen b c i :
  values_at_class (seen ++ [b]) c i
  = values_at_class seen c i ++ labelled_values c (labels b) (nth i (result_of b) []).
Proof.
  unfold Mahalanobis.values_at_class. rewrite flat_map_app. simpl.
  rewrite app_nil_r. reflexivity.
Qed.

Lemma pixels_with_label_snoc seen b c :
  pixels_with_label (seen ++ [b]) c
  = (pixels_with_label seen c
     + Z.of_nat (List.length (List.filter (fun l => (l =? Z.of_nat c)%Z) (labels b))))%Z.
Proof.
  unfold Mahalanobis.pixels_with_label. rewrite flat_map_app. simpl.
  rewrite app_nil_r, List.filter_app, length_app. lia.
Qed.

Lemma mean_state_ext f g a :
  (forall c, (c < NUM_CLASSES)%nat -> f c = g c) ->
  mean_state f a -> mean_state g a.
Proof.
  intros Hfg (H1 & H2 & H3). split; [exact H1|]. split; [exact H2|].
  intros c Hc. rewrite <- (Hfg c Hc). apply H3. exact Hc.
Qed.

(** One class of one image: only the entries of class [k] change. *)
Lemma mean_class_step d seen b a k :
  wf_batch b ->
  (k < NUM_CLASSES)%nat ->
  mean_state (fun c => if (c <? k)%nat then seen ++ [b] else seen) a ->
  exists a',
    mean_class d d (labels b) (result_of b) a k = Ok a'
    /\ mean_state (fun c => if (c <? S k)%nat then seen ++ [b] else seen) a'
    /\ cov_matrix a' = cov_matrix a
    /\ num_images a' = num_images a.
Proof.
  intros [Hlen Hrows] Hk (Hs & Hp & Hall).
  unfold mean_class.
  rewrite (select_columns_labelled k (labels b) (result_of b) Hrows). cbn [rbind].
  unfold same_device. replace (Device_eqb d d) with true by (destruct d; reflexivity).
  cbn [rbind].
  pose proof (Hall k Hk) as Hk'. cbn beta in Hk'.
  rewrite Nat.ltb_irrefl in Hk'.
  destruct Hk' as (Hcnt & row & Hrow & Hrowlen & Hvals).
  unfold row_at. rewrite Hrow. cbn [rbind].
  unfold vec_iadd. rewrite !length_map, Hlen, Hrowlen, Nat.eqb_refl. cbn [rbind].
  rewrite Hcnt. cbn [rbind].
  eexists. split; [reflexivity|]. cbn [cov_matrix num_images].
  split; [|split; reflexivity].
  split; [cbn [sum_per_class]; rewrite length_insert; exact Hs|].
  split; [cbn [pixel_count_per_class]; rewrite length_insert; exact Hp|].
  intros c Hc. cbn [sum_per_class pixel_count_per_class].
  destruct (Nat.eq_dec c k) as [->|Hne].
  - replace (k <? S k)%nat with true by (symmetry; apply Nat.ltb_lt; lia).
    rewrite !list_lookup_insert_eq by lia.
    split.
    + f_equal. rewrite wrap32_add, count_true_mask, pixels_with_label_snoc.
      reflexivity.
    + eexists. split; [reflexivity|].
      split; [rewrite length_zip_with_l_eq; [exact Hrowlen|];
              rewrite !length_map; lia|].
      intros i Hi. destruct (Hvals i Hi) as (x & Hx & Hxeq).
      assert (Hri : exists r, result_of b !! i = Some r).
      { apply lookup_lt_is_Some_2. lia. }
      destruct Hri as (r & Hr).
      exists (x + pysum (labelled_values k (labels b) r))%Q.
      split.
      * rewrite lookup_zip_with, Hx, !lookup_map, Hr. reflexivity.
      * rewrite values_at_class_snoc, pysum_app, Hxeq.
        rewrite (nth_lookup_Some _ _ _ _ Hr). reflexivity.
  - rewrite !list_lookup_insert_ne by congruence.
    destruct (Hall c Hc) as (Hcnt' & Hrest).
    replace (c <? S k)%nat with (c <? k)%nat; [split; assumption|].
    destruct (Nat.ltb_spec c k), (Nat.ltb_spec c (S k)); auto; lia.
Qed.

Lemma mean_classes_loop d seen b n k a :
  wf_batch b ->
  (k + n <= NUM_CLASSES)%nat ->
  mean_state (fun c => if (c <? k)%nat then seen ++ [b] else seen) a ->
  exists a',
    for_each (mean_class d d (labels b) (result_of b)) (seq k n) a = Ok a'
    /\ mean_state (fun c => if (c <? k + n)%nat then seen ++ [b] else seen) a'
    /\ cov_matrix a' = cov_matrix a
    /\ num_images a' = num_images a.
Proof.
  intros Hwf. revert k a. induction n as [|n IH]; intros k a Hkn Hst.
  - exists a. rewrite Nat.add_0_r. simpl. auto.
  - simpl.
    destruct (mean_class_step d seen b a k Hwf ltac:(lia) Hst)
      as (a1 & -> & Hst1 & Hc1 & Hn1).
    cbn [rbind].
    destruct (IH (S k) a1 ltac:(lia) Hst1) as (a2 & -> & Hst2 & Hc2 & Hn2).
    exists a2. split; [reflexivity|].
    replace (k + S n)%nat with (S k + n)%nat by lia.
    split; [exact Hst2|]. split; congruence.
Qed.

Variable Hmean : Args.mean args = "".

Lemma image_step_mean d dcov pm seen b a :
  wf_batch b ->
  mean_state (fun _ => seen) a ->
  exists a',
    image_step Image forward args weights d dcov d pm a b = Ok a'
    /\ mean_state (fun _ => seen ++ [b]) a'
    /\ num_images a' = (num_images a + 1)%Z.
Proof.
  intros Hwf Hst. unfold image_step. rewrite Hmean. cbn [String.length Nat.ltb Nat.leb negb].
  destruct (mean_classes_loop d seen b NUM_CLASSES 0 a Hwf ltac:(lia))
    as (a1 & Hrun & Hst1 & _ & Hn1).
  { revert Hst. apply mean_state_ext. reflexivity. }
  rewrite Hrun. cbn [rbind].
  eexists. split; [reflexivity|]. cbn [num_images].
  split; [|rewrite Hn1; reflexivity].
  destruct Hst1 as (H1 & H2 & H3).
  split; [exact H1|]. split; [exact H2|].
  intros c Hc. cbn [sum_per_class pixel_count_per_class].
  specialize (H3 c Hc). cbn beta in H3.
  replace (c <? 0 + NUM_CLASSES)%nat with true in H3
    by (symmetry; apply Nat.ltb_lt; exact Hc).
  exact H3.
Qed.

Lemma mean_pass_loop d dcov pm loader seen a :
  Forall wf_batch loader ->
  mean_state (fun _ => seen) a ->
  exists a',
    for_each (image_step Image forward args weights d dcov d pm) loader a = Ok a'
    /\ mean_state (fun _ => seen ++ loader) a'
    /\ num_images a' = (num_images a + Z.of_nat (List.length loader))%Z.
Proof.
  intros Hwf. revert seen a. induction Hwf as [|b bs Hb _ IH]; intros seen a Hst.
  - exists a. rewrite app_nil_r. simpl. split; [reflexivity|]. split; [exact Hst|lia].
  - simpl.
    destruct (image_step_mean d dcov pm seen b a Hb Hst) as (a1 & -> & Hst1 & Hn1).
    cbn [rbind].
    destruct (IH (seen ++ [b]) a1 Hst1) as (a2 & -> & Hst2 & Hn2).
    exists a2. split; [reflexivity|].
    rewrite <- app_assoc in Hst2. split; [exact Hst2|]. lia.
Qed.

Lemma initial_mean_state : mean_state (fun _ => []) initial_acc.
Proof.
  split; [reflexivity|]. split; [reflexivity|].
  intros c Hc. split.
  - cbn [initial_acc pixel_count_per_class]. rewrite lookup_repeat by exact Hc.
    reflexivity.
  - exists (repeat 0%Q NUM_CLASSES). split.
    + cbn [initial_acc sum_per_class]. unfold zeros. apply lookup_repeat. exact Hc.
    + split; [apply repeat_length|].
      intros i Hi. exists 0%Q. split; [apply lookup_repeat; exact Hi|].
      reflexivity.
Qed.

Abbreviation finalized := (finalized_value Image forward args weights).
Abbreviation divided_below := (divided_below Image forward args weights).

Lemma divided_below_start loader a :
  mean_state (fun _ => loader) a -> divided_below loader 0 (sum_per_class a).
Proof.
  intros (H1 & _ & H3). split; [exact H1|].
  intros c Hc. destruct (H3 c Hc) as (_ & row & Hrow & Hlen & Hvals).
  exists row. split; [exact Hrow|]. split; [exact Hlen|]. exact Hvals.
Qed.

Lemma divide_class loader a k rows :
  mean_state (fun _ => loader) a ->
  (k < NUM_CLASSES)%nat ->
  divided_below loader k rows ->
  exists rows',
    (let* cnt := row_at (pixel_count_per_class a) k in
     if (0 <? cnt)%Z
     then let* row := row_at rows k in
          Ok (<[k := map (fun x => (x / inject_Z cnt)%Q) row]> rows)
     else Ok rows) = Ok rows'
    /\ divided_below loader (S k) rows'.
Proof.
  intros (_ & _ & Hst) Hk (Hlen & Hrows).
  destruct (Hst k Hk) as (Hcnt & _).
  unfold row_at at 1. rewrite Hcnt. cbn [rbind].
  destruct (Hrows k Hk) as (row & Hrow & Hrowlen & Hvals).
  rewrite Nat.ltb_irrefl in Hvals.
  destruct (0 <? wrap32 (pixels_with_label loader k))%Z eqn:Hpos.
  - unfold row_at. rewrite Hrow. cbn [rbind].
    eexists. split; [reflexivity|].
    split; [rewrite length_insert; exact Hlen|].
    intros c Hc. destruct (Nat.eq_dec c k) as [->|Hne].
    + rewrite list_lookup_insert_eq by lia.
      eexists. split; [reflexivity|].
      split; [rewrite length_map; exact Hrowlen|].
      intros i Hi. destruct (Hvals i Hi) as (x & Hx & Hxeq).
      exists (x / inject_Z (wrap32 (pixels_with_label loader k)))%Q.
      split; [rewrite lookup_map, Hx; reflexivity|].
      replace (k <? S k)%nat with true by (symmetry; apply Nat.ltb_lt; lia).
      unfold finalized_value. rewrite Hpos, Hxeq. reflexivity.
    + rewrite list_lookup_insert_ne by congruence.
      destruct (Hrows c Hc) as (row' & Hrow' & Hlen' & Hvals').
      exists row'. split; [exact Hrow'|]. split; [exact Hlen'|].
      replace (c <? S k)%nat with (c <? k)%nat; [exact Hvals'|].
      destruct (Nat.ltb_spec c k), (Nat.ltb_spec c (S k)); auto; lia.
  - exists rows. split; [reflexivity|]. split; [exact Hlen|].
    intros c Hc. destruct (Nat.eq_dec c k) as [->|Hne].
    + exists row. split; [exact Hrow|]. split; [exact Hrowlen|].
      intros i Hi. destruct (Hvals i Hi) as (x & Hx & Hxeq).
      exists x. split; [exact Hx|].
      replace (k <? S k)%nat with true by (symmetry; apply Nat.ltb_lt; lia).
      unfold finalized_value. rewrite Hpos. exact Hxeq.
    + destruct (Hrows c Hc) as (row' & Hrow' & Hlen' & Hvals').
      exists row'. split; [exact Hrow'|]. split; [exact Hlen'|].
      replace (c <? S k)%nat with (c <? k)%nat; [exact Hvals'|].
      destruct (Nat.ltb_spec c k), (Nat.ltb_spec c (S k)); auto; lia.
Qed.

Lemma divide_loop loader a n k rows :
  mean_state (fun _ => loader) a ->
  (k + n <= NUM_CLASSES)%nat ->
  divided_below loader k rows ->
  exists rows',
    for_each (fun rows c =>
                let* cnt := row_at (pixel_count_per_class a) c in
                if (0 <? cnt)%Z
                then let* row := row_at rows c in
                     Ok (<[c := map (fun x => (x / inject_Z cnt)%Q) row]> rows)
                else Ok rows)
             (seq k n) rows = Ok rows'
    /\ divided_below loader (k + n) rows'.
Proof.
  intros Hst. revert k rows. induction n as [|n IH]; intros k rows Hkn Hdiv.
  - exists rows. rewrite Nat.add_0_r. simpl. auto.
  - simpl. destruct (divide_class loader a k rows Hst ltac:(lia) Hdiv)
      as (rows1 & -> & Hdiv1).
    cbn [rbind].
    destruct (IH (S k) rows1 ltac:(lia) Hdiv1) as (rows2 & -> & Hdiv2).
    exists rows2. split; [reflexivity|].
    replace (k + S n)%nat with (S k + n)%nat by lia. exact Hdiv2.
Qed.

(** The whole mean phase: accumulation over the loader, then the
    division loop. *)
Lemma mean_phase_result d dcov pm loader :
  Forall wf_batch loader ->
  exists a means,
    for_each (image_step Image forward args weights d dcov d pm) loader initial_acc
      = Ok a
    /\ finalize_means a = Ok means
    /\ forall c, (c < NUM_CLASSES)%nat ->
         exists row, means !! c = Some row
           /\ forall i, (i < NUM_CLASSES)%nat ->
                exists x, row !! i = Some x
                  /\ (x == finalized loader c i)%Q.
Proof.
  intros Hwf.
  destruct (mean_pass_loop d dcov pm loader [] initial_acc Hwf initial_mean_state)
    as (a & Hrun & Hst & _).
  simpl in Hst.
  destruct (divide_loop loader a NUM_CLASSES 0 (sum_per_class a) Hst ltac:(lia)
              (divided_below_start loader a Hst)) as (means & Hfin & Hdiv).
  exists a, means. split; [exact Hrun|].
  split; [unfold finalize_means; rewrite Hfin; reflexivity|].
  intros c Hc. destruct Hdiv as (_ & Hdiv).
  destruct (Hdiv c Hc) as (row & Hrow & _ & Hvals).
  exists row. split; [exact Hrow|].
  intros i Hi. destruct (Hvals i Hi) as (x & Hx & Hxeq).
  exists x. split; [exact Hx|].
  replace (c <? 0 + NUM_CLASSES)%nat with true in Hxeq
    by (symmetry; apply Nat.ltb_lt; exact Hc).
  exact Hxeq.
Qed.

Lemma values_at_class_length loader c i :
  Forall wf_batch loader -> (i < NUM_CLASSES)%nat ->
  Z.of_nat (List.length (values_at_class loader c i)) = pixels_with_label loader c.
Proof.
  intros Hwf Hi. unfold Mahalanobis.pixels_with_label. f_equal.
  unfold Mahalanobis.values_at_class.
  induction Hwf as [|b bs [Hlen Hrows] _ IH]; [reflexivity|].
  simpl. rewrite List.filter_app, !length_app, IH. f_equal.
  apply labelled_values_length.
  assert (Hr : exists r, result_of b !! i = Some r)
    by (apply lookup_lt_is_Some_2; lia).
  destruct Hr as (r & Hr). rewrite (nth_lookup_Some _ _ _ _ Hr).
  rewrite Forall_forall in Hrows. apply Hrows.
  apply list_elem_of_lookup. eauto.
Qed.

(** Claim C6, as amended.  In the mean phase, for every class with
    fewer than 2^31 labelled pixels: if the class has a pixel, each
    entry of its finalized mean is the arithmetic mean of that channel
    over exactly the pixels labelled with the class; if it has none, the
    entry is zero. *)
Theorem per_class_mean_is_arithmetic_mean d dcov pm loader :
  Forall wf_batch loader ->
  exists a means,
    for_each (image_step Image forward args weights d dcov d pm) loader initial_acc
      = Ok a
    /\ finalize_means a = Ok means
    /\ forall c, (c < NUM_CLASSES)%nat ->
         (pixels_with_label loader c < 2 ^ 31)%Z ->
         exists row, means !! c = Some row
           /\ forall i, (i < NUM_CLASSES)%nat ->
                exists x, row !! i = Some x
                  /\ ((0 < pixels_with_label loader c)%Z ->
                        (x == arithmetic_mean (values_at_class loader c i))%Q)
                  /\ (pixels_with_label loader c = 0%Z -> (x == 0)%Q).
Proof.
  intros Hwf.
  destruct (mean_phase_result d dcov pm loader Hwf) as (a & means & Hrun & Hfin & Hall).
  exists a, means. split; [exact Hrun|]. split; [exact Hfin|].
  intros c Hc Hbound. destruct (Hall c Hc) as (row & Hrow & Hvals).
  exists row. split; [exact Hrow|].
  intros i Hi. destruct (Hvals i Hi) as (x & Hx & Hxeq).
  exists x. split; [exact Hx|].
  pose proof (values_at_class_length loader c i Hwf Hi) as Hlen.
  assert (Hnn : (0 <= pixels_with_label loader c)%Z)
    by (unfold Mahalanobis.pixels_with_label; lia).
  unfold finalized_value in Hxeq.
  rewrite wrap32_small in Hxeq by lia.
  split.
  - intros Hpos. apply Z.ltb_lt in Hpos. rewrite Hpos in Hxeq.
    unfold arithmetic_mean. rewrite Hlen. exact Hxeq.
  - intros Hzero. rewrite Hzero in Hxeq. simpl in Hxeq.
    rewrite Hzero in Hlen.
    destruct (values_at_class loader c i); [exact Hxeq|].
    simpl in Hlen. lia.
Qed.

End MeanPass.

Section UniformLoader.
Import Mahalanobis StatsFixture.

Variable args : Args.t.
Variable weights : gmap string Tensor.
Variables n m : nat.

Abbreviation road_batch := (mkBatch (road_image m) (repeat 0%Z m)).

Lemma road_result : result_of Image forward args weights road_batch
                    = repeat (repeat 1%Q m) NUM_CLASSES.
Proof. reflexivity. Qed.

Lemma road_wf : wf_batch Image forward args weights road_batch.
Proof.
  split; [reflexivity|]. rewrite road_result.
  apply Forall_forall. intros row Hrow.
  apply list_elem_of_In, repeat_spec in Hrow. subst row.
  cbn [labels]. rewrite !repeat_length. reflexivity.
Qed.

Lemma road_loader_wf : Forall (wf_batch Image forward args weights) (road_loader n m).
Proof.
  unfold road_loader. apply Forall_forall. intros b Hb.
  apply list_elem_of_In, repeat_spec in Hb. subst b. apply road_wf.
Qed.

Lemma labelled_values_road : labelled_values 0 (repeat 0%Z m) (repeat 1%Q m) = repeat 1%Q m.
Proof.
  unfold labelled_values. induction m as [|k IH]; [reflexivity|].
  simpl. f_equal. exact IH.
Qed.

Lemma pysum_ones (k : nat) : (pysum (repeat 1%Q k) == inject_Z (Z.of_nat k))%Q.
Proof.
  induction k as [|k IH]; [reflexivity|].
  cbn [repeat]. rewrite pysum_cons, IH, Nat2Z.inj_succ.
  unfold Z.succ. rewrite inject_Z_plus. ring.
Qed.

Lemma road_values :
  values_at_class Image forward args weights (road_loader n m) 0 0
  = repeat 1%Q (n * m).
Proof.
  unfold values_at_class, road_loader.
  induction n as [|k IH]; [reflexivity|].
  cbn [repeat flat_map]. rewrite IH, road_result. cbn [nth NUM_CLASSES repeat labels].
  rewrite labelled_values_road. rewrite <- repeat_app. reflexivity.
Qed.

Lemma road_pixels :
  pixels_with_label Image (road_loader n m) 0 = Z.of_nat (n * m).
Proof.
  rewrite <- (values_at_class_length Image forward args weights (road_loader n m) 0 0
                road_loader_wf ltac:(unfold NUM_CLASSES; lia)).
  rewrite road_values, repeat_length. reflexivity.
Qed.

(** Once the wrapped counter is not positive the sum is left as it is. *)
Lemma road_mean_not_divided d dcov pm :
  Args.mean args = "" ->
  (0 <? wrap32 (Z.of_nat (n * m)))%Z = false ->
  (1 < Z.of_nat (n * m))%Z ->
  exists a means row x,
    for_each (image_step Image forward args weights d dcov d pm)
             (road_loader n m) initial_acc = Ok a
    /\ finalize_means a = Ok means
    /\ means !! 0%nat = Some row
    /\ row !! 0%nat = Some x
    /\ ~ (x == arithmetic_mean
                 (values_at_class Image forward args weights (road_loader n m) 0 0))%Q.
Proof.
  intros Hmean Hwrap Hbig.
  destruct (mean_phase_result Image forward args weights Hmean d dcov pm
              (road_loader n m) road_loader_wf)
    as (a & means & Hrun & Hfin & Hall).
  destruct (Hall 0%nat ltac:(unfold NUM_CLASSES; lia)) as (row & Hrow & Hvals).
  destruct (Hvals 0%nat ltac:(unfold NUM_CLASSES; lia)) as (x & Hx & Hxeq).
  exists a, means, row, x. repeat (split; [assumption|]).
  unfold finalized_value in Hxeq. rewrite road_pixels, Hwrap in Hxeq.
  unfold arithmetic_mean. rewrite road_values, repeat_length in *.
  rewrite Hxeq, pysum_ones.
  intros Heq.
  assert (Hnz : ~ (inject_Z (Z.of_nat (n * m)) == 0)%Q).
  { intros H0. unfold Qeq in H0. cbn [inject_Z Qnum Qden] in H0. lia. }
  unfold Qdiv in Heq. rewrite (Qmult_inv_r _ Hnz) in Heq.
  unfold Qeq in Heq. cbn [inject_Z Qnum Qden] in Heq. lia.
Qed.
End UniformLoader.

Section Int32.
Import Mahalanobis StatsFixture.

Lemma per_class_mean_is_arithmetic_mean_witness :
  Forall (wf_batch Image forward (args true "") ∅) loader
  /\ exists a means row x,
       for_each (image_step Image forward (args true "") ∅
                            cpu_device cuda_device cpu_device None)
                loader initial_acc = Ok a
       /\ finalize_means a = Ok means
       /\ means !! 0%nat = Some row
       /\ row !! 0%nat = Some x
       /\ (x == 1)%Q.
Proof.
  assert (Hwf : Forall (wf_batch Image forward (args true "") ∅) loader).
  { repeat constructor. }
  split; [exact Hwf|].
  destruct (per_class_mean_is_arithmetic_mean Image forward (args true "") ∅
              eq_refl cpu_device cuda_device None loader Hwf)
    as (a & means & Hrun & Hfin & Hall).
  destruct (Hall 0%nat) as (row & Hrow & Hvals).
  - unfold NUM_CLASSES. lia.
  - reflexivity.
  - destruct (Hvals 0%nat) as (x & Hx & Hpos & _).
    + unfold NUM_CLASSES. lia.
    + exists a, means, row, x. repeat (split; [assumption|]).
      rewrite Hpos by reflexivity. reflexivity.
Defined.

(** 2^31 pixels of class 0: the [int32] counter wraps to -2^31, the
    test [> 0] fails and the sum of class 0 is saved undivided, although
    the class has labelled pixels. *)
Lemma mean_left_undivided_after_int32_wrap :
  Forall (wf_batch Image forward (args true "") ∅) road_4096
  /\ (0 < pixels_with_label Image road_4096 0)%Z
  /\ exists a means row x,
       for_each (image_step Image forward (args true "") ∅
                            cpu_device cuda_device cpu_device None)
                road_4096 initial_acc = Ok a
       /\ finalize_means a = Ok means
       /\ means !! 0%nat = Some row
       /\ row !! 0%nat = Some x
       /\ ~ (x == arithmetic_mean
                    (values_at_class Image forward (args true "") ∅ road_4096 0 0))%Q.
Proof.
  assert (Hn : Z.of_nat (4096 * (512 * 1024)) = (2 ^ 31)%Z).
  { rewrite !Nat2Z.inj_mul. reflexivity. }
  split; [apply road_loader_wf|].
  split.
  - unfold road_4096. rewrite (road_pixels (args true "") ∅), Hn. reflexivity.
  - apply road_mean_not_divided.
    + reflexivity.
    + rewrite Hn. reflexivity.
    + rewrite Hn. reflexivity.
Qed.
End Int32.

Section CovPass.
Import Mahalanobis.

Variable Image : Type.
Variable forward : string -> gmap string Tensor -> Image -> list (list Q).
Variable args : Args.t.
Variable weights : gmap string Tensor.
Variable mean : list (list Q).

Abbreviation result_of := (result_of Image forward args weights).
Abbreviation wf_batch := (wf_batch Image forward args weights).
Abbreviation class_products := (class_products Image forward args weights mean).
Abbreviation centered_products := (centered_products Image forward args weights mean).

Lemma cov_state_ext (t t' : nat -> nat -> Q) a :
  (forall i j, (t i j == t' i j)%Q) -> cov_state t a -> cov_state t' a.
Proof.
  intros Heq (Hlen & Hrows). split; [exact Hlen|].
  intros i Hi. destruct (Hrows i Hi) as (row & Hrow & Hrl & Hvals).
  exists row. split; [exact Hrow|]. split; [exact Hrl|].
  intros j Hj. destruct (Hvals j Hj) as (x & Hx & Hxeq).
  exists x. split; [exact Hx|]. rewrite Hxeq. apply Heq.
Qed.

Lemma zip_with_mult_maps (f g : Q -> Q) (xs ys : list Q) :
  zip_with Qmult (map f xs) (map g ys)
  = map (fun p : Q * Q => (f (fst p) * g (snd p))%Q) (combine xs ys).
Proof.
  revert ys. induction xs as [|x xs IH]; intros [|y ys]; simpl; auto.
  rewrite IH. reflexivity.
Qed.

Lemma forallb_row_lengths (m : list (list Q)) (n : nat) :
  Forall (fun row => List.length row = n) m ->
  forallb (fun r => (List.length r =? n)%nat) m = true.
Proof.
  induction 1 as [|r rs Hr _ IH]; simpl; [reflexivity|].
  rewrite Hr, Nat.eqb_refl. exact IH.
Qed.

Lemma same_device_refl d : same_device d d = Ok d.
Proof. destruct d; reflexivity. Qed.

Hypothesis Hmean_wf : wf_mean mean.

(** One class of one image adds its centered products to every entry. *)
Lemma cov_class_step d b a k total :
  wf_batch b ->
  (k < NUM_CLASSES)%nat ->
  cov_state total a ->
  exists a',
    cov_class d d d mean (labels b) (result_of b) a k = Ok a'
    /\ cov_state (fun i j => (total i j + pysum (class_products b k i j))%Q) a'
    /\ num_images a' = num_images a.
Proof.
  intros [Hlen Hrows] Hk (Hcl & Hcov).
  destruct Hmean_wf as [Hml Hmrows].
  unfold cov_class.
  rewrite (select_columns_labelled k (labels b) (result_of b) Hrows). cbn [rbind].
  assert (Hmu : exists mu, mean !! k = Some mu)
    by (apply lookup_lt_is_Some_2; lia).
  destruct Hmu as (mu & Hmu).
  assert (Hmulen : List.length mu = NUM_CLASSES).
  { rewrite Forall_forall in Hmrows. apply Hmrows.
    apply list_elem_of_lookup. eauto. }
  unfold row_at. rewrite Hmu. cbn [rbind].
  rewrite same_device_refl. cbn [rbind].
  unfold sub_column. rewrite length_map, Hlen, Hmulen, Nat.eqb_refl. cbn [rbind].
  set (centered := zip_with _ _ mu).
  assert (Hclen : List.length centered = NUM_CLASSES).
  { unfold centered. rewrite length_zip_with_l_eq; rewrite length_map; lia. }
  unfold mat_iadd, gram. rewrite length_map, Hclen, Hcl, Nat.eqb_refl.
  rewrite forallb_row_lengths.
  2: { apply Forall_forall. intros row Hrow.
       apply list_elem_of_lookup in Hrow. destruct Hrow as (i & Hi).
       destruct (Hcov i) as (row' & Hrow' & Hrl & _).
       - apply lookup_lt_Some in Hi. lia.
       - congruence. }
  cbn [andb rbind]. rewrite same_device_refl. cbn [rbind].
  eexists. split; [reflexivity|]. split; [|reflexivity].
  unfold cov_state. cbn [cov_matrix]. split.
  { rewrite length_zip_with_l_eq; [exact Hcl|]. rewrite length_map. lia. }
  intros i Hi. destruct (Hcov i Hi) as (row & Hrow & Hrl & Hvals).
  assert (Hri : exists r, result_of b !! i = Some r)
    by (apply lookup_lt_is_Some_2; lia).
  destruct Hri as (ri & Hri).
  assert (Hmi : exists mi, mu !! i = Some mi)
    by (apply lookup_lt_is_Some_2; lia).
  destruct Hmi as (mi & Hmi).
  assert (Hci : centered !! i
                = Some (map (fun x => (x - mi)%Q) (labelled_values k (labels b) ri))).
  { unfold centered. rewrite lookup_zip_with, lookup_map, Hri, Hmi. reflexivity. }
  eexists. split.
  { rewrite lookup_zip_with, Hrow, lookup_map, Hci. reflexivity. }
  split.
  { rewrite length_zip_with_l_eq; [exact Hrl|]. rewrite length_map. lia. }
  intros j Hj. destruct (Hvals j Hj) as (x & Hx & Hxeq).
  assert (Hrj : exists r, result_of b !! j = Some r)
    by (apply lookup_lt_is_Some_2; lia).
  destruct Hrj as (rj & Hrj).
  assert (Hmj : exists mj, mu !! j = Some mj)
    by (apply lookup_lt_is_Some_2; lia).
  destruct Hmj as (mj & Hmj).
  assert (Hcj : centered !! j
                = Some (map (fun x => (x - mj)%Q) (labelled_values k (labels b) rj))).
  { unfold centered. rewrite lookup_zip_with, lookup_map, Hrj, Hmj. reflexivity. }
  eexists. split.
  { rewrite lookup_zip_with, Hx, lookup_map, Hcj. reflexivity. }
  rewrite Hxeq. unfold dot. rewrite zip_with_mult_maps.
  unfold Mahalanobis.class_products.
  rewrite (nth_lookup_Some _ _ _ _ Hri), (nth_lookup_Some _ _ _ _ Hrj).
  rewrite (nth_lookup_Some _ _ _ _ Hmu).
  rewrite (nth_lookup_Some _ _ _ _ Hmi), (nth_lookup_Some _ _ _ _ Hmj).
  reflexivity.
Qed.

Lemma cov_classes_loop d b n k a total :
  wf_batch b ->
  (k + n <= NUM_CLASSES)%nat ->
  cov_state total a ->
  exists a',
    for_each (cov_class d d d mean (labels b) (result_of b)) (seq k n) a = Ok a'
    /\ cov_state (fun i j =>
         (total i j
          + pysum (flat_map (fun c => class_products b c i j) (seq k n)))%Q) a'
    /\ num_images a' = num_images a.
Proof.
  intros Hwf. revert k a total. induction n as [|n IH]; intros k a total Hkn Hst.
  - exists a. simpl. split; [reflexivity|]. split; [|reflexivity].
    revert Hst. apply cov_state_ext. intros i j. unfold pysum. simpl. ring.
  - simpl.
    destruct (cov_class_step d b a k total Hwf ltac:(lia) Hst)
      as (a1 & -> & Hst1 & Hn1).
    cbn [rbind].
    destruct (IH (S k) a1 _ ltac:(lia) Hst1) as (a2 & -> & Hst2 & Hn2).
    exists a2. split; [reflexivity|]. split; [|congruence].
    revert Hst2. apply cov_state_ext. intros i j.
    rewrite pysum_app. ring.
Qed.

Hypothesis Hmean : (0 <? String.length (Args.mean args))%nat = true.

Lemma image_step_cov d dacc b a total :
  wf_batch b ->
  cov_state total a ->
  exists a',
    image_step Image forward args weights d d dacc (Some (d, mean)) a b = Ok a'
    /\ cov_state (fun i j =>
         (total i j
          + pysum (flat_map (fun c => class_products b c i j) (seq 0 NUM_CLASSES)))%Q) a'
    /\ num_images a' = (num_images a + 1)%Z.
Proof.
  intros Hwf Hst. unfold image_step. rewrite Hmean. cbn [negb read_mean rbind].
  destruct (cov_classes_loop d b NUM_CLASSES 0 a total Hwf ltac:(lia) Hst)
    as (a1 & -> & Hst1 & Hn1).
  cbn [rbind]. eexists. split; [reflexivity|]. cbn [num_images].
  split; [exact Hst1|]. rewrite Hn1. reflexivity.
Qed.

Lemma cov_pass_loop d dacc loader a total :
  Forall wf_batch loader ->
  cov_state total a ->
  exists a',
    for_each (image_step Image forward args weights d d dacc (Some (d, mean)))
             loader a = Ok a'
    /\ cov_state (fun i j => (total i j + pysum (centered_products loader i j))%Q) a'
    /\ num_images a' = (num_images a + Z.of_nat (List.length loader))%Z.
Proof.
  intros Hwf. revert a total.
  induction Hwf as [|b bs Hb _ IH]; intros a total Hst.
  - exists a. simpl. split; [reflexivity|]. split; [|lia].
    revert Hst. apply cov_state_ext. intros i j. unfold pysum. simpl. ring.
  - cbn [for_each List.length].
    destruct (image_step_cov d dacc b a total Hb Hst) as (a1 & -> & Hst1 & Hn1).
    cbn [rbind].
    destruct (IH a1 _ Hst1) as (a2 & -> & Hst2 & Hn2).
    exists a2. split; [reflexivity|]. split; [|lia].
    revert Hst2. apply cov_state_ext. intros i j.
    change (centered_products (b :: bs) i j)
      with (flat_map (fun c => class_products b c i j) (seq 0 NUM_CLASSES)
            ++ centered_products bs i j).
    rewrite pysum_app. ring.
Qed.

Lemma initial_cov_state : cov_state (fun _ _ => 0%Q) initial_acc.
Proof.
  split; [reflexivity|]. intros i Hi.
  exists (repeat 0%Q NUM_CLASSES). split.
  - cbn [initial_acc cov_matrix]. unfold zeros. apply lookup_repeat. exact Hi.
  - split; [apply repeat_length|].
    intros j Hj. exists 0%Q. split; [apply lookup_repeat; exact Hj|reflexivity].
Qed.

(** Claim C7.  In the covariance phase every class of every image adds
    the outer products of its centered feature vectors to the one
    accumulator, and the saved matrix is that pooled sum divided by
    512 * 1024 times the number of images, whatever the pixel counts of
    the classes.  (The empty traversal is left out: there the program
    divides zero by zero.) *)
Theorem covariance_is_pooled_and_normalised_by_image_count d dacc loader :
  Forall wf_batch loader ->
  loader <> [] ->
  exists a,
    for_each (image_step Image forward args weights d d dacc (Some (d, mean)))
             loader initial_acc = Ok a
    /\ num_images a = Z.of_nat (List.length loader)
    /\ forall i j, (i < NUM_CLASSES)%nat -> (j < NUM_CLASSES)%nat ->
         exists row x,
           finalize_cov a !! i = Some row
           /\ row !! j = Some x
           /\ (x == pysum (centered_products loader i j)
                    / inject_Z (Z.of_nat (List.length loader) * 512 * 1024))%Q.
Proof.
  intros Hwf _.
  destruct (cov_pass_loop d dacc loader initial_acc _ Hwf initial_cov_state)
    as (a & Hrun & (Hlen & Hrows) & Hn).
  exists a. split; [exact Hrun|].
  cbn [initial_acc num_images] in Hn. rewrite Z.add_0_l in Hn.
  split; [exact Hn|].
  intros i j Hi Hj. destruct (Hrows i Hi) as (row & Hrow & _ & Hvals).
  destruct (Hvals j Hj) as (x & Hx & Hxeq).
  eexists. eexists. split.
  { unfold finalize_cov. rewrite lookup_map, Hrow. reflexivity. }
  split.
  { rewrite lookup_map, Hx. reflexivity. }
  rewrite Hn, Hxeq. rewrite Qplus_0_l. reflexivity.
Qed.

End CovPass.

Section CovWitness.
Import Mahalanobis StatsFixture.

Lemma covariance_is_pooled_and_normalised_by_image_count_witness :
  exists a,
    for_each (image_step Image forward (args false "mean.npy") ∅
                         cuda_device cuda_device cuda_device
                         (Some (cuda_device, zeros NUM_CLASSES NUM_CLASSES)))
             loader initial_acc = Ok a
    /\ num_images a = 2%Z.
Proof.
  destruct (covariance_is_pooled_and_normalised_by_image_count
              Image forward (args false "mean.npy") ∅ (zeros NUM_CLASSES NUM_CLASSES))
    with (d := cuda_device) (dacc := cuda_device) (loader := loader)
    as (a & Hrun & Hn & _).
  - split; [reflexivity|]. repeat constructor.
  - reflexivity.
  - repeat constructor.
  - discriminate.
  - exists a. split; [exact Hrun|exact Hn].
Defined.

End CovWitness.

Section Phases.
Import Mahalanobis.

Variable Image : Type.
Variable forward : string -> gmap string Tensor -> Image -> list (list Q).

Abbreviation main := (main Image forward).
Abbreviation image_step := (image_step Image forward).

Lemma for_each_preserves {S X} (body : S -> X -> Result S) (P : S -> S -> Prop) :
  (forall s, P s s) ->
  (forall s1 s2 s3, P s1 s2 -> P s2 s3 -> P s1 s3) ->
  (forall s x s', body s x = Ok s' -> P s s') ->
  forall xs s s', for_each body xs s = Ok s' -> P s s'.
Proof.
  intros Hrefl Htrans Hbody. induction xs as [|x xs IH]; intros s s' H.
  - simpl in H. injection H as <-. apply Hrefl.
  - simpl in H. destruct (body s x) as [s1|] eqn:E; [|discriminate H].
    cbn [rbind] in H. eapply Htrans; [eapply Hbody; exact E|]. apply IH. exact H.
Qed.

Lemma mean_given (args : Args.t) :
  Args.mean args <> "" -> (0 <? String.length (Args.mean args))%nat = true.
Proof. destruct (Args.mean args); [congruence|reflexivity]. Qed.

(** Every run allocates the covariance accumulator on CUDA (line 96),
    also a mean pass started with [--cpu]. *)
Lemma main_needs_cuda args host net loader disk :
  cuda_available host = false -> raises (main args host net loader disk).
Proof.
  intros Hc. unfold Mahalanobis.main, raises, to_cuda. rewrite Hc.
  repeat match goal with
  | |- exists e, rbind ?r _ = Raise e =>
      let E := fresh in destruct r eqn:E; cbn [rbind]; [|eexists; reflexivity]
  end.
  all: try (eexists; reflexivity).
Qed.

Lemma cov_pass_on_cpu_raises args weights dc da mu b bs a :
  Args.mean args <> "" ->
  raises (for_each (image_step args weights cpu_device dc da
                               (Some (cuda_device, mu))) (b :: bs) a).
Proof.
  intros Hm. cbn [for_each]. unfold Mahalanobis.image_step at 1.
  rewrite (mean_given args Hm). cbn [negb read_mean rbind].
  change (seq 0 NUM_CLASSES) with (0%nat :: seq 1 18). cbn [for_each].
  unfold cov_class at 1.
  destruct (select_columns _ _); cbn [rbind]; [|eexists; reflexivity].
  destruct (row_at mu 0); cbn [rbind]; eexists; reflexivity.
Qed.

(** The covariance pass puts the loaded means on CUDA whatever [--cpu]
    says, while [--cpu] keeps the model and its output on the CPU: a
    covariance run with [--cpu] over a loader that yields an image does
    not complete, on any host. *)
Theorem covariance_run_with_cpu_flag_raises
    (args : Args.t) (host : Host) (net : gmap string Tensor)
    (loader : list (Batch Image)) (disk : gmap string File) :
  Args.cpu args = true -> Args.mean args <> "" -> loader <> [] ->
  raises (main args host net loader disk).
Proof.
  intros Hcpu Hm Hne. unfold Mahalanobis.main, raises.
  rewrite Hcpu, (mean_given args Hm). cbn [negb].
  destruct loader as [|b bs]; [congruence|].
  repeat match goal with
  | |- exists e, rbind (for_each _ _ _) _ = Raise e => fail 1
  | |- exists e, rbind ?r _ = Raise e =>
      let E := fresh in destruct r eqn:E; cbn [rbind]; [|eexists; reflexivity]
  end.
  match goal with
  | E : to_cuda host = Ok _ |- _ =>
      unfold to_cuda in E; destruct (cuda_available host);
      [|discriminate E]; injection E as <-
  end.
  match goal with
  | E : rbind (np_load ?d ?p) _ = Ok _ |- _ =>
      destruct (np_load d p) as [arr|]; cbn [rbind] in E;
      [|discriminate E]; injection E as <-
  end.
  match goal with
  | |- exists e, rbind (for_each (Mahalanobis.image_step _ _ _ ?w _ ?dc ?da (Some (_, ?mu))) _ ?a) _ = _ =>
      destruct (cov_pass_on_cpu_raises args w dc da mu b bs a Hm) as (e & ->)
  end.
  eexists. reflexivity.
Qed.

End Phases.

Section PhasesWitness.
Import Mahalanobis StatsFixture.

Lemma covariance_run_with_cpu_flag_raises_witness :
  raises (main Image forward (args true "mean.npy") (mkHost true true) net
               loader disk_with_mean).
Proof.
  apply (covariance_run_with_cpu_flag_raises Image forward (args true "mean.npy")
           (mkHost true true) net loader disk_with_mean).
  - reflexivity.
  - discriminate.
  - discriminate.
Defined.

End PhasesWitness.

Section CpuFlag.
Import Mahalanobis StatsFixture.

(** Claim C10 (the code departs from it).  A mean run started with
    [--cpu] on a host without CUDA: the model stays on the CPU (lines 73-74)
    and the mean accumulators are allocated on the CPU (lines 99-100),
    but the covariance accumulator, which a mean run never updates, is
    allocated on ['cuda'] all the same (line 96), and the run stops
    there.  The pass itself needs no CUDA: with the model and the
    accumulators on the CPU it completes, and on a host with CUDA the
    same command writes the means and nothing else.  The covariance run
    with [--cpu] raises on its first image even where CUDA is present. *)
Theorem cpu_mean_run_stops_at_cuda_allocation :
  let mean_run := args true "" in
  let cov_run := args true "/save/mean_cityscapes_erfnet.npy" in
  let weights : gmap string Tensor := {[ "encoder.weight" := vec [3; 4]%Q ]} in
  main Image forward mean_run (mkHost false true) net loader disk
    = Raise (RuntimeError "Found no NVIDIA driver on your system")
  /\ (forall dev_cov,
        is_ok (let* a := for_each (image_step Image forward mean_run weights
                                              cpu_device dev_cov cpu_device None)
                                  loader initial_acc in
               finalize_means a) = true)
  /\ (let after :=
        disk_of (main Image forward mean_run (mkHost true true) net loader disk) in
      returns (main Image forward mean_run (mkHost true true) net loader disk)
      /\ after !! mean_artifact_path mean_run <> None
      /\ after !! cov_artifact_path mean_run = None
      /\ main Image forward cov_run (mkHost true true) net loader after
         = Raise (RuntimeError "Expected all tensors to be on the same device")).
Proof.
  cbv zeta. split; [|split; [|split; [|split; [|split]]]].
  - vm_compute. reflexivity.
  - intros [|]; vm_compute; reflexivity.
  - apply is_ok_returns. vm_compute. reflexivity.
  - vm_compute. discriminate.
  - vm_compute. reflexivity.
  - vm_compute. reflexivity.
Qed.

End CpuFlag.

(** * Further facts about the training run *)

Section EpochEndEffects.
Import TrainMain.

Lemma range_nil (a b : Z) : (b <= a)%Z -> range a b = [].
Proof.
  intros H. unfold range. replace (Z.to_nat (b - a)) with 0%nat by lia. reflexivity.
Qed.

Lemma range_cons (a b : Z) : (a < b)%Z -> range a b = a :: range (a + 1) b.
Proof.
  intros H. unfold range.
  replace (Z.to_nat (b - a)) with (S (Z.to_nat (b - (a + 1)))) by lia.
  cbn [seq map]. f_equal; [lia|].
  rewrite <- seq_shift, map_map. apply map_ext. intros i. lia.
Qed.



Lemma save_model_writes m filename iso disk :
  (iso = true -> wrapped m = true) ->
  exists lfp, save_model m filename iso disk
              = Ok (<[filename := ModelFile (weights m) lfp]> disk).
Proof.
  intros Hw. unfold save_model, sub_state_dict. destruct iso.
  - rewrite (Hw eq_refl). cbn [rbind].
    destruct (has_loss_first_part m); cbn [rbind]; eexists; reflexivity.
  - eexists; reflexivity.
Qed.

(** The files an epoch end may write, in the order of the writes. *)
Lemma epoch_end_writes
    (args : Args.t) (enc : bool) (savedir : string) (epoch step : Z)
    (model : Model) (optimizer : Optimizer) (best_acc : Q)
    (disk : gmap string File)
    (ltrain lval iouTrain iouVal usedLr : Q) :
  (Args.model args = erfnet_isomaxplus -> wrapped model = true) ->
  exists lfp lfp1 lfp2,
    let metric := current_acc iouVal lval in
    let ck := mkCheckpoint (epoch + 1) (arch model) (weights model) lfp
                           (pymax metric best_acc) optimizer in
    let d1 := save_checkpoint ck (Qgtb metric best_acc)
                (filenameCheckpoint savedir enc) (filenameBest savedir enc) disk in
    let d2 :=
      if ((0 <? Args.epochs_save args)%Z && (0 <? step)%Z
          && (step mod Args.epochs_save args =? 0)%Z)%bool
      then <[savedir +:+ (if enc then "/model_encoder-" else "/model-")
                     +:+ fmt03 epoch +:+ ".pth"
             := ModelFile (weights model) lfp1]> d1
      else d1 in
    let d3 :=
      if Qgtb metric best_acc
      then <[savedir +:+ (if enc then "/best_encoder.txt" else "/best.txt")
             := BestFile epoch iouVal]>
             (<[savedir +:+ (if enc then "/model_encoder_best.pth" else "/model_best.pth")
                := ModelFile (weights model) lfp2]> d2)
      else d2 in
    epoch_end args enc savedir epoch step model optimizer best_acc disk
              ltrain lval iouTrain iouVal usedLr
    = Ok (mkLoop model optimizer (pymax metric best_acc)
            (append_line d3 (automated_log_path savedir enc)
               (RowLine (mkRow epoch ltrain lval iouTrain iouVal usedLr)))).
Proof.
  intros Hiso. unfold epoch_end.
  set (isomax := ModelName_eqb (Args.model args) erfnet_isomaxplus).
  assert (Hw : isomax = true -> wrapped model = true).
  { intros E. apply Hiso. apply ModelName_eqb_eq. exact E. }
  assert (Hlfp : exists lfp,
    (if isomax
     then let* d := sub_state_dict "module.decoder." model in Ok (Some d)
     else Ok None) = Ok lfp).
  { destruct isomax.
    - unfold sub_state_dict. rewrite (Hw eq_refl). cbn [rbind]. eauto.
    - eauto. }
  destruct Hlfp as [lfp ->]. cbn [rbind].
  exists lfp.
  set (ck := mkCheckpoint _ _ _ _ _ _).
  set (d1 := save_checkpoint _ _ _ _ _).
  destruct (save_model_writes model
    (savedir +:+ (if enc then "/model_encoder-" else "/model-")
             +:+ fmt03 epoch +:+ ".pth") isomax d1 Hw) as (lfp1 & H1).
  exists lfp1. rewrite H1.
  set (cond := (_ && _ && _)%bool).
  set (d2 := if cond then _ else d1).
  replace (if cond then Ok _ else Ok d1) with (Ok (A := gmap string File) d2)
    by (unfold d2; destruct cond; reflexivity).
  cbn [rbind].
  destruct (save_model_writes model
    (savedir +:+ (if enc then "/model_encoder_best.pth" else "/model_best.pth"))
    isomax d2 Hw) as (lfp2 & H2).
  exists lfp2. rewrite H2. cbn [rbind].
  cbv zeta. fold ck. fold d1. fold cond. fold d2.
  destruct (Qgtb (current_acc iouVal lval) best_acc); cbn [rbind]; reflexivity.
Qed.

End EpochEndEffects.

(** Paths under one directory differ when their last parts do; the
    encoder flag is split on in the goal only. *)
Ltac paths_differ :=
  let H := fresh in
  intros H; apply (inj (String.app _)) in H; revert H;
  repeat match goal with
         | |- context [if ?b then _ else _] => is_var b; case b
         end;
  intros H; cbv [String.append] in H; congruence.

Section TrainRun.
Import TrainMain.

Variable train_pass : Args.t -> bool -> Z -> Model -> Optimizer ->
                      Model * Optimizer * list Q.
Variable val_pass : Args.t -> bool -> Z -> Model -> list Q.
Variable getIoU_train getIoU_val : Z -> Model -> Q.
Variable scheduler_lr : Args.t -> Z -> Optimizer -> Q.
Variable args : Args.t.
Variable enc : bool.

Abbreviation run_epoch :=
  (train_epoch train_pass val_pass getIoU_train getIoU_val scheduler_lr args enc).

(** The loaders are not empty, and the network stays wrapped where the
    checkpoint of [erfnet_isomaxplus] reads [model.module]. *)
Hypothesis train_batches : forall e m o, snd (train_pass args enc e m o) <> [].
Hypothesis val_batches : forall e m, val_pass args enc e m <> [].
Hypothesis stays_wrapped : forall e m o,
  Args.model args = erfnet_isomaxplus ->
  wrapped (fst (fst (train_pass args enc e m o))) = true.






Variable model : Model.
Variable disk : gmap string File.

Hypothesis fresh : Args.resume args = false.
Hypothesis loss_fits : Args.model args = erfnet -> Args.loss args <> "IsoMaxPlus".
Hypothesis fine_tune_wrapped : Args.FineTune args = true -> wrapped model = true.

Abbreviation savedir := ("../save/" +:+ Args.savedir args).

Lemma new_scheduler_returns (a : Args.t) :
  (1 <= Args.num_epochs a)%Z -> new_scheduler a = Ok tt.
Proof.
  intros H. unfold new_scheduler.
  replace (Args.num_epochs a =? 0)%Z with false
    by (symmetry; apply Z.eqb_neq; lia).
  destruct (Args.model a); reflexivity.
Qed.




(** *** When the metric is the negated loss *)

Hypothesis iou_is_zero : forall e m, (iouVal_of getIoU_val args e m == 0)%Q.
Hypothesis val_losses_nonneg :
  forall e m, Forall (fun x => (0 <= x)%Q) (val_pass args enc e m).

Lemma pysum_nonneg (xs : list Q) : Forall (fun x => (0 <= x)%Q) xs -> (0 <= pysum xs)%Q.
Proof.
  induction 1 as [|x xs Hx _ IH]; [apply Qle_refl|].
  rewrite pysum_cons. replace 0%Q with (0 + 0)%Q by reflexivity.
  apply Qplus_le_compat; assumption.
Qed.





End TrainRun.

Section TrainEdges.
Import TrainMain.

Variable train_pass : Args.t -> bool -> Z -> Model -> Optimizer ->
                      Model * Optimizer * list Q.
Variable val_pass : Args.t -> bool -> Z -> Model -> list Q.
Variable getIoU_train getIoU_val : Z -> Model -> Q.
Variable scheduler_lr : Args.t -> Z -> Optimizer -> Q.

Abbreviation train' :=
  (train train_pass val_pass getIoU_train getIoU_val scheduler_lr).

(** Resuming without a checkpoint file stops on the assertion, whatever
    else the save directory holds. *)
Theorem resume_without_checkpoint_is_refused
    (args : Args.t) (model : Model) (enc : bool) (disk : gmap string File) :
  Args.resume args = true ->
  (Args.model args = erfnet -> Args.loss args <> "IsoMaxPlus") ->
  disk !! filenameCheckpoint ("../save/" +:+ Args.savedir args) enc = None ->
  train' args model enc true disk
  = Raise (AssertionError
      "Error: resume option was used but checkpoint was not found in folder").
Proof.
  intros Hres Hloss Hnone. unfold train. cbn [assert rbind]. rewrite Hres.
  replace (ModelName_eqb (Args.model args) erfnet
           && bool_decide (Args.loss args = "IsoMaxPlus"))%bool with false.
  2: { symmetry. apply andb_false_iff.
       destruct (ModelName_eqb (Args.model args) erfnet) eqn:E; [right|left; reflexivity].
       apply bool_decide_eq_false. apply Hloss. apply ModelName_eqb_eq. exact E. }
  cbn [rbind].
  rewrite bool_decide_eq_false_2; [reflexivity|].
  rewrite lookup_insert_ne by (unfold filenameCheckpoint; paths_differ).
  intros [f Hf]. revert Hf.
  destruct (disk !! automated_log_path _ enc).
  - rewrite Hnone. discriminate.
  - rewrite append_line_other
      by (unfold filenameCheckpoint, automated_log_path; paths_differ).
    rewrite Hnone. discriminate.
Qed.

(** The validation loader is built without shuffling and may be empty:
    then the first epoch of a fresh run trains, and ends with a division
    by zero when the validation losses are averaged; no checkpoint and
    no row is written. *)
Theorem empty_validation_loader_divides_by_zero
    (args : Args.t) (model : Model) (enc : bool) (disk : gmap string File) :
  Args.resume args = false ->
  (Args.model args = erfnet -> Args.loss args <> "IsoMaxPlus") ->
  (Args.FineTune args = true -> wrapped model = true) ->
  (1 <= Args.num_epochs args)%Z ->
  snd (train_pass args enc 1 model (new_optimizer args)) <> [] ->
  val_pass args enc 1
    (fst (fst (train_pass args enc 1 model (new_optimizer args)))) = [] ->
  train' args model enc true disk = Raise ZeroDivisionError.
Proof.
  intros Hres Hloss Hft HN Htrain Hempty.
  unfold train. cbn [assert rbind]. rewrite Hres.
  replace (ModelName_eqb (Args.model args) erfnet
           && bool_decide (Args.loss args = "IsoMaxPlus"))%bool with false.
  2: { symmetry. apply andb_false_iff.
       destruct (ModelName_eqb (Args.model args) erfnet) eqn:E; [right|left; reflexivity].
       apply bool_decide_eq_false. apply Hloss. apply ModelName_eqb_eq. exact E. }
  cbn [rbind].
  replace (Args.FineTune args && negb (wrapped model))%bool with false.
  2: { symmetry. destruct (Args.FineTune args) eqn:E; [|reflexivity].
       rewrite (Hft eq_refl). reflexivity. }
  cbn [rbind]. rewrite (new_scheduler_returns args HN). cbn [rbind].
  rewrite range_cons by lia. cbn [for_each].
  unfold train_epoch at 1. cbn [lp_model lp_optimizer].
  destruct (train_pass args enc 1 model (new_optimizer args))
    as [[model' optimizer] epoch_loss].
  cbn [fst snd] in Htrain, Hempty.
  destruct epoch_loss as [|x xs]; [congruence|].
  cbn [average rbind]. rewrite Hempty. reflexivity.
Qed.

End TrainEdges.

Section Snapshot.
Import TrainMain.

(** Whether an epoch end writes the numbered snapshot depends on [step],
    the index of the last validation batch, and not on the epoch: it is
    written exactly when [epochs_save > 0], [step > 0] and [epochs_save]
    divides [step]. *)
Theorem numbered_snapshot_follows_step
    (args : Args.t) (enc : bool) (savedir : string) (epoch step : Z)
    (model : Model) (optimizer : Optimizer) (best_acc : Q)
    (disk : gmap string File)
    (ltrain lval iouTrain iouVal usedLr : Q) :
  (Args.model args = erfnet_isomaxplus -> wrapped model = true) ->
  let filename := savedir +:+ (if enc then "/model_encoder-" else "/model-")
                          +:+ fmt03 epoch +:+ ".pth" in
  exists st',
    epoch_end args enc savedir epoch step model optimizer best_acc disk
              ltrain lval iouTrain iouVal usedLr = Ok st'
    /\ ((0 < Args.epochs_save args)%Z /\ (0 < step)%Z
        /\ (step mod Args.epochs_save args = 0)%Z ->
        exists lfp, lp_disk st' !! filename = Some (ModelFile (weights model) lfp))
    /\ (~ ((0 < Args.epochs_save args)%Z /\ (0 < step)%Z
           /\ (step mod Args.epochs_save args = 0)%Z) ->
        lp_disk st' !! filename = disk !! filename).
Proof.
  intros Hiso filename.
  destruct (epoch_end_writes args enc savedir epoch step model optimizer best_acc
              disk ltrain lval iouTrain iouVal usedLr Hiso)
    as (lfp & lfp1 & lfp2 & Hend).
  cbv zeta in Hend. rewrite Hend. clear Hend.
  eexists. split; [reflexivity|]. cbn [lp_disk].
  lazymatch goal with
  | |- context [append_line ?d ?q ?l] =>
      rewrite !(append_line_other d q l filename)
        by (unfold filename, automated_log_path; paths_differ)
  end.
  set (cond := (_ && _ && _)%bool).
  assert (Hcond : cond = true <->
                  (0 < Args.epochs_save args)%Z /\ (0 < step)%Z
                  /\ (step mod Args.epochs_save args = 0)%Z).
  { unfold cond. rewrite !andb_true_iff, !Z.ltb_lt, Z.eqb_eq. tauto. }
  assert (Hck : forall ck b, save_checkpoint ck b (filenameCheckpoint savedir enc)
                               (filenameBest savedir enc) disk !! filename
                             = disk !! filename).
  { intros ck b. unfold save_checkpoint.
    destruct b;
      repeat (rewrite lookup_insert_ne
                by (unfold filename, filenameCheckpoint, filenameBest; paths_differ));
      reflexivity. }
  split.
  - intros H. apply Hcond in H. rewrite H. exists lfp1.
    destruct (Qgtb _ _);
      repeat (rewrite lookup_insert_ne by (unfold filename; paths_differ));
      apply lookup_insert_eq.
  - intros H. destruct cond.
    + exfalso. apply H. apply Hcond. reflexivity.
    + destruct (Qgtb _ _);
        repeat (rewrite lookup_insert_ne by (unfold filename; paths_differ));
        apply Hck.
Qed.

End Snapshot.

(** * The metric of an epoch *)

Section EpochMetric.
Import TrainMain.

Variable train_pass : Args.t -> bool -> Z -> Model -> Optimizer ->
                      Model * Optimizer * list Q.
Variable val_pass : Args.t -> bool -> Z -> Model -> list Q.
Variable getIoU_train getIoU_val : Z -> Model -> Q.
Variable scheduler_lr : Args.t -> Z -> Optimizer -> Q.

Lemma average_value (xs : list Q) :
  xs <> [] ->
  average xs = Ok (pysum xs / inject_Z (Z.of_nat (List.length xs)))%Q.
Proof. destruct xs; [congruence|]. intros _. reflexivity. Qed.

(** Claim C3, as amended.  In every epoch that reaches its end (both
    loaders yield a batch), the value compared with the stored best is
    the validation IoU of the epoch when IoU evaluation is enabled and
    that IoU is not zero, and the negated average of the epoch's
    validation losses when IoU evaluation is disabled or the IoU is
    exactly zero: the new stored best is the larger of that value and
    the old one, and the best checkpoint is rewritten exactly when that
    value is strictly greater than the stored best. *)
Theorem metric_is_iou_unless_zero
    (args : Args.t) (enc : bool) (savedir : string) (st : Loop) (epoch : Z) :
  let trained := train_pass args enc epoch (lp_model st) (lp_optimizer st) in
  let model := fst (fst trained) in
  let losses := val_pass args enc epoch model in
  let iou := getIoU_val epoch model in
  let avg_loss := (pysum losses / inject_Z (Z.of_nat (List.length losses)))%Q in
  snd trained <> [] ->
  losses <> [] ->
  (Args.model args = erfnet_isomaxplus -> wrapped model = true) ->
  exists st' ck metric,
    train_epoch train_pass val_pass getIoU_train getIoU_val scheduler_lr
                args enc savedir st epoch = Ok st'
    /\ (Args.iouVal args = true -> ~ (iou == 0)%Q -> metric = iou)
    /\ (Args.iouVal args = false -> metric = (- avg_loss)%Q)
    /\ (Args.iouVal args = true -> (iou == 0)%Q -> metric = (- avg_loss)%Q)
    /\ lp_best_acc st' = pymax metric (lp_best_acc st)
    /\ lp_disk st' !! filenameCheckpoint savedir enc = Some (CheckpointFile ck)
    /\ ck_best_acc ck = lp_best_acc st'
    /\ ((lp_best_acc st < metric)%Q ->
          lp_best_acc st' = metric
          /\ lp_disk st' !! filenameBest savedir enc = Some (CheckpointFile ck))
    /\ (~ (lp_best_acc st < metric)%Q ->
          (lp_best_acc st' == lp_best_acc st)%Q
          /\ lp_disk st' !! filenameBest savedir enc
             = lp_disk st !! filenameBest savedir enc).
Proof.
  cbv zeta. unfold train_epoch.
  destruct (train_pass args enc epoch (lp_model st) (lp_optimizer st))
    as [[model optimizer] epoch_loss].
  cbn [fst snd]. intros Htrain Hval Hw.
  rewrite (average_value epoch_loss Htrain). cbn [rbind].
  rewrite (average_value _ Hval). cbn [rbind].
  set (avg_loss := (pysum (val_pass args enc epoch model) / _)%Q).
  set (iouVal := iouVal_of getIoU_val args epoch model).
  destruct (epoch_end_writes args enc savedir epoch
              (Z.of_nat (List.length (val_pass args enc epoch model)) - 1)
              model optimizer (lp_best_acc st) (lp_disk st)
              (pysum epoch_loss / inject_Z (Z.of_nat (List.length epoch_loss)))
              avg_loss
              (if Args.iouTrain args then getIoU_train epoch model else 0%Q)
              iouVal
              (scheduler_lr args epoch (lp_optimizer st)) Hw)
    as (lfp & lfp1 & lfp2 & Hend).
  cbv zeta in Hend. rewrite Hend. clear Hend.
  set (metric := current_acc iouVal avg_loss).
  set (ck := mkCheckpoint _ _ _ _ _ _).
  eexists. exists ck, metric.
  split; [reflexivity|]. cbn [lp_best_acc lp_disk].
  split.
  { intros Hon Hnz. unfold metric, current_acc, iouVal, iouVal_of. rewrite Hon.
    destruct (Qeq_bool _ 0) eqn:E; [|reflexivity].
    apply Qeq_bool_iff in E. contradiction. }
  split.
  { intros Hoff. unfold metric, current_acc, iouVal, iouVal_of. rewrite Hoff.
    reflexivity. }
  split.
  { intros Hon Hz. unfold metric, current_acc, iouVal, iouVal_of. rewrite Hon.
    apply Qeq_bool_iff in Hz. rewrite Hz. reflexivity. }
  split; [reflexivity|].
  split.
  { rewrite append_line_other
      by (unfold automated_log_path, filenameCheckpoint; paths_differ).
    destruct (Qgtb metric (lp_best_acc st));
      repeat (rewrite lookup_insert_ne by (unfold filenameCheckpoint; paths_differ));
      destruct (_ && _ && _)%bool;
      repeat (rewrite lookup_insert_ne by (unfold filenameCheckpoint; paths_differ));
      apply save_checkpoint_rolling; unfold filenameCheckpoint, filenameBest; paths_differ. }
  split; [reflexivity|].
  rewrite append_line_other
    by (unfold automated_log_path, filenameBest; paths_differ).
  set (d3 := if Qgtb metric (lp_best_acc st) then _ else _).
  assert (Hbest :
    d3 !! filenameBest savedir enc
    = if Qgtb metric (lp_best_acc st) then Some (CheckpointFile ck)
      else lp_disk st !! filenameBest savedir enc).
  { unfold d3. destruct (Qgtb metric (lp_best_acc st));
      repeat (rewrite lookup_insert_ne by (unfold filenameBest; paths_differ));
      destruct (_ && _ && _)%bool;
      repeat (rewrite lookup_insert_ne by (unfold filenameBest; paths_differ));
      rewrite save_checkpoint_best
        by (unfold filenameCheckpoint, filenameBest; paths_differ);
      reflexivity. }
  split.
  - intros Hlt. split; [apply pymax_gt; exact Hlt|].
    rewrite Hbest. rewrite (proj2 (Qgtb_true _ _) Hlt). reflexivity.
  - intros Hnlt. split; [apply pymax_le; apply Qnot_lt_le; exact Hnlt|].
    rewrite Hbest. destruct (Qgtb metric (lp_best_acc st)) eqn:E; [|reflexivity].
    apply Qgtb_true in E. contradiction.
Qed.

End EpochMetric.

Section EpochMetricWitness.
Import TrainMain Fixture.

Lemma metric_is_iou_unless_zero_witness :
  exists st' ck,
    train_epoch train_pass val_pass3 getIoU getIoU scheduler_lr (args 3 0 false)
                false "../save/run"
                (mkLoop net (new_optimizer (args 3 0 false)) 0 ∅) 2 = Ok st'
    /\ lp_best_acc st' = (2 / 10)%Q
    /\ lp_disk st' !! filenameBest "../save/run" false = Some (CheckpointFile ck).
Proof.
  destruct (metric_is_iou_unless_zero train_pass val_pass3 getIoU getIoU
              scheduler_lr (args 3 0 false) false "../save/run"
              (mkLoop net (new_optimizer (args 3 0 false)) 0 ∅) 2)
    as (st' & ck & metric & Hrun & Hon & _ & _ & _ & _ & _ & Hgt & _).
  - discriminate.
  - discriminate.
  - intros H; discriminate H.
  - rewrite (Hon eq_refl) in Hgt by (vm_compute; discriminate).
    destruct Hgt as [Hbest Hfile]; [reflexivity|].
    exists st', ck. split; [exact Hrun|]. split; [exact Hbest|exact Hfile].
Defined.

End EpochMetricWitness.

(** * Further facts about weight reconciliation *)

Section Shapes.

Lemma copy_keeps_shape own param own' :
  Torch.copy_ own param = Ok own' -> shape own' = shape own.
Proof.
  unfold Torch.copy_. destruct (Torch.broadcast_to _ _); cbn [rbind]; [|discriminate].
  intros H. injection H as <-. reflexivity.
Qed.

Lemma copy_shape_only own1 own2 param :
  shape own1 = shape own2 -> Torch.copy_ own1 param = Torch.copy_ own2 param.
Proof. unfold Torch.copy_. intros ->. reflexivity. Qed.

Lemma zeros_like_shape_only own1 own2 :
  shape own1 = shape own2 -> Torch.zeros_like own1 = Torch.zeros_like own2.
Proof. unfold Torch.zeros_like. intros ->. reflexivity. Qed.

Lemma same_shapes_refl m : same_shapes m m.
Proof. intros k. reflexivity. Qed.

Lemma same_shapes_sym m1 m2 : same_shapes m1 m2 -> same_shapes m2 m1.
Proof. intros H k. symmetry. apply H. Qed.

Lemma same_shapes_trans m1 m2 m3 :
  same_shapes m1 m2 -> same_shapes m2 m3 -> same_shapes m1 m3.
Proof. intros H1 H2 k. rewrite H1. apply H2. Qed.

Lemma same_shapes_insert m k own t :
  m !! k = Some own -> shape t = shape own -> same_shapes m (<[k := t]> m).
Proof.
  intros Hk Hs k'. destruct (decide (k = k')) as [<-|Hne].
  - rewrite lookup_insert_eq, Hk. cbn. congruence.
  - rewrite lookup_insert_ne by exact Hne. reflexivity.
Qed.

Lemma same_shapes_some m1 m2 k own :
  same_shapes m1 m2 -> m1 !! k = Some own ->
  exists own', m2 !! k = Some own' /\ shape own' = shape own.
Proof.
  intros H Hk. specialize (H k). rewrite Hk in H.
  destruct (m2 !! k) as [own'|]; [|discriminate].
  exists own'. split; [reflexivity|]. cbn in H. congruence.
Qed.

Lemma same_shapes_none m1 m2 k :
  same_shapes m1 m2 -> m1 !! k = None -> m2 !! k = None.
Proof.
  intros H Hk. specialize (H k). rewrite Hk in H.
  destruct (m2 !! k); [discriminate|reflexivity].
Qed.

End Shapes.

Section Effects.
Import TrainMain.

(** What one entry does depends on the target through its names and
    shapes only: it writes at most one tensor, of the shape that was there,
    and reports some events. *)
Lemma load_entry_effect (s : LoadState) (e : string * Tensor) (s' : LoadState) :
  load_entry s e = Ok s' ->
  exists (writes : list (string * Tensor)) (evs : list Event),
    same_shapes (own_state s) (replay writes (own_state s))
    /\ forall t, same_shapes (own_state s) (own_state t) ->
         load_entry t e
         = Ok (mkLoad (replay writes (own_state t)) (printed t ++ evs)).
Proof.
  destruct e as [name param]. unfold load_entry.
  destruct (own_state s !! name) as [own|] eqn:Hown.
  - (* exact name *)
    destruct (is_output_layer name) eqn:Hout.
    + destruct (Torch.size0 param) as [n|] eqn:Hn; cbn [rbind]; [|discriminate].
      destruct (Torch.assign_rows (Torch.zeros_like own) n param) as [np|] eqn:Hnp;
        cbn [rbind]; [|discriminate].
      destruct (Torch.copy_ own np) as [own'|] eqn:Hcp; cbn [rbind]; [|discriminate].
      intros _.
      exists [(name, own')],
             (if negb (shape_eqb (shape own) (shape param))
              then [NotedSizeMismatch name (shape own) (shape param)] else []).
      split.
      { cbn [replay fold_left fst snd]. eapply same_shapes_insert; [exact Hown|].
        eapply copy_keeps_shape. exact Hcp. }
      intros t Ht. destruct (same_shapes_some _ _ _ _ Ht Hown) as (own2 & -> & Hs2).
      cbn [rbind].
      rewrite (zeros_like_shape_only own2 own Hs2), Hnp. cbn [rbind].
      rewrite (copy_shape_only own2 own np Hs2), Hcp. cbn [rbind]. rewrite Hs2.
      destruct (negb _); cbn [store say own_state printed replay fold_left fst snd];
        rewrite ?app_nil_r; reflexivity.
    + destruct (Torch.copy_ own param) as [own'|] eqn:Hcp; cbn [rbind]; [|discriminate].
      intros _.
      exists [(name, own')],
             (if negb (shape_eqb (shape own) (shape param))
              then [NotedSizeMismatch name (shape own) (shape param)] else []).
      split.
      { cbn [replay fold_left fst snd]. eapply same_shapes_insert; [exact Hown|].
        eapply copy_keeps_shape. exact Hcp. }
      intros t Ht. destruct (same_shapes_some _ _ _ _ Ht Hown) as (own2 & -> & Hs2).
      rewrite (copy_shape_only own2 own param Hs2), Hcp. cbn [rbind].
      rewrite Hs2.
      destruct (negb _); cbn [store say own_state printed replay fold_left fst snd];
        rewrite ?app_nil_r; reflexivity.
  - destruct (PyStr.startswith name "module.") eqn:Hpre.
    + destruct (own_state s !! PyStr.split_last "module." name) as [own|] eqn:Hstr.
      * destruct (negb (shape_eqb (shape own) (shape param))) eqn:Hsh.
        -- intros _.
           exists [], [SkippedSizeMismatch (PyStr.split_last "module." name)
                         (shape own) (shape param)].
           split; [apply same_shapes_refl|].
           intros t Ht. rewrite (same_shapes_none _ _ _ Ht Hown).
           destruct (same_shapes_some _ _ _ _ Ht Hstr) as (own2 & -> & Hs2).
           rewrite Hs2, Hsh. reflexivity.
        -- destruct (Torch.copy_ own param) as [own'|] eqn:Hcp; cbn [rbind];
             [|discriminate].
           intros _.
           exists [(PyStr.split_last "module." name, own')], [].
           split.
           { cbn [replay fold_left fst snd]. eapply same_shapes_insert; [exact Hstr|].
             eapply copy_keeps_shape. exact Hcp. }
           intros t Ht. rewrite (same_shapes_none _ _ _ Ht Hown).
           destruct (same_shapes_some _ _ _ _ Ht Hstr) as (own2 & -> & Hs2).
           rewrite Hs2, Hsh. rewrite (copy_shape_only own2 own param Hs2), Hcp.
           cbn [rbind store own_state printed replay fold_left fst snd].
           rewrite app_nil_r. reflexivity.
      * intros _.
        exists [], [SkippedStrippedAbsent name (PyStr.split_last "module." name)].
        split; [apply same_shapes_refl|].
        intros t Ht. rewrite (same_shapes_none _ _ _ Ht Hown).
        rewrite (same_shapes_none _ _ _ Ht Hstr). reflexivity.
    + intros _. exists [], [SkippedAbsent name].
      split; [apply same_shapes_refl|].
      intros t Ht. rewrite (same_shapes_none _ _ _ Ht Hown). reflexivity.
Qed.

Lemma same_shapes_replay w m1 m2 :
  same_shapes m1 m2 -> same_shapes (replay w m1) (replay w m2).
Proof.
  revert m1 m2. induction w as [|[k v] w IH]; intros m1 m2 H; [exact H|].
  cbn [replay fold_left fst snd]. apply IH. intros k'.
  destruct (decide (k = k')) as [<-|Hne].
  - rewrite !lookup_insert_eq. reflexivity.
  - rewrite !lookup_insert_ne by exact Hne. apply H.
Qed.

Lemma replay_app w1 w2 m : replay (w1 ++ w2) m = replay w2 (replay w1 m).
Proof. unfold replay. apply fold_left_app. Qed.

Lemma load_effect (sd : list (string * Tensor)) (s s' : LoadState) :
  for_each load_entry sd s = Ok s' ->
  exists writes evs,
    same_shapes (own_state s) (replay writes (own_state s))
    /\ forall t, same_shapes (own_state s) (own_state t) ->
         for_each load_entry sd t
         = Ok (mkLoad (replay writes (own_state t)) (printed t ++ evs)).
Proof.
  revert s. induction sd as [|e sd IH]; intros s.
  - intros _. exists [], []. split; [apply same_shapes_refl|].
    intros t _. cbn [for_each replay fold_left]. rewrite app_nil_r.
    destruct t; reflexivity.
  - cbn [for_each]. destruct (load_entry s e) as [s1|] eqn:He; cbn [rbind]; [|discriminate].
    intros Hrest.
    destruct (load_entry_effect s e s1 He) as (w1 & ev1 & Hsh1 & Hdet1).
    destruct (IH s1 Hrest) as (w2 & ev2 & Hsh2 & Hdet2).
    pose proof (Hdet1 s (same_shapes_refl _)) as Hs1. rewrite He in Hs1.
    injection Hs1 as Hs1.
    exists (w1 ++ w2), (ev1 ++ ev2). split.
    + rewrite replay_app. eapply same_shapes_trans; [exact Hsh1|].
      rewrite Hs1 in Hsh2. cbn [own_state] in Hsh2. exact Hsh2.
    + intros t Ht. rewrite (Hdet1 t Ht). cbn [rbind].
      rewrite Hdet2.
      * cbn [own_state printed]. rewrite replay_app, app_assoc. reflexivity.
      * rewrite Hs1. cbn [own_state].
        apply same_shapes_replay. exact Ht.
Qed.
End Effects.

Section Replays.

Lemma replay_agree w (m1 m2 : gmap string Tensor) k :
  m1 !! k = m2 !! k -> replay w m1 !! k = replay w m2 !! k.
Proof.
  revert m1 m2. induction w as [|[k1 v1] w IH]; intros m1 m2 H; [exact H|].
  cbn [replay fold_left fst snd]. apply IH.
  destruct (decide (k1 = k)) as [->|Hne].
  - rewrite !lookup_insert_eq. reflexivity.
  - rewrite !lookup_insert_ne by exact Hne. exact H.
Qed.

Lemma insert_replay_insert w (m : gmap string Tensor) k v :
  <[k := v]> (replay w (<[k := v]> m)) = <[k := v]> (replay w m).
Proof.
  apply map_eq. intros k'. destruct (decide (k = k')) as [<-|Hne].
  - rewrite !lookup_insert_eq. reflexivity.
  - rewrite !lookup_insert_ne by exact Hne. apply replay_agree.
    apply lookup_insert_ne. exact Hne.
Qed.

Lemma replay_snoc w k v (m : gmap string Tensor) :
  replay (w ++ [(k, v)]) m = <[k := v]> (replay w m).
Proof. unfold replay. rewrite fold_left_app. reflexivity. Qed.

(** Replaying the same writes a second time changes nothing. *)
Lemma replay_twice w (m : gmap string Tensor) : replay w (replay w m) = replay w m.
Proof.
  revert m. induction w as [|[k v] w IH] using rev_ind; intros m; [reflexivity|].
  rewrite !replay_snoc, insert_replay_insert, IH. reflexivity.
Qed.

End Replays.

Section Reconciliation.
Import TrainMain.

(** Loading the same source a second time, into the result of the first
    load, changes nothing: the same tensors are written and the same
    events are reported. *)
Theorem loading_twice_is_loading_once
    (model : gmap string Tensor) (sd : list (string * Tensor)) (st : LoadState) :
  load_my_state_dict model sd = Ok st ->
  load_my_state_dict (own_state st) sd = Ok st.
Proof.
  unfold load_my_state_dict. intros H.
  destruct (load_effect sd _ _ H) as (w & evs & Hsh & Hdet).
  pose proof (Hdet _ (same_shapes_refl _)) as H1. rewrite H in H1.
  injection H1 as ->. cbn [own_state printed] in *.
  rewrite (Hdet (mkLoad (replay w model) [])) by exact Hsh.
  cbn [own_state printed]. rewrite replay_twice. reflexivity.
Qed.

Lemma load_entry_state_shapes s e s' :
  load_entry_state s e = Ok s' -> same_shapes (own_state s) (own_state s').
Proof.
  destruct e as [name param]. unfold load_entry_state.
  destruct (own_state s !! name) as [own|] eqn:Hown.
  - destruct (Torch.copy_ own param) as [own'|] eqn:Hcp; cbn [rbind]; [|discriminate].
    intros H. injection H as <-. cbn [store own_state].
    eapply same_shapes_insert; [exact Hown|]. eapply copy_keeps_shape. exact Hcp.
  - intros H. injection H as <-. apply same_shapes_refl.
Qed.

Lemma mahalanobis_load_entry_shapes s e s' :
  Mahalanobis.load_entry s e = Ok s' -> same_shapes (own_state s) (own_state s').
Proof.
  destruct e as [name param]. unfold Mahalanobis.load_entry.
  destruct (own_state s !! name) as [own|] eqn:Hown.
  - destruct (Torch.copy_ own param) as [own'|] eqn:Hcp; cbn [rbind]; [|discriminate].
    intros H. injection H as <-. cbn [store own_state].
    eapply same_shapes_insert; [exact Hown|]. eapply copy_keeps_shape. exact Hcp.
  - destruct (PyStr.startswith name "module.").
    + destruct (own_state s !! PyStr.split_last "module." name) as [own|] eqn:Hstr;
        [|discriminate].
      destruct (Torch.copy_ own param) as [own'|] eqn:Hcp; cbn [rbind]; [|discriminate].
      intros H. injection H as <-. cbn [store own_state].
      eapply same_shapes_insert; [exact Hstr|]. eapply copy_keeps_shape. exact Hcp.
    + intros H. injection H as <-. apply same_shapes_refl.
Qed.

(** None of the three loaders adds or removes a parameter name or changes
    the shape of a parameter. *)
Theorem loaders_keep_names_and_shapes
    (model : gmap string Tensor) (sd : list (string * Tensor)) (st : LoadState) :
  (load_my_state_dict model sd = Ok st
   \/ load_my_state_dict_state model sd = Ok st
   \/ Mahalanobis.load_my_state_dict model sd = Ok st) ->
  forall name, option_map shape (own_state st !! name)
               = option_map shape (model !! name).
Proof.
  intros H name. symmetry. revert name. change (same_shapes model (own_state st)).
  destruct H as [H|[H|H]].
  - destruct (load_effect sd _ _ H) as (w & evs & Hsh & Hdet).
    pose proof (Hdet _ (same_shapes_refl _)) as H1.
    unfold load_my_state_dict in H. rewrite H in H1.
    injection H1 as ->. exact Hsh.
  - apply (for_each_preserves load_entry_state
             (fun s s' => same_shapes (own_state s) (own_state s'))) in H.
    + exact H.
    + intros s. apply same_shapes_refl.
    + intros s1 s2 s3. apply same_shapes_trans.
    + intros s x s'. apply load_entry_state_shapes.
  - apply (for_each_preserves Mahalanobis.load_entry
             (fun s s' => same_shapes (own_state s) (own_state s'))) in H.
    + exact H.
    + intros s. apply same_shapes_refl.
    + intros s1 s2 s3. apply same_shapes_trans.
    + intros s x s'. apply mahalanobis_load_entry_shapes.
Qed.

Lemma tensor_eta (t : Tensor) (sh : list nat) :
  sh = shape t -> mkTensor sh (data t) = t.
Proof. intros ->. destruct t; reflexivity. Qed.

Lemma copy_same_shape own param :
  shape own = shape param -> Torch.copy_ own param = Ok param.
Proof.
  intros H. unfold Torch.copy_, Torch.broadcast_to.
  rewrite H, shape_eqb_refl. cbn [rbind]. rewrite tensor_eta; reflexivity.
Qed.

(** A source entry whose name and shape are those of a target parameter
    replaces that parameter and reports nothing. *)
Lemma load_entry_same_shape s name param own :
  own_state s !! name = Some own ->
  shape own = shape param ->
  (is_output_layer name = true -> shape param <> []) ->
  load_entry s (name, param) = Ok (store s name param).
Proof.
  intros Hown Hs Hout. unfold load_entry. rewrite Hown, Hs, shape_eqb_refl.
  cbn [negb].
  destruct (is_output_layer name).
  - specialize (Hout eq_refl).
    destruct (shape param) as [|n rest] eqn:Hp; [congruence|].
    unfold Torch.size0. rewrite Hp. cbn [rbind].
    unfold Torch.assign_rows, Torch.zeros_like. cbn [shape data]. rewrite Hs.
    rewrite Nat.min_id.
    unfold Torch.copy_to. rewrite Hp, shape_eqb_refl. cbn [rbind].
    rewrite skipn_repeat. cbn [numel fold_right]. rewrite Nat.sub_diag.
    cbn [repeat]. rewrite app_nil_r.
    rewrite copy_same_shape by (cbn [shape]; exact Hs). cbn [rbind].
    rewrite tensor_eta by (symmetry; exact Hp). reflexivity.
  - rewrite copy_same_shape by exact Hs. reflexivity.
Qed.

Lemma load_same_shapes_from (sd : list (string * Tensor)) (s : LoadState) :
  List.NoDup (map fst sd) ->
  (forall name param, In (name, param) sd ->
     exists own, own_state s !! name = Some own /\ shape own = shape param
                 /\ (is_output_layer name = true -> shape param <> [])) ->
  exists st,
    for_each load_entry sd s = Ok st
    /\ printed st = printed s
    /\ (forall name param, In (name, param) sd -> own_state st !! name = Some param)
    /\ (forall name, ~ In name (map fst sd) ->
          own_state st !! name = own_state s !! name).
Proof.
  revert s. induction sd as [|[name param] sd IH]; intros s Hnd Hall.
  - exists s. cbn [for_each]. repeat split; try reflexivity. intros ? ? [].
  - cbn [map fst] in Hnd. apply NoDup_cons_iff in Hnd. destruct Hnd as [Hfresh Hnd].
    destruct (Hall name param (or_introl eq_refl)) as (own & Hown & Hs & Hout).
    cbn [for_each]. rewrite (load_entry_same_shape s name param own Hown Hs Hout).
    cbn [rbind].
    destruct (IH (store s name param) Hnd) as (st & Hrun & Hpr & Hin & Hother).
    { intros name' param' Hin'.
      destruct (Hall name' param' (or_intror Hin')) as (own' & Hown' & Hrest).
      exists own'. split; [|exact Hrest]. cbn [store own_state].
      rewrite lookup_insert_ne; [exact Hown'|].
      intros ->. apply Hfresh. apply in_map_iff. exists (name', param'). auto. }
    exists st. split; [exact Hrun|]. split; [exact Hpr|]. split.
    + intros name' param' [Heq|Hin'].
      * injection Heq as <- <-. rewrite (Hother name Hfresh).
        cbn [store own_state]. apply lookup_insert_eq.
      * apply Hin. exact Hin'.
    + intros name' Hnot. cbn [map fst] in Hnot.
      rewrite Hother by (intros Hin'; apply Hnot; right; exact Hin').
      cbn [store own_state].
      apply lookup_insert_ne. intros ->. apply Hnot. left. reflexivity.
Qed.

(** Reconciling a source with a target that has the same names and shapes:
    nothing is skipped or reported, and the target holds exactly the
    source weights afterwards. *)
Theorem identical_names_and_shapes_load_exactly
    (model : gmap string Tensor) (sd : list (string * Tensor)) :
  List.NoDup (map fst sd) ->
  (forall name param, In (name, param) sd ->
     exists own, model !! name = Some own /\ shape own = shape param
                 /\ (is_output_layer name = true -> shape param <> [])) ->
  exists st,
    load_my_state_dict model sd = Ok st
    /\ printed st = []
    /\ (forall name param, In (name, param) sd -> own_state st !! name = Some param)
    /\ (forall name, ~ In name (map fst sd) -> own_state st !! name = model !! name).
Proof.
  intros Hnd Hall. apply (load_same_shapes_from sd (mkLoad model []) Hnd Hall).
Qed.

(** A source none of whose names is known to the target, with or without
    the ["module."] prefix, leaves the target as it is and reports one
    event per name. *)
Theorem unknown_names_change_nothing
    (model : gmap string Tensor) (sd : list (string * Tensor)) :
  (forall name param, In (name, param) sd ->
     model !! name = None /\ model !! PyStr.split_last "module." name = None) ->
  exists evs,
    load_my_state_dict model sd = Ok (mkLoad model evs)
    /\ List.length evs = List.length sd.
Proof.
  unfold load_my_state_dict.
  assert (H : forall evs0,
    (forall name param, In (name, param) sd ->
       model !! name = None /\ model !! PyStr.split_last "module." name = None) ->
    exists evs, for_each load_entry sd (mkLoad model evs0) = Ok (mkLoad model (evs0 ++ evs))
                /\ List.length evs = List.length sd).
  { induction sd as [|[name param] sd IH]; intros evs0 Hall.
    - exists []. cbn [for_each]. rewrite app_nil_r. split; reflexivity.
    - destruct (Hall name param (or_introl eq_refl)) as [H1 H2].
      destruct (load_entry_unmatched (mkLoad model evs0) name param H1 H2) as (e & He).
      cbn [for_each]. rewrite He. cbn [rbind]. unfold say. cbn [own_state printed].
      destruct (IH (evs0 ++ [e])) as (evs & Hrun & Hlen).
      { intros n p Hin. apply (Hall n p). right. exact Hin. }
      exists (e :: evs). rewrite Hrun. split.
      + rewrite <- app_assoc. reflexivity.
      + cbn [List.length]. rewrite Hlen. reflexivity. }
  intros Hall. destruct (H [] Hall) as (evs & Hrun & Hlen).
  exists evs. split; [exact Hrun|exact Hlen].
Qed.

Lemma prefix_nil (s : string) : String.prefix "" s = true.
Proof. destruct s; reflexivity. Qed.

Lemma startswith_module (k : string) : PyStr.startswith ("module." +:+ k) "module." = true.
Proof.
  unfold PyStr.startswith. cbv [String.append]. cbn. apply prefix_nil.
Qed.

Lemma split_last_module (k : string) :
  PyStr.after_last "module." k = None ->
  PyStr.split_last "module." ("module." +:+ k) = k.
Proof.
  intros H. unfold PyStr.split_last. cbv [String.append].
  cbn [PyStr.after_last]. rewrite H. cbn. rewrite prefix_nil. reflexivity.
Qed.

(** The loader for [--state] copies the entries whose names the target
    knows, says nothing about the others and never adds a name. *)
Theorem state_loader_ignores_unknown_names
    (model : gmap string Tensor) (sd : list (string * Tensor)) :
  List.NoDup (map fst sd) ->
  (forall name param own, In (name, param) sd ->
     model !! name = Some own -> shape own = shape param) ->
  exists st,
    load_my_state_dict_state model sd = Ok st
    /\ printed st = []
    /\ (forall name param, In (name, param) sd -> is_Some (model !! name) ->
          own_state st !! name = Some param)
    /\ (forall name, ~ In name (map fst sd) -> own_state st !! name = model !! name)
    /\ (forall name, model !! name = None -> own_state st !! name = None).
Proof.
  unfold load_my_state_dict_state.
  assert (H : forall s : LoadState,
    List.NoDup (map fst sd) ->
    (forall name param own, In (name, param) sd ->
       own_state s !! name = Some own -> shape own = shape param) ->
    exists st,
      for_each load_entry_state sd s = Ok st
      /\ printed st = printed s
      /\ (forall name param, In (name, param) sd -> is_Some (own_state s !! name) ->
            own_state st !! name = Some param)
      /\ (forall name, ~ In name (map fst sd) ->
            own_state st !! name = own_state s !! name)
      /\ (forall name, own_state s !! name = None -> own_state st !! name = None)).
  { induction sd as [|[name param] sd IH]; intros s Hnd Hall.
    - exists s. cbn [for_each]. repeat split; try reflexivity; auto. intros ? ? [].
    - cbn [map fst] in Hnd. apply NoDup_cons_iff in Hnd. destruct Hnd as [Hfresh Hnd].
      cbn [for_each]. unfold load_entry_state at 1.
      destruct (own_state s !! name) as [own|] eqn:Hown.
      + rewrite copy_same_shape
          by (apply (Hall name param own); [left; reflexivity|exact Hown]).
        cbn [rbind].
        destruct (IH (store s name param) Hnd) as (st & Hrun & Hpr & Hin & Hother & Hnone).
        { intros n p o Hin' Ho. cbn [store own_state] in Ho.
          rewrite lookup_insert_ne in Ho.
          - apply (Hall n p o); [right; exact Hin'|exact Ho].
          - intros ->. apply Hfresh. apply in_map_iff. exists (n, p). auto. }
        exists st. split; [exact Hrun|]. split; [exact Hpr|]. split; [|split].
        * intros n p [Heq|Hin'] Hsome.
          -- injection Heq as <- <-. rewrite (Hother name Hfresh).
             cbn [store own_state]. apply lookup_insert_eq.
          -- apply Hin; [exact Hin'|]. cbn [store own_state].
             rewrite lookup_insert_ne; [exact Hsome|].
             intros ->. apply Hfresh. apply in_map_iff. exists (n, p). auto.
        * intros n Hnot. rewrite Hother by (intros Hin'; apply Hnot; right; exact Hin').
          cbn [store own_state]. apply lookup_insert_ne.
          intros ->. apply Hnot. left. reflexivity.
        * intros n Hn. apply Hnone. cbn [store own_state].
          rewrite lookup_insert_ne; [exact Hn|]. intros ->. congruence.
      + destruct (IH s Hnd) as (st & Hrun & Hpr & Hin & Hother & Hnone).
        { intros n p o Hin' Ho. apply (Hall n p o); [right; exact Hin'|exact Ho]. }
        exists st. split; [exact Hrun|]. split; [exact Hpr|]. split; [|split].
        * intros n p [Heq|Hin'] Hsome.
          -- injection Heq as <- <-. rewrite Hown in Hsome. destruct Hsome; discriminate.
          -- apply Hin; assumption.
        * intros n Hnot. apply Hother. intros Hin'. apply Hnot. right. exact Hin'.
        * exact Hnone. }
  intros Hnd Hall. apply (H (mkLoad model []) Hnd Hall).
Qed.

Lemma prefixed_entry_loads s k param own :
  own_state s !! k = Some own ->
  shape own = shape param ->
  own_state s !! ("module." +:+ k) = None ->
  PyStr.after_last "module." k = None ->
  load_entry s ("module." +:+ k, param) = Ok (store s k param)
  /\ Mahalanobis.load_entry s ("module." +:+ k, param) = Ok (store s k param).
Proof.
  intros Hown Hs Hnone Hfree.
  unfold load_entry, Mahalanobis.load_entry.
  rewrite Hnone, startswith_module, (split_last_module k Hfree), Hown.
  rewrite Hs, shape_eqb_refl. cbn [negb].
  rewrite copy_same_shape by exact Hs. split; reflexivity.
Qed.

(** Weights saved from a [DataParallel] model carry the ["module."]
    prefix; both prefix-stripping loaders put them into the bare model
    under the stripped names, unchanged and without a report. *)
Theorem prefixed_checkpoint_loads_into_bare_model
    (model : gmap string Tensor) (bare : list (string * Tensor)) :
  List.NoDup (map fst bare) ->
  (forall k param, In (k, param) bare ->
     exists own, model !! k = Some own /\ shape own = shape param) ->
  (forall k param, In (k, param) bare ->
     model !! ("module." +:+ k) = None /\ PyStr.after_last "module." k = None) ->
  let sd := map (fun kp : string * Tensor => ("module." +:+ fst kp, snd kp)) bare in
  exists st,
    load_my_state_dict model sd = Ok st
    /\ Mahalanobis.load_my_state_dict model sd = Ok st
    /\ printed st = []
    /\ (forall k param, In (k, param) bare -> own_state st !! k = Some param)
    /\ (forall k, ~ In k (map fst bare) -> own_state st !! k = model !! k).
Proof.
  unfold load_my_state_dict, Mahalanobis.load_my_state_dict.
  assert (H : forall s : LoadState,
    List.NoDup (map fst bare) ->
    (forall k param, In (k, param) bare ->
       exists own, own_state s !! k = Some own /\ shape own = shape param) ->
    (forall k param, In (k, param) bare ->
       own_state s !! ("module." +:+ k) = None /\ PyStr.after_last "module." k = None) ->
    exists st,
      for_each load_entry
        (map (fun kp : string * Tensor => ("module." +:+ fst kp, snd kp)) bare) s = Ok st
      /\ for_each Mahalanobis.load_entry
           (map (fun kp : string * Tensor => ("module." +:+ fst kp, snd kp)) bare) s = Ok st
      /\ printed st = printed s
      /\ (forall k param, In (k, param) bare -> own_state st !! k = Some param)
      /\ (forall k, ~ In k (map fst bare) -> own_state st !! k = own_state s !! k)).
  { induction bare as [|[k param] bare IH]; intros s Hnd Hall Hfree.
    - exists s. cbn [map for_each]. repeat split; try reflexivity. intros ? ? [].
    - cbn [map fst] in Hnd. apply NoDup_cons_iff in Hnd. destruct Hnd as [Hfresh Hnd].
      destruct (Hall k param (or_introl eq_refl)) as (own & Hown & Hs).
      destruct (Hfree k param (or_introl eq_refl)) as (Hnone & Hk).
      destruct (prefixed_entry_loads s k param own Hown Hs Hnone Hk) as [H1 H2].
      cbn [map for_each fst snd]. rewrite H1, H2. cbn [rbind].
      destruct (IH (store s k param) Hnd) as (st & Hr1 & Hr2 & Hpr & Hin & Hother).
      { intros k' p' Hin'. destruct (Hall k' p' (or_intror Hin')) as (own' & Hown' & Hs').
        exists own'. split; [|exact Hs']. cbn [store own_state].
        rewrite lookup_insert_ne; [exact Hown'|].
        intros ->. apply Hfresh. apply in_map_iff. exists (k', p'). auto. }
      { intros k' p' Hin'. destruct (Hfree k' p' (or_intror Hin')) as (Hn' & Hk').
        split; [|exact Hk']. cbn [store own_state].
        rewrite lookup_insert_ne; [exact Hn'|].
        intros Heq. rewrite Heq in Hown. congruence. }
      exists st. split; [exact Hr1|]. split; [exact Hr2|]. split; [exact Hpr|]. split.
      + intros k' p' [Heq|Hin'].
        * injection Heq as <- <-. rewrite (Hother k Hfresh).
          cbn [store own_state]. apply lookup_insert_eq.
        * apply Hin. exact Hin'.
      + intros k' Hnot. rewrite Hother by (intros Hin'; apply Hnot; right; exact Hin').
        cbn [store own_state]. apply lookup_insert_ne.
        intros ->. apply Hnot. left. reflexivity. }
  intros Hnd Hall Hfree. apply (H (mkLoad model []) Hnd Hall Hfree).
Qed.

End Reconciliation.

(** * Further facts about the class weights *)

Section ClassWeightEdges.
Import TrainMain.

Lemma Forall_in_range_concat n (loader : list (list Z)) :
  Forall (Forall (in_range n)) loader -> Forall (in_range n) (concat loader).
Proof.
  induction 1 as [|b bs Hb _ IH]; [constructor|].
  cbn [concat]. apply Forall_app. split; assumption.
Qed.

(** The weights depend on the labels of the traversal only, not on how
    the loader cuts them into batches: one batch holding all labels
    gives the same weights. *)
Theorem class_weights_ignore_batching
    (loader : list (list Z)) (num_classes : nat) (c : R) :
  loader <> [] ->
  Forall (Forall (in_range num_classes)) loader ->
  calculate_class_weights loader num_classes c
  = calculate_class_weights [concat loader] num_classes c.
Proof.
  intros Hne Hrange. unfold calculate_class_weights.
  rewrite (count_loop_start num_classes loader Hne Hrange).
  rewrite (count_loop_start num_classes [concat loader]).
  - cbn [concat]. rewrite app_nil_r. reflexivity.
  - discriminate.
  - constructor; [apply Forall_in_range_concat; exact Hrange|constructor].
Qed.

Lemma count_occ_le_length (flat : list Z) (v : Z) :
  (count_occ Z.eq_dec flat v <= List.length flat)%nat.
Proof.
  induction flat as [|x l IH]; [reflexivity|].
  cbn [count_occ List.length]. destruct (Z.eq_dec x v); lia.
Qed.

(** With [c > 1] every weight lies between [1 / ln (c + 1)] and
    [1 / ln c]: the hyper-parameter bounds the weights from above and a
    class covering the whole traversal reaches the lower end. *)
Theorem class_weights_are_bounded
    (loader : list (list Z)) (num_classes : nat) (c : R) :
  (1 < c)%R ->
  (0 < total_pixels loader)%Z ->
  Forall (Forall (in_range num_classes)) loader ->
  exists ws,
    calculate_class_weights loader num_classes c = Ok ws
    /\ forall k, (k < num_classes)%nat ->
         (0 < 1 / ln (c + 1) <= nth k ws 0)%R /\ (nth k ws 0 <= 1 / ln c)%R.
Proof.
  intros Hc Htot Hrange.
  assert (Hne : loader <> []).
  { intros ->. unfold total_pixels in Htot. cbn in Htot. lia. }
  destruct (class_weights_formula loader num_classes c Hne Hrange)
    as (ws & Hrun & _ & Hval).
  exists ws. split; [exact Hrun|]. intros k Hk. rewrite (Hval k Hk).
  set (p := (IZR (pixels_labelled loader k) / IZR (total_pixels loader))%R).
  assert (Htot' : (0 < IZR (total_pixels loader))%R) by (apply IZR_lt; exact Htot).
  assert (Hp0 : (0 <= p)%R).
  { unfold p. apply Rmult_le_pos.
    - apply IZR_le. unfold pixels_labelled. lia.
    - apply Rlt_le, Rinv_0_lt_compat. exact Htot'. }
  assert (Hp1 : (p <= 1)%R).
  { unfold p. apply (Rmult_le_reg_r (IZR (total_pixels loader))); [exact Htot'|].
    unfold Rdiv. rewrite Rmult_assoc, Rinv_l, Rmult_1_r, Rmult_1_l by lra.
    apply IZR_le. unfold pixels_labelled, total_pixels.
    pose proof (count_occ_le_length (concat loader) (Z.of_nat k)). lia. }
  assert (Hlnc : (0 < ln c)%R) by (rewrite <- ln_1; apply ln_increasing; lra).
  assert (Hmono : forall x y, (1 < x)%R -> (x <= y)%R -> (ln x <= ln y)%R).
  { intros x y Hx [Hlt| ->]; [|lra]. apply Rlt_le, ln_increasing; lra. }
  assert (H1 : (ln c <= ln (c + p))%R) by (apply Hmono; lra).
  assert (H2 : (ln (c + p) <= ln (c + 1))%R) by (apply Hmono; lra).
  unfold Rdiv. rewrite !Rmult_1_l.
  split; [split|].
  - apply Rinv_0_lt_compat. lra.
  - apply Rinv_le_contravar; lra.
  - apply Rinv_le_contravar; lra.
Qed.

Lemma bincount_negative (flat : list Z) (n : nat) (l : Z) :
  In l flat -> (l < 0)%Z ->
  bincount flat n = Raise (ValueError "'list' argument must have no negative elements").
Proof.
  intros Hin Hl. unfold bincount.
  replace (existsb (fun v => (v <? 0)%Z) flat) with true; [reflexivity|].
  symmetry. apply existsb_exists. exists l. split; [exact Hin|].
  apply Z.ltb_lt. exact Hl.
Qed.

(** A negative label anywhere in the traversal stops the estimator: no
    weights are returned, whatever the other batches hold. *)
Theorem negative_label_is_refused
    (loader : list (list Z)) (num_classes : nat) (c : R) (b : list Z) (l : Z) :
  In b loader -> In l b -> (l < 0)%Z ->
  raises (calculate_class_weights loader num_classes c).
Proof.
  intros Hb Hl Hneg. unfold calculate_class_weights.
  assert (H : forall acc,
    raises (for_each (fun acc label => count_batch acc num_classes label) loader acc)).
  { induction loader as [|b' bs IH]; intros acc; [destruct Hb|].
    cbn [for_each]. destruct Hb as [->|Hb].
    - destruct acc as [cc tot]. unfold count_batch at 1.
      rewrite (bincount_negative b num_classes l Hl Hneg). cbn [rbind].
      eexists. reflexivity.
    - destruct (count_batch acc num_classes b') as [acc'|e]; cbn [rbind].
      + apply IH. exact Hb.
      + eexists. reflexivity. }
  destruct (H (None, 0%Z)) as (e & ->). cbn [rbind]. eexists. reflexivity.
Qed.

Lemma max_label_reaches (flat : list Z) (l : Z) :
  In l flat -> (l <= fold_right Z.max (-1) flat)%Z.
Proof.
  induction flat as [|x xs IH]; [intros []|].
  intros [->|Hin]; cbn [fold_right]; [lia|]. specialize (IH Hin). lia.
Qed.

(** A label beyond the classes makes the histogram of its batch longer
    than the running one, and the in-place addition is refused: after a
    first batch of class indices, a later batch with such a label raises
    the broadcasting error. *)
Theorem label_beyond_classes_cannot_be_added
    (b1 b2 : list Z) (rest : list (list Z)) (num_classes : nat) (c : R) (l : Z) :
  (1 <= num_classes)%nat ->
  Forall (in_range num_classes) b1 ->
  Forall (fun v => (0 <= v)%Z) b2 ->
  In l b2 -> (Z.of_nat num_classes <= l)%Z ->
  calculate_class_weights (b1 :: b2 :: rest) num_classes c
  = Raise (ValueError "operands could not be broadcast together").
Proof.
  intros Hn Hb1 Hb2 Hin Hl. unfold calculate_class_weights.
  cbn [for_each]. unfold count_batch at 1.
  rewrite (bincount_in_range num_classes b1 Hb1). cbn [rbind add_counts].
  unfold count_batch at 1. unfold bincount.
  replace (existsb (fun v => (v <? 0)%Z) b2) with false.
  2:{ symmetry. apply not_true_is_false. intros H.
      apply existsb_exists in H. destruct H as (v & Hv & Hneg).
      rewrite Forall_forall in Hb2. apply list_elem_of_In in Hv.
      specialize (Hb2 v Hv). apply Z.ltb_lt in Hneg. lia. }
  pose proof (max_label_reaches b2 l Hin) as Hmax.
  set (top := Z.to_nat (fold_right Z.max (-1)%Z b2 + 1)) in *.
  assert (Htop : (num_classes < top)%nat) by (unfold top; lia).
  rewrite Nat.max_r by lia. cbn [rbind add_counts].
  rewrite counts_of_length, length_map, length_seq.
  replace (num_classes =? top)%nat with false
    by (symmetry; apply Nat.eqb_neq; lia).
  destruct top as [|[|top']]; [lia|lia|].
  cbn [seq map]. reflexivity.
Qed.

End ClassWeightEdges.

(** * Further facts about the statistics *)

Section CovarianceShape.
Import Mahalanobis.

Variable Image : Type.
Variable forward : string -> gmap string Tensor -> Image -> list (list Q).
Variable args : Args.t.
Variable weights : gmap string Tensor.
Variable mean : list (list Q).

Lemma pysum_Forall2 (l1 l2 : list Q) :
  Forall2 Qeq l1 l2 -> (pysum l1 == pysum l2)%Q.
Proof.
  induction 1 as [|x y l1 l2 Hxy _ IH]; [reflexivity|].
  rewrite !pysum_cons, Hxy, IH. reflexivity.
Qed.

Lemma products_swap (m1 m2 : Q) (xs ys : list Q) :
  Forall2 Qeq
    (map (fun p : Q * Q => ((fst p - m1) * (snd p - m2))%Q) (combine xs ys))
    (map (fun p : Q * Q => ((fst p - m2) * (snd p - m1))%Q) (combine ys xs)).
Proof.
  revert ys. induction xs as [|x xs IH]; intros [|y ys]; cbn [combine map];
    try constructor.
  - cbn [fst snd]. apply Qmult_comm.
  - apply IH.
Qed.

Lemma flat_map_Forall2 {A} (f g : A -> list Q) (l : list A) :
  (forall x, Forall2 Qeq (f x) (g x)) ->
  Forall2 Qeq (flat_map f l) (flat_map g l).
Proof.
  intros H. induction l as [|x l IH]; [constructor|].
  cbn [flat_map]. apply Forall2_app; [apply H|exact IH].
Qed.

Lemma centered_products_swap (loader : list (Batch Image)) (i j : nat) :
  (pysum (centered_products Image forward args weights mean loader i j)
   == pysum (centered_products Image forward args weights mean loader j i))%Q.
Proof.
  apply pysum_Forall2. unfold centered_products.
  apply flat_map_Forall2. intros b.
  apply flat_map_Forall2. intros c.
  unfold class_products. apply products_swap.
Qed.

Lemma squares_nonneg (m : Q) (xs : list Q) :
  Forall (fun x => (0 <= x)%Q)
    (map (fun p : Q * Q => ((fst p - m) * (snd p - m))%Q) (combine xs xs)).
Proof.
  induction xs as [|x xs IH]; [constructor|].
  cbn [combine map fst snd]. constructor; [|exact IH].
  generalize (x - m)%Q. intros [n dd].
  unfold Qle, Qmult. cbn [Qnum Qden]. nia.
Qed.

Lemma flat_map_Forall {A} (P : Q -> Prop) (f : A -> list Q) (l : list A) :
  (forall x, Forall P (f x)) -> Forall P (flat_map f l).
Proof.
  intros H. induction l as [|x l IH]; [constructor|].
  cbn [flat_map]. apply Forall_app. split; [apply H|exact IH].
Qed.

Lemma centered_products_diagonal (loader : list (Batch Image)) (i : nat) :
  (0 <= pysum (centered_products Image forward args weights mean loader i i))%Q.
Proof.
  apply pysum_nonneg. unfold centered_products.
  apply flat_map_Forall. intros b. apply flat_map_Forall. intros c.
  unfold class_products. apply squares_nonneg.
Qed.

Hypothesis mean_table : wf_mean mean.
Hypothesis mean_path_given : Args.mean args <> "".

(** The matrix saved by the covariance phase is symmetric and its
    diagonal is not negative: each class adds [centered @ centered.T]
    and the division is by a count. *)
Theorem saved_covariance_is_symmetric_with_nonnegative_diagonal
    (d dacc : Device) (loader : list (Batch Image)) :
  Forall (wf_batch Image forward args weights) loader ->
  exists a,
    for_each (image_step Image forward args weights d d dacc (Some (d, mean)))
             loader initial_acc = Ok a
    /\ forall i j, (i < NUM_CLASSES)%nat -> (j < NUM_CLASSES)%nat ->
         (nth j (nth i (finalize_cov a) []) 0
          == nth i (nth j (finalize_cov a) []) 0)%Q
         /\ (0 <= nth i (nth i (finalize_cov a) []) 0)%Q.
Proof.
  intros Hwf.
  destruct (cov_pass_loop Image forward args weights mean mean_table
              (mean_given args mean_path_given) d dacc loader initial_acc _
              Hwf initial_cov_state)
    as (a & Hrun & (_ & Hrows) & Hn).
  exists a. split; [exact Hrun|]. intros i j Hi Hj.
  cbn [initial_acc num_images] in Hn. rewrite Z.add_0_l in Hn.
  assert (Hentry : forall p q, (p < NUM_CLASSES)%nat -> (q < NUM_CLASSES)%nat ->
    (nth q (nth p (finalize_cov a) []) 0
     == pysum (centered_products Image forward args weights mean loader p q)
        / inject_Z (Z.of_nat (List.length loader) * 512 * 1024))%Q).
  { intros p q Hp Hq. destruct (Hrows p Hp) as (row & Hrow & _ & Hvals).
    destruct (Hvals q Hq) as (x & Hx & Hxeq).
    rewrite (nth_lookup_Some (finalize_cov a) p []
               (map (fun x => (x / inject_Z (num_images a * 512 * 1024))%Q) row))
      by (unfold finalize_cov; rewrite lookup_map, Hrow; reflexivity).
    rewrite (nth_lookup_Some _ q 0%Q (x / inject_Z (num_images a * 512 * 1024))%Q)
      by (rewrite lookup_map, Hx; reflexivity).
    rewrite Hn, Hxeq, Qplus_0_l. reflexivity. }
  split.
  - rewrite (Hentry i j Hi Hj), (Hentry j i Hj Hi), centered_products_swap.
    reflexivity.
  - rewrite (Hentry i i Hi Hi). unfold Qdiv.
    apply Qmult_le_0_compat; [apply centered_products_diagonal|].
    apply Qinv_le_0_compat.
    change 0%Q with (inject_Z 0). rewrite <- Zle_Qle. lia.
Qed.

End CovarianceShape.

Section TwoRuns.
Import Mahalanobis.

Variable Image : Type.
Variable forward : string -> gmap string Tensor -> Image -> list (list Q).

Lemma mean_phase_table (args : Args.t) (weights : gmap string Tensor)
    (d dcov : Device) (pm : option (Device * list (list Q)))
    (loader : list (Batch Image)) :
  Args.mean args = "" ->
  Forall (wf_batch Image forward args weights) loader ->
  exists a means,
    for_each (image_step Image forward args weights d dcov d pm) loader initial_acc
      = Ok a
    /\ finalize_means a = Ok means
    /\ wf_mean means.
Proof.
  intros Hm Hwf.
  destruct (mean_pass_loop Image forward args weights Hm d dcov pm loader []
              initial_acc Hwf (initial_mean_state Image forward args weights))
    as (a & Hrun & Hst & _).
  cbn [app] in Hst.
  destruct (divide_loop Image forward args weights loader a NUM_CLASSES 0
              (sum_per_class a) Hst ltac:(lia)
              (divided_below_start Image forward args weights loader a Hst))
    as (means & Hfin & Hlen & Hrows).
  exists a, means. split; [exact Hrun|].
  split; [unfold finalize_means; rewrite Hfin; reflexivity|].
  split; [exact Hlen|].
  apply Forall_lookup. intros c row Hrow.
  assert (Hc : (c < NUM_CLASSES)%nat).
  { rewrite <- Hlen. apply lookup_lt_is_Some. eauto. }
  destruct (Hrows c Hc) as (row' & Hrow' & Hl & _).
  rewrite Hrow in Hrow'. injection Hrow' as <-. exact Hl.
Qed.

(** The two runs compose: on a CUDA host a mean run writes a table of
    19 by 19 means, and a second run given that file as [--mean] reads
    it back, completes and adds the covariance artifact beside it. *)
Theorem mean_run_feeds_covariance_run
    (args : Args.t) (host : Host) (net : gmap string Tensor)
    (loader : list (Batch Image)) (disk : gmap string File)
    (sd : list (string * Tensor)) (loaded : LoadState) :
  Args.mean args = "" ->
  Args.cpu args = false ->
  cuda_available host = true ->
  datadir_exists host = true ->
  Args.loadWeights args <> Args.mean (with_saved_mean args) ->
  torch_load disk (Args.loadDir args +:+ Args.loadWeights args) = Ok sd ->
  load_my_state_dict (kmap (String.append "module.") net) sd = Ok loaded ->
  Forall (wf_batch Image forward args (own_state loaded)) loader ->
  exists means a,
    main Image forward args host net loader disk
      = Ok (<[mean_artifact_path args := NpyFile means]> disk)
    /\ wf_mean means
    /\ for_each (image_step Image forward (with_saved_mean args) (own_state loaded)
                            cuda_device cuda_device cuda_device
                            (Some (cuda_device, means)))
                loader initial_acc = Ok a
    /\ main Image forward (with_saved_mean args) host net loader
            (<[mean_artifact_path args := NpyFile means]> disk)
       = Ok (<[cov_artifact_path args := NpyFile (finalize_cov a)]>
               (<[mean_artifact_path args := NpyFile means]> disk)).
Proof.
  intros Hm Hcpu Hcuda Hdir Hapart Hsd Hload Hwf.
  destruct (mean_phase_table args (own_state loaded) cuda_device cuda_device None
              loader Hm Hwf) as (a1 & means & Hrun1 & Hfin & Htable).
  assert (Hgiven : (0 <? String.length (Args.mean (with_saved_mean args)))%nat = true).
  { unfold with_saved_mean. cbn [Args.mean]. cbv [String.append]. reflexivity. }
  destruct (cov_pass_loop Image forward (with_saved_mean args) (own_state loaded)
              means Htable Hgiven cuda_device cuda_device loader initial_acc _
              Hwf initial_cov_state) as (a & Hrun2 & _ & _).
  exists means, a. split; [|split; [exact Htable|split; [exact Hrun2|]]].
  - unfold Mahalanobis.main, to_cuda.
    rewrite Hcpu, Hm, Hcuda, Hdir, Hsd.
    cbn [String.length Nat.ltb Nat.leb negb assert rbind].
    rewrite Hload. cbn [rbind]. rewrite Hrun1. cbn [rbind].
    rewrite Hfin. reflexivity.
  - unfold Mahalanobis.main, to_cuda. rewrite Hgiven.
    cbn [with_saved_mean Args.cpu Args.loadDir Args.loadWeights Args.mean].
    rewrite Hcpu, Hcuda, Hdir. cbn [negb assert rbind].
    unfold np_load. 
    change (Args.loadDir args +:+ "/save/mean_cityscapes_" +:+ Args.model args +:+ ".npy")
      with (mean_artifact_path args).
    rewrite lookup_insert_eq. cbn [rbind].
    replace (torch_load (<[mean_artifact_path args := NpyFile means]> disk)
               (Args.loadDir args +:+ Args.loadWeights args)) with (Ok sd).
    2:{ rewrite <- Hsd. unfold torch_load. rewrite lookup_insert_ne; [reflexivity|].
        unfold mean_artifact_path. intros H. apply (inj (String.app _)) in H.
        apply Hapart. rewrite <- H. reflexivity. }
    cbn [rbind]. rewrite Hload. cbn [rbind]. rewrite Hrun2. reflexivity.
Qed.

End TwoRuns.

(** * The further facts on the fixtures *)

Section TrainWitnesses.
Import TrainMain Fixture.




Lemma resume_without_checkpoint_is_refused_witness :
  run val_pass3 2 0 true ∅
  = Raise (AssertionError
      "Error: resume option was used but checkpoint was not found in folder").
Proof.
  apply (resume_without_checkpoint_is_refused train_pass val_pass3 getIoU getIoU
           scheduler_lr (args 2 0 true) net false ∅).
  - reflexivity.
  - intros _; discriminate.
  - reflexivity.
Defined.

Lemma empty_validation_loader_divides_by_zero_witness :
  train train_pass (fun _ _ _ _ => []) getIoU getIoU scheduler_lr
        (args 2 0 false) net false true ∅ = Raise ZeroDivisionError.
Proof.
  apply (empty_validation_loader_divides_by_zero train_pass (fun _ _ _ _ => [])
           getIoU getIoU scheduler_lr (args 2 0 false) net false ∅).
  - reflexivity.
  - intros _; discriminate.
  - intros H; discriminate H.
  - cbn. lia.
  - discriminate.
  - reflexivity.
Defined.

Lemma numbered_snapshot_follows_step_witness :
  exists st',
    epoch_end (args 3 2 false) false "../save/run" 1 2 net (new_optimizer (args 3 2 false))
              0 ∅ 1 1 0 0 1 = Ok st'
    /\ exists lfp, lp_disk st' !! "../save/run/model-001.pth"
                   = Some (ModelFile (weights net) lfp).
Proof.
  destruct (numbered_snapshot_follows_step (args 3 2 false) false "../save/run" 1 2
              net (new_optimizer (args 3 2 false)) 0 ∅ 1 1 0 0 1)
    as (st' & Hrun & Hyes & _).
  - intros H; discriminate H.
  - exists st'. split; [exact Hrun|]. apply Hyes. cbn. repeat split; lia.
Defined.

End TrainWitnesses.

Section LoaderWitnesses.
Import TrainMain.

Lemma loading_twice_is_loading_once_witness :
  load_my_state_dict {[ "encoder.weight" := vec [3; 4]%Q ]}
    [("module.encoder.weight", vec [3; 4]%Q); ("decoder.bias", vec [5]%Q)]
  = load_my_state_dict {[ "encoder.weight" := vec [1; 2]%Q ]}
      [("module.encoder.weight", vec [3; 4]%Q); ("decoder.bias", vec [5]%Q)].
Proof.
  pose proof (loading_twice_is_loading_once {[ "encoder.weight" := vec [1; 2]%Q ]}
    [("module.encoder.weight", vec [3; 4]%Q); ("decoder.bias", vec [5]%Q)]
    (mkLoad {[ "encoder.weight" := vec [3; 4]%Q ]}
            [SkippedAbsent "decoder.bias"])) as H.
  cbn [own_state] in H. rewrite H; [symmetry|]; vm_compute; reflexivity.
Defined.

Lemma loaders_keep_names_and_shapes_witness :
  option_map shape
    (({[ "encoder.weight" := vec [3; 4]%Q ]} : gmap string Tensor) !! "encoder.weight")
  = option_map shape
      (({[ "encoder.weight" := vec [1; 2]%Q ]} : gmap string Tensor) !! "encoder.weight").
Proof.
  refine (loaders_keep_names_and_shapes {[ "encoder.weight" := vec [1; 2]%Q ]}
    [("module.encoder.weight", vec [3; 4]%Q)]
    (mkLoad {[ "encoder.weight" := vec [3; 4]%Q ]} []) _ "encoder.weight").
  right. right. vm_compute. reflexivity.
Defined.

Lemma identical_names_and_shapes_load_exactly_witness :
  exists st,
    load_my_state_dict {[ "encoder.weight" := vec [1; 2]%Q ]}
                       [("encoder.weight", vec [3; 4]%Q)] = Ok st
    /\ printed st = []
    /\ own_state st !! "encoder.weight" = Some (vec [3; 4]%Q).
Proof.
  destruct (identical_names_and_shapes_load_exactly
              {[ "encoder.weight" := vec [1; 2]%Q ]}
              [("encoder.weight", vec [3; 4]%Q)])
    as (st & Hrun & Hpr & Hin & _).
  - constructor; [intros []|constructor].
  - intros name param [H|[]]. injection H as <- <-.
    exists (vec [1; 2]%Q). split; [reflexivity|]. split; [reflexivity|].
    intros H. vm_compute in H. discriminate H.
  - exists st. split; [exact Hrun|]. split; [exact Hpr|].
    apply Hin. left. reflexivity.
Defined.

Lemma unknown_names_change_nothing_witness :
  exists evs,
    load_my_state_dict {[ "encoder.weight" := vec [1; 2]%Q ]}
                       [("decoder.bias", vec [5]%Q)]
    = Ok (mkLoad {[ "encoder.weight" := vec [1; 2]%Q ]} evs)
    /\ List.length evs = 1%nat.
Proof.
  apply (unknown_names_change_nothing {[ "encoder.weight" := vec [1; 2]%Q ]}
           [("decoder.bias", vec [5]%Q)]).
  intros name param [H|[]]. injection H as <- <-.
  split; vm_compute; reflexivity.
Defined.

Lemma state_loader_ignores_unknown_names_witness :
  exists st,
    load_my_state_dict_state {[ "encoder.weight" := vec [1; 2]%Q ]}
      [("encoder.weight", vec [3; 4]%Q); ("decoder.bias", vec [5]%Q)] = Ok st
    /\ own_state st !! "encoder.weight" = Some (vec [3; 4]%Q)
    /\ own_state st !! "decoder.bias" = None.
Proof.
  destruct (state_loader_ignores_unknown_names
              {[ "encoder.weight" := vec [1; 2]%Q ]}
              [("encoder.weight", vec [3; 4]%Q); ("decoder.bias", vec [5]%Q)])
    as (st & Hrun & _ & Hin & _ & Hnone).
  - constructor; [intros [H|[]]; discriminate H|].
    constructor; [intros []|constructor].
  - intros name param own [H|[H|[]]] Hown; injection H as <- <-;
      vm_compute in Hown; [injection Hown as <-; reflexivity|discriminate Hown].
  - exists st. split; [exact Hrun|]. split.
    + apply Hin; [left; reflexivity|]. eexists. reflexivity.
    + apply Hnone. reflexivity.
Defined.

Lemma prefixed_checkpoint_loads_into_bare_model_witness :
  exists st,
    load_my_state_dict {[ "encoder.weight" := vec [1; 2]%Q ]}
                       [("module.encoder.weight", vec [3; 4]%Q)] = Ok st
    /\ Mahalanobis.load_my_state_dict {[ "encoder.weight" := vec [1; 2]%Q ]}
                       [("module.encoder.weight", vec [3; 4]%Q)] = Ok st
    /\ own_state st !! "encoder.weight" = Some (vec [3; 4]%Q).
Proof.
  destruct (prefixed_checkpoint_loads_into_bare_model
              {[ "encoder.weight" := vec [1; 2]%Q ]}
              [("encoder.weight", vec [3; 4]%Q)])
    as (st & Hrun1 & Hrun2 & _ & Hin & _).
  - constructor; [intros []|constructor].
  - intros k param [H|[]]. injection H as <- <-.
    exists (vec [1; 2]%Q). split; reflexivity.
  - intros k param [H|[]]. injection H as <- <-. split; vm_compute; reflexivity.
  - exists st. split; [exact Hrun1|]. split; [exact Hrun2|].
    apply Hin. left. reflexivity.
Defined.

End LoaderWitnesses.

Section ClassWeightWitnesses.
Import TrainMain.

Lemma class_weights_ignore_batching_witness :
  calculate_class_weights [[0; 1]; [1; 1; 0]]%Z 2 2
  = calculate_class_weights [[0; 1; 1; 1; 0]]%Z 2 2.
Proof.
  apply (class_weights_ignore_batching [[0; 1]; [1; 1; 0]]%Z 2 2).
  - discriminate.
  - repeat constructor; unfold in_range; cbn; lia.
Defined.

Lemma class_weights_are_bounded_witness :
  exists ws,
    calculate_class_weights Fixture.labels_90_10 2 2 = Ok ws
    /\ forall k, (k < 2)%nat ->
         (0 < 1 / ln (2 + 1) <= nth k ws 0)%R /\ (nth k ws 0 <= 1 / ln 2)%R.
Proof.
  apply (class_weights_are_bounded Fixture.labels_90_10 2 2).
  - lra.
  - reflexivity.
  - repeat constructor; unfold in_range; cbn; lia.
Defined.

Lemma negative_label_is_refused_witness :
  raises (calculate_class_weights [[0; 1]; [1; -1]]%Z 2 2).
Proof.
  apply (negative_label_is_refused [[0; 1]; [1; -1]]%Z 2 2 [1; -1]%Z (-1)%Z).
  - right. left. reflexivity.
  - right. left. reflexivity.
  - lia.
Defined.

Lemma label_beyond_classes_cannot_be_added_witness :
  calculate_class_weights [[0; 1]; [0; 5]]%Z 2 2
  = Raise (ValueError "operands could not be broadcast together").
Proof.
  apply (label_beyond_classes_cannot_be_added [0; 1]%Z [0; 5]%Z [] 2 2 5%Z).
  - lia.
  - repeat constructor; unfold in_range; cbn; lia.
  - repeat constructor; lia.
  - right. left. reflexivity.
  - cbn. lia.
Defined.

End ClassWeightWitnesses.

Section StatisticsWitnesses.
Import Mahalanobis StatsFixture.

Lemma wf_loader (ar : Args.t) (w : gmap string Tensor) :
  Forall (wf_batch Image forward ar w) loader.
Proof. repeat constructor. Qed.

Lemma saved_covariance_is_symmetric_with_nonnegative_diagonal_witness :
  exists a,
    for_each (image_step Image forward (args false "mean.npy") ∅
                         cuda_device cuda_device cuda_device
                         (Some (cuda_device, zeros NUM_CLASSES NUM_CLASSES)))
             loader initial_acc = Ok a
    /\ (nth 1 (nth 0 (finalize_cov a) []) 0 == nth 0 (nth 1 (finalize_cov a) []) 0)%Q
    /\ (0 <= nth 0 (nth 0 (finalize_cov a) []) 0)%Q.
Proof.
  destruct (saved_covariance_is_symmetric_with_nonnegative_diagonal
              Image forward (args false "mean.npy") ∅ (zeros NUM_CLASSES NUM_CLASSES))
    with (d := cuda_device) (dacc := cuda_device) (loader := loader)
    as (a & Hrun & H).
  - split; [reflexivity|repeat constructor].
  - discriminate.
  - apply wf_loader.
  - exists a. split; [exact Hrun|]. apply H; unfold NUM_CLASSES; lia.
Defined.

Lemma mean_run_feeds_covariance_run_witness :
  exists means a,
    main Image forward (args false "") (mkHost true true) net loader disk
      = Ok (<["/data//save/mean_cityscapes_erfnet.npy" := NpyFile means]> disk)
    /\ main Image forward (args false "/save/mean_cityscapes_erfnet.npy")
            (mkHost true true) net loader
            (<["/data//save/mean_cityscapes_erfnet.npy" := NpyFile means]> disk)
       = Ok (<["/data//save/cov_cityscapes_erfnet.npy" := NpyFile (finalize_cov a)]>
               (<["/data//save/mean_cityscapes_erfnet.npy" := NpyFile means]> disk)).
Proof.
  destruct (mean_run_feeds_covariance_run Image forward (args false "")
              (mkHost true true) net loader disk
              [("module.encoder.weight", vec [3; 4]%Q)]
              (mkLoad {[ "module.encoder.weight" := vec [3; 4]%Q ]} []))
    as (means & a & Hfirst & _ & _ & Hsecond).
  - reflexivity.
  - reflexivity.
  - reflexivity.
  - reflexivity.
  - discriminate.
  - vm_compute. reflexivity.
  - vm_compute. reflexivity.
  - apply wf_loader.
  - exists means, a. split; [exact Hfirst|exact Hsecond].
Defined.

Lemma main_needs_cuda_witness :
  raises (main Image forward (args true "") (mkHost false true) net loader disk).
Proof.
  apply (main_needs_cuda Image forward (args true "") (mkHost false true) net
           loader disk).
  reflexivity.
Defined.

End StatisticsWitnesses.
